(** * CurveFit: the residual forecaster ([src/curvefit/forecaster.py])

    A shallow embedding of [LinearResidualModel] and [Forecaster], the
    properties of the specification that are checked against it, and
    further properties of the code: of the helpers over the historical
    table, of [fit], and of [fit_residuals], [predict] and [simulate]
    together.

    Conventions of the embedding.
    - The numbers of [Forecaster] and of the methods it calls are elements
      of an ordered field [F]: float64 values read as the numbers they
      denote, with exact arithmetic, no rounding and no overflow.  A missing
      value (NaN, None) is [None] in an [option F].
    - Rounding decides what [LinearResidualModel.fit] does, since
      [np.linalg.inv] raises on a pivot that is zero after rounding.  [fit]
      and [predict] are therefore embedded a second time, over an arithmetic
      that is a parameter ([Machine]): [float64] is the arithmetic of the
      interpreter, [exact F] that of the field, and over [exact F] the
      second embedding of [fit] is the first ([machine_fit]).
    - A Python exception is a constructor of [exn]; a computation that may
      raise returns a [result].
    - An object that Python mutates in place (the data frame handed to
      [LinearResidualModel.predict], the attributes of a model or of a
      forecaster) is threaded explicitly: the function returns the object as
      the call leaves it, also when the call raises.
    - A pandas data frame is a row count and a list of named columns, in
      column order.  numpy arrays are lists; a two-dimensional array is the
      list of its columns where pandas consumes it, and the list of its rows
      where numpy iterates or flattens it. *)

From HB Require Import structures.
From mathcomp Require Import boot order algebra.
From Stdlib Require Import String PrimFloat.

Set Implicit Arguments.
Unset Strict Implicit.
Unset Printing Implicit Defensive.

Import GRing.Theory Num.Theory Order.Theory.
Local Open Scope ring_scope.

HB.instance Definition _ := hasDecEq.Build string String.eqb_spec.

(** ** Exceptions and results *)

(** The Python exceptions the module can raise.  [LinAlgError] is numpy's
    singular-matrix error; [KeyError] is the failure of a lookup by name. *)
Variant exn : Type :=
  | AttributeError
  | KeyError
  | TypeError
  | ValueError
  | LinAlgError.

Variant result (A : Type) : Type :=
  | Ok of A
  | Raise of exn.

Arguments Raise {A} e.

Definition rbind A B (m : result A) (k : A -> result B) : result B :=
  match m with
  | Ok a => k a
  | Raise e => Raise e
  end.

Notation "'Let' x ':=' m 'in' body" := (rbind m (fun x => body))
  (x name, at level 200, m at level 100, body at level 200, only parsing).

Definition is_ok A (r : result A) : bool :=
  if r is Ok _ then true else false.

(** The error kinds of the specification, read on the Python side:
    a not-found error is a failed lookup, a configuration error is the
    [ValueError] that [fit_residuals] raises, a numerical error is numpy's
    [LinAlgError]. *)
Definition is_not_found A (r : result A) : bool :=
  if r is Raise KeyError then true else false.

Definition is_configuration_error A (r : result A) : bool :=
  if r is Raise ValueError then true else false.

Definition is_numerical_error A (r : result A) : bool :=
  if r is Raise LinAlgError then true else false.

(** [mapM f s]: a Python loop or comprehension that applies [f] to the
    elements of [s] in order and stops at the first exception. *)
Fixpoint mapM A B (f : A -> result B) (s : seq A) : result (seq B) :=
  if s is x :: s' then
    Let y := f x in
    Let ys := mapM f s' in
    Ok (y :: ys)
  else Ok [::].

(** ** Data frames *)

Module DataFrame.
Section Frame.

Variable C : Type.

Record t : Type := Build {
  nrows : nat;
  columns : seq (string * seq C)
}.

Definition names (df : t) : seq string := [seq c.1 | c <- columns df].

(** pandas keeps every column as long as the index. *)
Definition wf (df : t) : bool :=
  all (fun c => size c.2 == nrows df) (columns df).

Fixpoint lookup (cols : seq (string * seq C)) (name : string) : option (seq C) :=
  if cols is c :: cols' then
    if c.1 == name then Some c.2 else lookup cols' name
  else None.

(** [df[name]] *)
Definition getitem (df : t) (name : string) : result (seq C) :=
  if lookup (columns df) name is Some v then Ok v else Raise KeyError.

(** A column that exists is overwritten where it stands; a new one is
    appended after the others. *)
Fixpoint assign (cols : seq (string * seq C)) (name : string) (v : seq C) :=
  if cols is c :: cols' then
    if c.1 == name then (name, v) :: cols' else c :: assign cols' name v
  else [:: (name, v)].

(** [df[name] = v] for a one-dimensional [v] *)
Definition setitem (df : t) (name : string) (v : seq C) : result t :=
  if size v == nrows df then Ok (Build (nrows df) (assign (columns df) name v))
  else Raise ValueError.

(** [df[name] = a] for a two-dimensional array [a], given by its columns:
    pandas takes it when it has one column of the length of the index. *)
Definition setitem2d (df : t) (name : string) (a : seq (seq C)) : result t :=
  if a is [:: v] then setitem df name v else Raise ValueError.

(** [df[name] = c] for a scalar [c] *)
Definition setitem_scalar (df : t) (name : string) (c : C) : t :=
  Build (nrows df) (assign (columns df) name (nseq (nrows df) c)).

(** [df[[n1, ..., nk]]], as the list of the selected columns. *)
Fixpoint select (df : t) (ns : seq string) : result (seq (seq C)) :=
  if ns is n :: ns' then
    Let c := getitem df n in
    Let cs := select df ns' in
    Ok (c :: cs)
  else Ok [::].

(** The rows of an array given by its columns. *)
Definition rows_of (c0 : C) (n : nat) (cols : seq (seq C)) : seq (seq C) :=
  [seq [seq nth c0 col i | col <- cols] | i <- iota 0 n].

(** [pd.DataFrame.from_records(rows, columns=[n1, n2])] for pairs. *)
Definition from_records (rows : seq (C * C)) (n1 n2 : string) : t :=
  Build (size rows) [:: (n1, [seq r.1 | r <- rows]); (n2, [seq r.2 | r <- rows])].

End Frame.

(** A frame of numbers seen as a frame of cells of another kind. *)
Definition map A B (f : A -> B) (df : t A) : t B :=
  Build (nrows df) [seq (c.1, [seq f x | x <- c.2]) | c <- columns df].

End DataFrame.

(** ** Cells of a prediction frame *)

Section Values.

Variable F : realFieldType.

(** A cell of the frame that [Forecaster.predict] builds is what iterating
    over the argument arrays yields: a number for a one-dimensional array, a
    row (a one-dimensional array itself) for a two-dimensional one. *)
Variant value : Type :=
  | Num of F
  | Arr of seq F.

(** [v * c] for a cell [v] and a coefficient [c] *)
Definition vscale (v : value) (c : F) : value :=
  match v with
  | Num x => Num (x * c)
  | Arr xs => Arr [seq x * c | x <- xs]
  end.

(** [a + b] with numpy's broadcasting: two arrays add when they are as long
    as each other or one of them has a single element. *)
Definition vadd (a b : value) : result value :=
  match a, b with
  | Num x, Num y => Ok (Num (x + y))
  | Num x, Arr ys => Ok (Arr [seq x + y | y <- ys])
  | Arr xs, Num y => Ok (Arr [seq x + y | x <- xs])
  | Arr xs, Arr ys =>
      if size xs == size ys then Ok (Arr [seq p.1 + p.2 | p <- zip xs ys])
      else if size xs == 1%N then Ok (Arr [seq head 0 xs + y | y <- ys])
      else if size ys == 1%N then Ok (Arr [seq x + head 0 ys | x <- xs])
      else Raise ValueError
  end.

(** One entry of [pred.dot(coef)]: the products of the cells of a row with
    the coefficients, added from the left. *)
Fixpoint dot_from (acc : value) (row : seq value) (c : seq F) : result value :=
  match row, c with
  | x :: row', a :: c' =>
      Let acc' := vadd acc (vscale x a) in
      dot_from acc' row' c'
  | _, _ => Ok acc
  end.

Definition dot_row (row : seq value) (c : seq F) : result value :=
  match row, c with
  | x :: row', a :: c' => dot_from (vscale x a) row' c'
  | _, _ => Ok (Num 0)
  end.

(** [float(v)], as numpy converts the cells of an object array: a number
    and an array of one element convert, any other array does not. *)
Definition to_float (v : value) : result F :=
  match v with
  | Num x => Ok x
  | Arr [:: x] => Ok x
  | Arr _ => Raise ValueError
  end.

(** Python's [max(x, epsilon)]: [epsilon] when [epsilon > x], else [x].
    The test of an array of several elements has no truth value. *)
Definition py_max (epsilon : F) (x : value) : result value :=
  match x with
  | Num a => Ok (if a < epsilon then Num epsilon else Num a)
  | Arr [::] => Ok (Arr [::])
  | Arr [:: a] => Ok (if a < epsilon then Num epsilon else Arr [:: a])
  | Arr _ => Raise ValueError
  end.

End Values.

Arguments Arr {F} _.

(** ** class LinearResidualModel(ResidualModel) *)

Module LinearResidualModel.
Section Model.

Variable F : realFieldType.

(** The attributes set by [ResidualModel.__init__]; [coef] is [None] until
    [fit] has run.  The two assertions of [__init__] are the types of
    [outcome] and [covariates]. *)
Record t : Type := Build {
  data : DataFrame.t F;
  outcome : string;
  covariates : seq string;
  coef : option (seq F)
}.

Definition init (data : DataFrame.t F) (outcome : string)
    (covariates : seq string) : t :=
  Build data outcome covariates None.

Definition intercept : string := "intercept"%string.

Definition column0 (df : DataFrame.t F) (name : string) : seq F :=
  if DataFrame.lookup (DataFrame.columns df) name is Some v then v else [::].

(** [np.asarray(df[cols])] for columns that exist. *)
Definition asarray (df : DataFrame.t F) (cols : seq string) :
    'M[F]_(DataFrame.nrows df, size cols) :=
  \matrix_(i, j) nth 0 (column0 df (nth ""%string cols j)) i.

(** [np.linalg.inv] over the field: the inverse, or [LinAlgError] for a
    singular matrix.  It is what the elimination that numpy runs returns
    when no operation rounds ([inv_some], [inv_none]); [Numpy.inv float64]
    is what it returns in float64, where a singular matrix can pass. *)
Definition linalg_inv (n : nat) (A : 'M[F]_n) : result 'M[F]_n :=
  if A \in unitmx then Ok (invmx A) else Raise LinAlgError.

(** The entries of a column vector, top down. *)
Definition ravel (n : nat) (c : 'cV[F]_n) : seq F :=
  [seq c j 0 | j <- enum 'I_n].

(** [df = self.data.copy(); df['intercept'] = 1] *)
Definition design_frame (self : t) : DataFrame.t F :=
  DataFrame.setitem_scalar (data self) intercept 1.

Definition design_columns (self : t) : seq string :=
  intercept :: covariates self.

(** [pred] and [out] of [fit] *)
Definition pred (self : t) :
    'M[F]_(DataFrame.nrows (design_frame self), size (design_columns self)) :=
  asarray (design_frame self) (design_columns self).

Definition out (self : t) :
    'M[F]_(DataFrame.nrows (design_frame self), size [:: outcome self]) :=
  asarray (design_frame self) [:: outcome self].

Definition set_coef (self : t) (c : seq F) : t :=
  Build (data self) (outcome self) (covariates self) (Some c).

(** [fit]: the model as the call leaves it, and the outcome of the call. *)
Definition fit (self : t) : t * result unit :=
  let df := design_frame self in
  match DataFrame.select df (design_columns self),
        DataFrame.select df [:: outcome self] with
  | Raise e, _ => (self, Raise e)
  | Ok _, Raise e => (self, Raise e)
  | Ok _, Ok _ =>
      match linalg_inv ((pred self)^T *m pred self) with
      | Raise e => (self, Raise e)
      | Ok inv =>
          (set_coef self (ravel (inv *m (pred self)^T *m out self)), Ok tt)
      end
  end.

(** [predict]: the frame [df] as the call leaves it (the intercept column is
    written into the caller's frame), and the array [pred.dot(self.coef)] of
    shape (rows, 1), given by its columns.  Without coefficients numpy
    multiplies every element by [None]: a [TypeError] as soon as there is an
    element, and an empty array with the columns of [pred] otherwise. *)
Definition predict (self : t) (df : DataFrame.t (value F)) :
    DataFrame.t (value F) * result (seq (seq (value F))) :=
  let df1 := DataFrame.setitem_scalar df intercept (Num 1) in
  (df1,
   Let cols := DataFrame.select df1 (intercept :: covariates self) in
   match coef self with
   | None =>
       if DataFrame.nrows df1 == 0%N then Ok (nseq (size cols) [::])
       else Raise TypeError
   | Some c =>
       if size c != size cols then Raise ValueError
       else
         Let p := mapM (fun row => dot_row row c)
                       (DataFrame.rows_of (Num 0) (DataFrame.nrows df1) cols) in
         Ok [:: p]
   end).

End Model.
End LinearResidualModel.

(** ** The model pipeline *)

Module ModelPipeline.
Section Pipeline.

Variable F : realFieldType.

(** A row of [mp.all_data]: the time, the group, the observation in fit
    space and the observation in comparison space.  A cell that is missing
    is [None]. *)
Record row : Type := Row {
  row_t : option F;
  row_group : option string;
  row_obs : option F;
  row_obs_compare : option F
}.

(** Modelled from the spec: the class [ModelPipeline] of
    [curvefit.model_generator] is not among the sources.  Section 6 gives
    what [simulate] uses of it: the historical table [all_data] with the
    columns named by [col_t], [col_group], [col_obs] and [col_obs_compare]
    (four different names), the space [predict_space], and a deterministic
    mean forecast with one number for each requested time.  The table is
    kept by rows, with these four columns only: a further column would add
    one entry to what [DataFrame.count] returns and change nothing else. *)
Record t : Type := Build {
  all_data : seq row;
  col_t : string;
  col_group : string;
  col_obs : string;
  col_obs_compare : string;
  predict_space : string;
  predict_at : option F -> string -> string -> F
}.

(** [mp.predict(times=..., predict_space=..., predict_group=...)] *)
Definition predict (mp : t) (times : seq (option F)) (space grp : string) :
    seq F :=
  [seq predict_at mp time space grp | time <- times].

End Pipeline.
End ModelPipeline.

(** ** class Forecaster *)

Module Forecaster.
Section Forecast.

Variable F : realFieldType.

Notation model := (LinearResidualModel.t F).
Notation frame := (DataFrame.t (value F)).
Notation pipeline := (ModelPipeline.t F).
Notation row := (ModelPipeline.row F).

(** The two attributes set by [__init__]. *)
Record t : Type := Build {
  mean_residual_model : option model;
  std_residual_model : option model
}.

Definition init : t := Build None None.

Definition far_out_col : string := "far_out"%string.
Definition num_data_col : string := "num_data"%string.
Definition residual_mean_col : string := "residual_mean"%string.
Definition residual_std_col : string := "residual_std"%string.
Definition simulated_col : string := "simulated"%string.
Definition linear : string := "linear"%string.

(** *** Helpers over the historical table

    [__init__] does not set the attributes [data], [col_obs], [col_group]
    and [col_t] that the two helpers read: they are arguments here, the
    table being one of a pipeline.  A dict is given by its lookup: [None]
    for a key it does not have. *)

Definition non_null (A : Type) (s : seq (option A)) : seq A := pmap id s.

(** [Series.max()]: the largest of the values that are not missing, NaN
    when there is none. *)
Definition series_max (s : seq (option F)) : option F :=
  if non_null s is x :: xs then Some (foldl Num.max x xs) else None.

(** [self.data.loc[~self.data[self.col_obs].isnull()]] *)
Definition non_nulls (data : seq row) : seq row :=
  [seq r <- data | ModelPipeline.row_obs r != None].

Definition in_group (g : string) (r : row) : bool :=
  ModelPipeline.row_group r == Some g.

(** [get_max_t_per_group()[g]] *)
Definition get_max_t_per_group (data : seq row) (g : string) :
    option (option F) :=
  let rows := [seq r <- non_nulls data | in_group g r] in
  if rows is [::] then None
  else Some (series_max [seq ModelPipeline.row_t r | r <- rows]).

(** [get_num_obs_per_group(df)[g]] *)
Definition get_num_obs_per_group (data : seq row) (g : string) : option nat :=
  let rows := [seq r <- non_nulls data | in_group g r] in
  if rows is [::] then None else Some (size rows).

(** *** fit_residuals

    The forecaster as the call leaves it, and the outcome of the call. *)
Definition fit_residuals (self : t) (residual_data : DataFrame.t F)
    (mean_col std_col : string) (residual_covariates : seq string)
    (residual_model_type : string) : t * result unit :=
  if residual_model_type == linear then
    let m0 := LinearResidualModel.init residual_data mean_col residual_covariates in
    let s0 := LinearResidualModel.init residual_data std_col residual_covariates in
    let (m1, r1) := LinearResidualModel.fit m0 in
    match r1 with
    | Raise e => (Build (Some m1) (Some s0), Raise e)
    | Ok _ =>
        let (s1, r2) := LinearResidualModel.fit s0 in
        (Build (Some m1) (Some s1), r2)
    end
  else (self, Raise ValueError).

(** *** predict *)

(** [itertools.product(far_out, num_data)] *)
Definition product (far_out num_data : seq (value F)) :
    seq (value F * value F) :=
  [seq (f, n) | f <- far_out, n <- num_data].

(** [self.m.predict(df=...)] for an attribute [m] that may be [None]. *)
Definition model_predict (m : option model) (df : frame) :
    result (frame * seq (seq (value F))) :=
  match m with
  | None => Raise AttributeError
  | Some m =>
      let (df1, r) := LinearResidualModel.predict m df in
      Let p := r in
      Ok (df1, p)
  end.

Definition predict (self : t) (far_out num_data : seq (value F)) :
    result frame :=
  let rows := product far_out num_data in
  let new_data := DataFrame.from_records rows far_out_col num_data_col in
  Let mp := model_predict (mean_residual_model self) new_data in
  Let new_data := DataFrame.setitem2d mp.1 residual_mean_col mp.2 in
  Let sp := model_predict (std_residual_model self) new_data in
  DataFrame.setitem2d sp.1 residual_std_col sp.2.

(** *** simulate *)

(** [np.random.normal(loc, scale, size=(n, h))].  The generator is the
    process-wide stream of numpy: [z i j] is the standard normal deviate it
    hands out for draw [i] and offset [j], and the sample is
    [loc + scale * z].  [loc] and [scale] are converted to floats and
    broadcast along the rows; a negative scale is refused. *)
Definition broadcast (h : nat) (s : seq F) : result (seq F) :=
  if size s == h then Ok s
  else if size s == 1%N then Ok (nseq h (head 0 s))
  else Raise ValueError.

Definition random_normal (loc scale : seq (value F)) (n h : nat)
    (z : nat -> nat -> F) : result (seq (seq F)) :=
  Let l := mapM (@to_float F) loc in
  Let s := mapM (@to_float F) scale in
  if has (fun x => x < 0) s then Raise ValueError
  else
    Let l := broadcast h l in
    Let s := broadcast h s in
    Ok [seq [seq nth 0 l j + nth 0 s j * z i j | j <- iota 0 h] | i <- iota 0 n].

(** [DataFrame.count()]: for every column, the number of cells that are
    not missing.  The result is a Series indexed by the column names. *)
Definition count_columns (mp : pipeline) (data : seq row) : seq (string * nat) :=
  [:: (ModelPipeline.col_t mp,
       size (non_null [seq ModelPipeline.row_t r | r <- data]));
      (ModelPipeline.col_group mp,
       size (non_null [seq ModelPipeline.row_group r | r <- data]));
      (ModelPipeline.col_obs mp,
       size (non_null [seq ModelPipeline.row_obs r | r <- data]));
      (ModelPipeline.col_obs_compare mp,
       size (non_null [seq ModelPipeline.row_obs_compare r | r <- data]))].

(** [np.array([num_obs])] for the Series [num_obs]: an array of one row. *)
Definition array_of_series (s : seq (string * nat)) : seq (value F) :=
  [:: Arr [seq (c.2)%:R | c <- s]].

(** What [pd.concat] is given in [simulate]: numpy arrays and a string. *)
Variant concat_obj : Type :=
  | NdArray of seq (option F)
  | FlagArray of seq nat
  | PyStr of string.

(** [pd.concat(objs)] for a dict of such objects: pandas concatenates
    Series and DataFrame objects only. *)
Definition pd_concat (objs : seq (string * concat_obj)) :
    result (DataFrame.t (option F)) :=
  if objs is [::] then Raise ValueError else Raise TypeError.

(** The local variables of [simulate] when line 204 has run. *)
Record locals : Type := Locals {
  data : seq row;
  max_t : option F;
  num_obs : seq (string * nat);
  num_out : seq nat;
  forecast_times : seq (option F);
  observations : seq (option F);
  obs_times : seq (option F);
  all_times : seq (option F);
  mean_pred : seq F;
  residuals : frame;
  mean_residual : seq (value F);
  std_residual : seq (value F);
  error : seq (seq F);
  forecast_data : seq (seq F);
  new_observations : seq (option F);
  simulated_flag : seq nat
}.

(** Lines 175 to 204.  [far_out] and [num_simulations] are natural
    numbers: a negative horizon or number of draws is left out. *)
Definition simulate_locals (self : t) (mp : pipeline)
    (far_out num_simulations : nat) (group : string) (epsilon : F)
    (z : nat -> nat -> F) : result locals :=
  let data := [seq r <- ModelPipeline.all_data mp | in_group group r] in
  let max_t := series_max [seq ModelPipeline.row_t r | r <- data] in
  let num_obs :=
    count_columns mp
      [seq r <- data | ModelPipeline.row_obs_compare r != None] in
  let num_out := [seq k.+1 | k <- iota 0 far_out] in
  let forecast_times := [seq omap (fun m => m + k%:R) max_t | k <- num_out] in
  let observations := [seq ModelPipeline.row_obs_compare r | r <- data] in
  let obs_times := [seq ModelPipeline.row_t r | r <- data] in
  let all_times := obs_times ++ forecast_times in
  let mean_pred :=
    ModelPipeline.predict mp forecast_times
      (ModelPipeline.predict_space mp) group in
  Let residuals :=
    predict self [seq Num k%:R | k <- num_out] (array_of_series num_obs) in
  Let mean_residual := DataFrame.getitem residuals residual_mean_col in
  Let predicted_std := DataFrame.getitem residuals residual_std_col in
  Let std_residual := mapM (py_max epsilon) predicted_std in
  Let error :=
    random_normal mean_residual std_residual num_simulations far_out z in
  let forecast_data :=
    [seq [seq p.1 + p.1 * p.2 | p <- zip mean_pred e] | e <- error] in
  let new_observations :=
    observations ++ [seq Some x | x <- flatten forecast_data] in
  let simulated_flag :=
    nseq (size observations) 0%N ++ nseq (size forecast_data) 1%N in
  Ok (Locals data max_t num_obs num_out forecast_times observations
        obs_times all_times mean_pred residuals mean_residual std_residual
        error forecast_data new_observations simulated_flag).

(** Modelled from the spec: the call to [data_translator] of
    [curvefit.utils] has no arguments in the source, and the function is
    not among the sources.  Section 4.3, step 9, and section 6 make it a
    pure elementwise map of the comparison-space trajectory into fit
    space. *)
Variable translate : option F -> option F.

Definition data_translator (values : seq (option F)) : seq (option F) :=
  [seq translate v | v <- values].

(** [simulate]: the pair [(mean_pred, dfs)].  Lines 175 to 204 are
    [simulate_locals]; what the call does after them rests on the reading
    of lines 207 to 209 above, which the source leaves open. *)
Definition simulate (self : t) (mp : pipeline)
    (far_out num_simulations : nat) (group : string) (epsilon : F)
    (z : nat -> nat -> F) :
    result (seq F * seq (DataFrame.t (option F))) :=
  Let l := simulate_locals self mp far_out num_simulations group epsilon z in
  let fit_space_new_observations := data_translator (new_observations l) in
  Let dfs :=
    mapM (fun i : nat =>
            pd_concat
              [:: (ModelPipeline.col_t mp, NdArray (all_times l));
                  (ModelPipeline.col_obs mp, NdArray fit_space_new_observations);
                  (ModelPipeline.col_obs_compare mp, NdArray (new_observations l));
                  (ModelPipeline.col_group mp, PyStr group);
                  (simulated_col, FlagArray (simulated_flag l))])
         (iota 0 num_simulations) in
  Ok (mean_pred l, dfs).

End Forecast.
End Forecaster.

(** ** Python dictionaries with string keys

    The items in the order of insertion; setting a key that is there
    replaces its value where it stands. *)
Module Dict.
Section Dict.

Variable V : Type.

Definition t : Type := seq (string * V).

Fixpoint get (d : t) (k : string) : option V :=
  if d is p :: d' then if p.1 == k then Some p.2 else get d' k else None.

Fixpoint set (d : t) (k : string) (v : V) : t :=
  if d is p :: d' then
    if p.1 == k then (k, v) :: d' else p :: set d' k v
  else [:: (k, v)].

Definition keys (d : t) : seq string := [seq p.1 | p <- d].

End Dict.
End Dict.

(** ** Forecaster.get_covariates_by_group *)

Module Covariates.
Section Covariates.

Variable F : realFieldType.

(** [self.data] as the method reads it: the column that [self.col_group]
    names, and the other columns, which hold numbers; a cell that is
    missing is [None].  [__init__] sets none of the attributes [data],
    [col_group] and [all_cov_names]: they are arguments here.  The names in
    [all_cov_names] are looked up among the numeric columns. *)
Record table : Type := Table {
  group : seq (option string);
  frame : DataFrame.t (option F)
}.

Definition wf (data : table) : bool :=
  DataFrame.wf (frame data) && (size (group data) == DataFrame.nrows (frame data)).

(** What the call comes to: the value it returns, an exception of [exn], or
    the failure of the assertion, with the group that its message names. *)
Variant outcome (A : Type) : Type :=
  | Returns of A
  | Raises of exn
  | AssertionError of string.

Arguments Raises {A} e.
Arguments AssertionError {A} k.

(** [Series.unique()]: the values in the order of their first occurrence;
    the missing value is one of them. *)
Fixpoint unique (s : seq (option F)) : seq (option F) :=
  if s is x :: s' then x :: [seq y <- unique s' | y != x] else [::].

(** The keys of [groupby(self.col_group)]: the groups of the rows, the
    missing one left out, each once and sorted. *)
Definition group_keys (data : table) : seq string :=
  sort String.leb (undup (pmap id (group data))).

(** The cells of a column in the rows of the group [k]. *)
Definition cells_of (data : table) (col : seq (option F)) (k : string) :
    seq (option F) :=
  [seq p.2 | p <- zip (group data) col & p.1 == Some k].

(** [self.data.groupby(self.col_group)[cov].unique().to_dict()] *)
Definition unique_by_group (data : table) (col : seq (option F)) :
    Dict.t (seq (option F)) :=
  [seq (k, unique (cells_of data col k)) | k <- group_keys data].

(** The inner loop: every group must have one value, which replaces the
    array of the values. *)
Fixpoint single_values (items : Dict.t (seq (option F))) :
    outcome (Dict.t (option F)) :=
  if items is (k, v) :: items' then
    if size v == 1%N then
      match single_values items' with
      | Returns d => Returns ((k, head None v) :: d)
      | Raises e => Raises e
      | AssertionError k' => AssertionError k'
      end
    else AssertionError k
  else Returns [::].

(** The outer loop, from the dictionary [cov_dict] built so far. *)
Fixpoint covariates_from (data : table) (covs : seq string)
    (cov_dict : Dict.t (Dict.t (option F))) :
    outcome (Dict.t (Dict.t (option F))) :=
  if covs is cov :: covs' then
    match DataFrame.getitem (frame data) cov with
    | Raise e => Raises e
    | Ok col =>
        match single_values (unique_by_group data col) with
        | Returns d => covariates_from data covs' (Dict.set cov_dict cov d)
        | Raises e => Raises e
        | AssertionError k => AssertionError k
        end
    end
  else Returns cov_dict.

Definition get_covariates_by_group (all_cov_names : seq string)
    (data : table) : outcome (Dict.t (Dict.t (option F))) :=
  covariates_from data all_cov_names [::].

(** The covariate [cov] has one value in every group. *)
Definition constant_by_group (data : table) (col : seq (option F)) : bool :=
  all (fun k => all (pred1 (head None (cells_of data col k)))
                  (cells_of data col k))
    (group_keys data).

End Covariates.

Arguments Raises {A} e.
Arguments AssertionError {A} k.

End Covariates.

(** ** The arithmetic of the arrays

    [LinearResidualModel.fit] and [predict] are the only places of the module
    where the rounding of float64 decides what a call does: the pivots of
    [np.linalg.inv] are tested against zero after they have been rounded.
    The two methods are therefore also given over an arithmetic [ar], a type
    of numbers with its operations and no law assumed of them.  [float64] is
    the arithmetic of the interpreter (IEEE 754 binary64, every operation
    rounded to nearest even); [exact F] is the arithmetic of an ordered field
    [F], in which no operation rounds.

    The operations are done in the order of the reference BLAS and LAPACK
    routines, each product and each sum rounded on its own.  An optimised
    BLAS may fuse a product with a sum or add in another order, which can
    change the last digit of a result; the float64 facts proved below are
    about tables for which this does not change what the call does. *)

Module Arith.

Record t (T : Type) : Type := Build {
  zero : T;
  one : T;
  add : T -> T -> T;
  sub : T -> T -> T;
  mul : T -> T -> T;
  div : T -> T -> T;
  (** [abs_lt x y]: [abs(x) < abs(y)] *)
  abs_lt : T -> T -> bool;
  (** [x == 0.0] *)
  is_zero : T -> bool;
  (** LAPACK's [dlamch('S')], the least positive number whose reciprocal
      does not overflow; zero where nothing overflows. *)
  sfmin : T
}.

End Arith.

Definition exact (F : realFieldType) : Arith.t F :=
  Arith.Build 0 1 +%R (fun x y => x - y) *%R (fun x y => x / y)
    (fun x y => `|x| < `|y|) (fun x => x == 0) 0.

Definition float64 : Arith.t float :=
  Arith.Build 0%float 1%float PrimFloat.add PrimFloat.sub PrimFloat.mul
    PrimFloat.div (fun x y => PrimFloat.ltb (PrimFloat.abs x) (PrimFloat.abs y))
    (fun x => PrimFloat.eqb x 0%float) 0x1p-1022%float.

(** ** numpy: products and inverses of two-dimensional arrays

    A two-dimensional array is the list of its rows; its shape is given to
    the operations, as numpy keeps it beside the data (an array of shape
    (0, k) has no row to read [k] from). *)

Module Numpy.
Section Arrays.

Variables (T : Type) (ar : Arith.t T).

Definition entry (a : seq (seq T)) (i j : nat) : T :=
  nth (Arith.zero ar) (nth [::] a i) j.

(** The array of shape (m, n) with the entries [f i j]. *)
Definition array (m n : nat) (f : nat -> nat -> T) : seq (seq T) :=
  mkseq (fun i => mkseq (f i) n) m.

(** [a.T] for [a] of shape (m, n) *)
Definition transpose (m n : nat) (a : seq (seq T)) : seq (seq T) :=
  array n m (fun i j => entry a j i).

(** One entry of a product: the products of the [p] pairs, added in the
    order of the index. *)
Definition sumprod (p : nat) (f g : nat -> T) : T :=
  foldl (fun s j => Arith.add ar s (Arith.mul ar (f j) (g j)))
        (Arith.zero ar) (iota 0 p).

(** [a.dot(b)] for [a] of shape (m, p) and [b] of shape (p, q) *)
Definition dot (m p q : nat) (a b : seq (seq T)) : seq (seq T) :=
  array m q (fun i c => sumprod p (entry a i) (fun j => entry b j c)).

(** *** [np.linalg.inv]

    numpy hands the matrix and the identity to LAPACK's [gesv]: an LU
    factorisation with partial pivoting ([getrf]) and, when no pivot is
    zero, the two triangular solves of [getrs].  [gesv n rows] runs both on
    the rows of the matrix extended by the right-hand sides: it picks the
    pivot of the first column, eliminates the column from the other rows,
    solves the system that is left, and substitutes back. *)

(** BLAS [idamax]: the index of the first entry of largest absolute value. *)
Fixpoint idamax_from (best : nat) (v : T) (i : nat) (s : seq T) : nat :=
  if s is x :: s' then
    if Arith.abs_lt ar v x then idamax_from i x i.+1 s'
    else idamax_from best v i.+1 s'
  else best.

Definition idamax (s : seq T) : nat :=
  if s is x :: s' then idamax_from 0 x 1 s' else 0%N.

(** The rows with the first one and row [p] exchanged. *)
Definition exchange (p : nat) (rows : seq (seq T)) : seq (seq T) :=
  if p is p'.+1 then
    let rest := behead rows in
    nth [::] rest p' :: take p' rest ++ head [::] rows :: drop p'.+1 rest
  else rows.

(** The multiplier of a row: its first entry [c] over the pivot [a].
    [getf2] multiplies by the reciprocal of the pivot unless the pivot is
    below [sfmin]. *)
Definition multiplier (a c : T) : T :=
  if Arith.abs_lt ar a (Arith.sfmin ar) then Arith.div ar c a
  else Arith.mul ar c (Arith.div ar (Arith.one ar) a).

(** The row [r] minus [l] times the row [u]. *)
Definition eliminate (l : T) (u r : seq T) : seq T :=
  [seq Arith.sub ar x.2 (Arith.mul ar l x.1) | x <- zip u r].

(** Back substitution for the first unknown: from the right-hand side [b]
    of the pivot row, the solved unknowns are taken off from the last to
    the first, each times its coefficient in [u]. *)
Definition substitute (u : seq T) (b : seq T) (xs : seq (seq T)) : seq T :=
  foldr (fun ux y => [seq Arith.sub ar v.2 (Arith.mul ar v.1 ux.1)
                     | v <- zip ux.2 y])
        b (zip u xs).

Fixpoint gesv (n : nat) (rows : seq (seq T)) : option (seq (seq T)) :=
  if n is n'.+1 then
    let rows1 := exchange (idamax [seq head (Arith.zero ar) r | r <- rows]) rows in
    let u := head [::] rows1 in
    let a := head (Arith.zero ar) u in
    if Arith.is_zero ar a then None
    else
      let lower :=
        [seq eliminate (multiplier a (head (Arith.zero ar) r)) (behead u) (behead r)
        | r <- behead rows1] in
      if gesv n' lower is Some xs then
        let y := substitute (take n' (behead u)) (drop n' (behead u)) xs in
        Some ([seq Arith.div ar v a | v <- y] :: xs)
      else None
  else Some [::].

(** [np.linalg.inv(a)] for [a] of shape (n, n): the inverse, or [None]
    where numpy raises [LinAlgError] (a pivot is zero). *)
Definition inv (n : nat) (a : seq (seq T)) : option (seq (seq T)) :=
  gesv n (array n (n + n)%N (fun i j =>
    if (j < n)%N then entry a i j
    else if (j - n)%N == i then Arith.one ar else Arith.zero ar)).

End Arrays.
End Numpy.

(** ** [LinearResidualModel] over an arithmetic *)

Module Machine.
Section Model.

Variables (T : Type) (ar : Arith.t T).

Record t : Type := Build {
  data : DataFrame.t T;
  outcome : string;
  covariates : seq string;
  coef : option (seq T)
}.

Definition init (data : DataFrame.t T) (outcome : string)
    (covariates : seq string) : t :=
  Build data outcome covariates None.

(** [df = self.data.copy(); df['intercept'] = 1] *)
Definition design_frame (self : t) : DataFrame.t T :=
  DataFrame.setitem_scalar (data self) LinearResidualModel.intercept
    (Arith.one ar).

Definition design_columns (self : t) : seq string :=
  LinearResidualModel.intercept :: covariates self.

Definition set_coef (self : t) (c : seq T) : t :=
  Build (data self) (outcome self) (covariates self) (Some c).

(** The entries of an array of shape (k, 1), top down. *)
Definition ravel (k : nat) (c : seq (seq T)) : seq T :=
  mkseq (fun i => Numpy.entry ar c i 0) k.

(** [pred] and [out] of [fit], for columns that exist. *)
Definition pred (self : t) : seq (seq T) :=
  let df := design_frame self in
  if DataFrame.select df (design_columns self) is Ok cols then
    DataFrame.rows_of (Arith.zero ar) (DataFrame.nrows df) cols
  else [::].

Definition out (self : t) : seq (seq T) :=
  let df := design_frame self in
  if DataFrame.select df [:: outcome self] is Ok cols then
    DataFrame.rows_of (Arith.zero ar) (DataFrame.nrows df) cols
  else [::].

(** [pred.T.dot(pred)] *)
Definition gram (self : t) : seq (seq T) :=
  let n := DataFrame.nrows (design_frame self) in
  let k := size (design_columns self) in
  Numpy.dot ar k n k (Numpy.transpose ar n k (pred self)) (pred self).

(** [fit]: the model as the call leaves it, and the outcome of the call. *)
Definition fit (self : t) : t * result unit :=
  let df := design_frame self in
  let n := DataFrame.nrows df in
  let k := size (design_columns self) in
  match DataFrame.select df (design_columns self),
        DataFrame.select df [:: outcome self] with
  | Raise e, _ => (self, Raise e)
  | Ok _, Raise e => (self, Raise e)
  | Ok _, Ok _ =>
      match Numpy.inv ar k (gram self) with
      | None => (self, Raise LinAlgError)
      | Some inv =>
          let pred_t := Numpy.transpose ar n k (pred self) in
          (set_coef self
             (ravel k (Numpy.dot ar k n 1 (Numpy.dot ar k k n inv pred_t)
                                 (out self))),
           Ok tt)
      end
  end.

(** [predict] on a frame of numbers: the frame as the call leaves it, and
    the array [pred.dot(self.coef)] of shape (rows, 1), by its columns. *)
Definition predict (self : t) (df : DataFrame.t T) :
    DataFrame.t T * result (seq (seq T)) :=
  let df1 := DataFrame.setitem_scalar df LinearResidualModel.intercept
               (Arith.one ar) in
  (df1,
   Let cols := DataFrame.select df1 (design_columns self) in
   match coef self with
   | None =>
       if DataFrame.nrows df1 == 0%N then Ok (nseq (size cols) [::])
       else Raise TypeError
   | Some c =>
       if size c != size cols then Raise ValueError
       else
         let n := DataFrame.nrows df1 in
         let rows := DataFrame.rows_of (Arith.zero ar) n cols in
         Ok [:: ravel n (Numpy.dot ar n (size cols) 1 rows [seq [:: x] | x <- c])]
   end).

End Model.
End Machine.
(** ** Reference forms used in the statements *)

Section Reference.

Variable F : realFieldType.

(** The value of a regression on one row: the row is a map from column
    names to numbers, the coefficients follow the columns. *)
Definition linear_predictor (cols : seq string) (coef : seq F)
    (env : string -> F) : F :=
  \sum_(p <- zip cols coef) env p.1 * p.2.

(** A row of the prediction grid: distance [d], amount of data [a], and
    the intercept that [LinearResidualModel.predict] writes. *)
Definition grid_row (d a : F) : string -> F :=
  fun n =>
    if n == Forecaster.far_out_col then d
    else if n == Forecaster.num_data_col then a
    else if n == LinearResidualModel.intercept then 1
    else 0.

(** The same row once the column of the predicted means is there. *)
Definition grid_row_mean (d a m : F) : string -> F :=
  fun n => if n == Forecaster.residual_mean_col then m else grid_row d a n.

(** The columns of the grid when the mean regression reads it, and when the
    std regression does. *)
Definition grid_cols : seq string :=
  [:: Forecaster.far_out_col; Forecaster.num_data_col;
      LinearResidualModel.intercept].

Definition grid_cols_mean : seq string :=
  [:: Forecaster.far_out_col; Forecaster.num_data_col;
      LinearResidualModel.intercept; Forecaster.residual_mean_col].

(** The Cartesian product, first sequence outermost. *)
Definition grid_pairs (distances amounts : seq F) : seq (F * F) :=
  [seq (d, a) | d <- distances, a <- amounts].

(** The columns that [fit] reads are columns of the training table. *)
Definition columns_present (m : LinearResidualModel.t F) : bool :=
  let ns := DataFrame.names (LinearResidualModel.design_frame m) in
  all (fun n => n \in ns) (LinearResidualModel.design_columns m) &&
  (LinearResidualModel.outcome m \in ns).

(** The training table as [predict] receives it. *)
Definition training_rows (m : LinearResidualModel.t F) : DataFrame.t (value F) :=
  DataFrame.map (@Num F) (LinearResidualModel.data m).


End Reference.


(** ** Forms used in the statements about the arithmetic *)

(** The columns that [fit] reads are columns of the training table. *)
Definition columns_read (T : Type) (ar : Arith.t T) (m : Machine.t T) : bool :=
  let ns := DataFrame.names (Machine.design_frame ar m) in
  all (fun n => n \in ns) (Machine.design_columns m) &&
  (Machine.outcome m \in ns).

(** The round trip in float64: [fit], then [predict] on the training
    table; [roundtrip64 tol m] holds when both calls return and every
    predicted value is within [tol] of the outcome of its row. *)
Definition close (tol : float) (p q : seq float) : bool :=
  (size p == size q) &&
  all (fun v => PrimFloat.leb (PrimFloat.abs (PrimFloat.sub v.1 v.2)) tol)
      (zip p q).

Definition roundtrip64 (tol : float) (m : Machine.t float) : bool :=
  let: (m', r) := Machine.fit float64 m in
  if r is Ok _ then
    if (Machine.predict float64 m' (Machine.data m)).2 is Ok [:: p] then
      close tol p
        (if DataFrame.lookup (DataFrame.columns (Machine.data m))
              (Machine.outcome m) is Some v then v else [::])
    else false
  else false.

Section ExactReference.

Variable F : realFieldType.

(** An array of shape (m, n) as a matrix over the field. *)
Definition mx_of (m n : nat) (a : seq (seq F)) : 'M[F]_(m, n) :=
  \matrix_(i, j) Numpy.entry (exact F) a i j.

(** A model of the embedding over [F], as a model over the arithmetic
    [exact F]. *)
Definition machine_of (m : LinearResidualModel.t F) : Machine.t F :=
  Machine.Build (LinearResidualModel.data m) (LinearResidualModel.outcome m)
    (LinearResidualModel.covariates m) (LinearResidualModel.coef m).

(** The rows that [gesv] receives for [n] unknowns and [k] right-hand
    sides, the left-hand side of a row at the values [x] of the unknowns,
    and what it is for [xs] to solve the rows. *)
Definition shaped_rows (n k : nat) (rows : seq (seq F)) : bool :=
  (size rows == n) && all (fun r => size r == (n + k)%N) rows.

Definition combination (n : nat) (r : seq F) (x : nat -> F) : F :=
  \sum_(j < n) nth 0 r j * x j.

Definition solves (n k : nat) (rows xs : seq (seq F)) : Prop :=
  forall r, r \in rows -> forall c, (c < k)%N ->
    combination n r (fun j => Numpy.entry (exact F) xs j c) = nth 0 r (n + c).

End ExactReference.
(** ** Further forms used in the statements *)

Section Measures.

Variable F : realFieldType.

Notation model := (LinearResidualModel.t F).

(** A row that the two helpers keep for the group [g]: its observation is
    not missing and its group is [g]. *)
Definition observed_in (g : string) (r : ModelPipeline.row F) : bool :=
  (ModelPipeline.row_obs r != None) && Forecaster.in_group g r.

(** The number in a cell of the grid; an array cell counts for nothing in a
    regression that does not read it. *)
Definition amount (v : value F) : F := if v is Num a then a else 0.

Definition numeric (vs : seq (value F)) : Prop :=
  vs = [seq Num (amount v) | v <- vs].

(** The pipeline with the historical rows of one group only. *)
Definition restrict (mp : ModelPipeline.t F) (group : string) :
    ModelPipeline.t F :=
  ModelPipeline.Build
    [seq r <- ModelPipeline.all_data mp | Forecaster.in_group group r]
    (ModelPipeline.col_t mp) (ModelPipeline.col_group mp)
    (ModelPipeline.col_obs mp) (ModelPipeline.col_obs_compare mp)
    (ModelPipeline.predict_space mp) (@ModelPipeline.predict_at F mp).

(** Cells that are arrays, and cells that broadcast with arrays of [k]
    elements: numbers, and the arrays of that length. *)
Definition is_arr (v : value F) : bool := if v is Arr _ then true else false.

Definition shaped (k : nat) (v : value F) : bool :=
  if v is Arr xs then size xs == k else true.

(** The entry of [pred.dot(coef)] for a row on which it is defined. *)
Definition dot_cell (row : seq (value F)) (c : seq F) : value F :=
  if dot_row row c is Ok v then v else Num 0.

(** A row of the grid that [simulate] hands to the regressions: the
    distance is a number, the amount of data the array of the counts. *)
Definition count_row (counts : seq F) (d : F) : string -> value F :=
  fun n =>
    if n == Forecaster.far_out_col then Num d
    else if n == Forecaster.num_data_col then Arr counts
    else if n == LinearResidualModel.intercept then Num 1
    else Num 0.

Definition count_row_mean (counts : seq F) (d : F) (m : value F) :
    string -> value F :=
  fun n => if n == Forecaster.residual_mean_col then m else count_row counts d n.

End Measures.

Arguments is_arr {F} v.
Arguments shaped {F} k v.

(** ** Inputs for the worked examples *)

Module Fixtures.

(** A table of residuals, and the forecaster that [fit_residuals] makes of
    it with the covariates far_out and num_data:
    mean = 1 + 2 far_out + 3 num_data, std = 5 + far_out. *)
Definition grid_table : DataFrame.t rat :=
  DataFrame.Build 3
    [:: ("far_out"%string, [:: 1; 2; 1]);
        ("num_data"%string, [:: 5; 5; 6]);
        ("residual_mean"%string, [:: 18; 20; 21]);
        ("residual_std"%string, [:: 6; 7; 6])].

Definition grid_mean_model : LinearResidualModel.t rat :=
  LinearResidualModel.Build grid_table "residual_mean"%string
    [:: "far_out"%string; "num_data"%string] (Some [:: 1; 2; 3]).

Definition grid_std_model : LinearResidualModel.t rat :=
  LinearResidualModel.Build grid_table "residual_std"%string
    [:: "far_out"%string; "num_data"%string] (Some [:: 5; 1; 0]).

Definition grid_forecaster : Forecaster.t rat :=
  Forecaster.Build (Some grid_mean_model) (Some grid_std_model).

(** The inverse of the design matrix [[1,1,5], [1,2,5], [1,1,6]] of that
    table. *)
Definition grid_inverse : 'M[rat]_3 :=
  \matrix_(i, j)
    nth 0 (nth [::] [:: [:: 7; -1; -5]; [:: -1; 1; 0]; [:: -1; 0; 1]] i) j.

(** A frame of one row that a caller hands to
    [LinearResidualModel.predict]. *)
Definition one_row : DataFrame.t (value rat) :=
  DataFrame.Build 1
    [:: ("far_out"%string, [:: Num 1]); ("num_data"%string, [:: Num 10])].

(** The grid for the distances 1, 2, 3 and the amount 10. *)
Definition grid_3x1 : DataFrame.t (value rat) :=
  DataFrame.Build 3
    [:: ("far_out"%string, [:: Num 1; Num 2; Num 3]);
        ("num_data"%string, [:: Num 10; Num 10; Num 10]);
        ("intercept"%string, [:: Num 1; Num 1; Num 1]);
        ("residual_mean"%string, [:: Num 33; Num 35; Num 37]);
        ("residual_std"%string, [:: Num 6; Num 7; Num 8])].

(** A training table on the line y = 1 + 2 x, and the model to fit. *)
Definition line_data : DataFrame.t rat :=
  DataFrame.Build 2 [:: ("x"%string, [:: 0; 1]); ("y"%string, [:: 1; 3])].

Definition line_model : LinearResidualModel.t rat :=
  LinearResidualModel.init line_data "y"%string [:: "x"%string].

Definition line_coef : 'cV[rat]_2 := \col_i nth 0 [:: 1; 2] i.

Definition line_inverse : 'M[rat]_2 :=
  \matrix_(i, j) nth 0 (nth [::] [:: [:: 1; 0]; [:: -1; 1]] i) j.

(** A table of residuals at the distances 1 and 2, and the forecaster
    that [fit_residuals] makes of it with the covariate far_out:
    mean = far_out, std = 2 - far_out (negative from the third offset). *)
Definition residual_table : DataFrame.t rat :=
  DataFrame.Build 2
    [:: ("far_out"%string, [:: 1; 2]);
        ("residual_mean"%string, [:: 1; 2]);
        ("residual_std"%string, [:: 1; 0])].

Definition offset_mean_model : LinearResidualModel.t rat :=
  LinearResidualModel.Build residual_table "residual_mean"%string
    [:: "far_out"%string] (Some [:: 0; 1]).

Definition offset_std_model : LinearResidualModel.t rat :=
  LinearResidualModel.Build residual_table "residual_std"%string
    [:: "far_out"%string] (Some [:: 2; -1]).

Definition offset_forecaster : Forecaster.t rat :=
  Forecaster.Build (Some offset_mean_model) (Some offset_std_model).

(** The inverse of the design matrix [[1, 1], [1, 2]] of that table. *)
Definition offset_inverse : 'M[rat]_2 :=
  \matrix_(i, j) nth 0 (nth [::] [:: [:: 2; -1]; [:: -1; 1]] i) j.

(** A history with two groups.  Group A has three rows; the last one, at
    time 3, has no observation yet. *)
Definition history : seq (ModelPipeline.row rat) :=
  [:: ModelPipeline.Row (Some 1) (Some "A"%string) (Some 5) (Some 5);
      ModelPipeline.Row (Some 2) (Some "A"%string) (Some 7) (Some 7);
      ModelPipeline.Row (Some 3) (Some "A"%string) None None;
      ModelPipeline.Row (Some 1) (Some "B"%string) (Some 2) (Some 2)].

(** The mean forecast at time [x] is [x - 4]: zero at time 4. *)
Definition mean_forecast (time : option rat) (space grp : string) : rat :=
  if time is Some x then x - 4 else 0.

Definition pipeline : ModelPipeline.t rat :=
  ModelPipeline.Build history "t"%string "group"%string "obs"%string
    "obs_compare"%string "comparison"%string mean_forecast.

Definition epsilon : rat := 1 / 2.

(** Stand-ins for the normal deviates of draw [i] at offset [j]. *)
Definition deviates (i j : nat) : rat := (2 * i.+1)%:R.

Definition identity (v : option rat) : option rat := v.

(** The local variables of
    [simulate(pipeline, far_out=4, num_simulations=2, group="A",
    epsilon=0.5)] with these deviates, line by line. *)
Definition group_a : seq (ModelPipeline.row rat) :=
  [:: ModelPipeline.Row (Some 1) (Some "A"%string) (Some 5) (Some 5);
      ModelPipeline.Row (Some 2) (Some "A"%string) (Some 7) (Some 7);
      ModelPipeline.Row (Some 3) (Some "A"%string) None None].

Definition counts_a : seq (string * nat) :=
  [:: ("t"%string, 2%N); ("group"%string, 2%N); ("obs"%string, 2%N);
      ("obs_compare"%string, 2%N)].

Definition residuals_a : DataFrame.t (value rat) :=
  DataFrame.Build 4
    [:: ("far_out"%string, [:: Num 1; Num 2; Num 3; Num 4]);
        ("num_data"%string, nseq 4 (Arr [:: 2; 2; 2; 2]));
        ("intercept"%string, nseq 4 (Num 1));
        ("residual_mean"%string, [:: Num 1; Num 2; Num 3; Num 4]);
        ("residual_std"%string, [:: Num 1; Num 0; Num (-1); Num (-2)])].

Definition locals_a : Forecaster.locals rat :=
  Forecaster.Locals
    group_a
    (Some 3)
    counts_a
    [:: 1%N; 2%N; 3%N; 4%N]
    [:: Some 4; Some 5; Some 6; Some 7]
    [:: Some 5; Some 7; None]
    [:: Some 1; Some 2; Some 3]
    [:: Some 1; Some 2; Some 3; Some 4; Some 5; Some 6; Some 7]
    [:: 0; 1; 2; 3]
    residuals_a
    [:: Num 1; Num 2; Num 3; Num 4]
    [:: Num 1; Num (1 / 2); Num (1 / 2); Num (1 / 2)]
    [:: [:: 3; 3; 4; 5]; [:: 5; 4; 5; 6]]
    [:: [:: 0; 4; 10; 18]; [:: 0; 5; 12; 21]]
    [:: Some 5; Some 7; None; Some 0; Some 4; Some 10; Some 18;
        Some 0; Some 5; Some 12; Some 21]
    [:: 0%N; 0%N; 0%N; 1%N; 1%N].

Definition other_history : seq (ModelPipeline.row rat) :=
  [:: ModelPipeline.Row (Some 9) (Some "B"%string) None (Some 1);
      ModelPipeline.Row (Some 1) (Some "A"%string) (Some 5) (Some 5);
      ModelPipeline.Row (Some 2) (Some "A"%string) (Some 7) (Some 7);
      ModelPipeline.Row (Some 3) (Some "A"%string) None None].

Definition other_pipeline : ModelPipeline.t rat :=
  ModelPipeline.Build other_history "t"%string "group"%string "obs"%string
    "obs_compare"%string "comparison"%string Fixtures.mean_forecast.

(** A table with a covariate that has one value in each group, and one
    where group A has two. *)
Definition population : Covariates.table rat :=
  Covariates.Table
    [:: Some "B"%string; Some "A"%string; None; Some "A"%string]
    (DataFrame.Build 4
       [:: ("pop"%string, [:: Some 20; Some 10; Some 30; Some 10]);
           ("beds"%string, [:: None; Some 3; Some 4; Some 3])]).

Definition population_dict : Dict.t (Dict.t (option rat)) :=
  [:: ("beds"%string, [:: ("A"%string, Some 3); ("B"%string, None)]);
      ("pop"%string, [:: ("A"%string, Some 10); ("B"%string, Some 20)])].

Definition mixed_population : Covariates.table rat :=
  Covariates.Table
    [:: Some "B"%string; Some "A"%string; Some "A"%string]
    (DataFrame.Build 3 [:: ("pop"%string, [:: Some 20; Some 10; Some 11])]).

(** Regressions of y on x over an arithmetic: the line y = 1 + 2 x at 0
    and 1, a table without rows, a table of one row, and the same line at
    two points far from the origin, in exact arithmetic and in float64. *)
Definition table (T : Type) (xs ys : seq T) : DataFrame.t T :=
  DataFrame.Build (size xs) [:: ("x"%string, xs); ("y"%string, ys)].

Definition regression (T : Type) (xs ys : seq T) : Machine.t T :=
  Machine.init (table xs ys) "y"%string [:: "x"%string].

Definition line_machine : Machine.t rat := regression [:: 0; 1] [:: 1; 3].

Definition line_float64 : Machine.t float :=
  regression [:: 0%float; 1%float] [:: 1%float; 3%float].

Definition empty_float64 : Machine.t float := regression [::] [::].

Definition single_exact : Machine.t rat := regression [:: 49] [:: 1].

Definition single_float64 : Machine.t float :=
  regression [:: 49%float] [:: 1%float].

Definition far_exact (F : realFieldType) (a : F) : Machine.t F :=
  regression [:: a; a + 1] [:: 1 + 2 * a; 1 + 2 * (a + 1)].


End Fixtures.

(** * Properties *)

(** ** Data frames *)

Section FrameFacts.

Variable C : Type.
Implicit Types (cols : seq (string * seq C)) (n : string) (v : seq C).

Lemma lookup_assign cols n v n' :
  DataFrame.lookup (DataFrame.assign cols n v) n' =
  if n == n' then Some v else DataFrame.lookup cols n'.
Proof.
elim: cols => [|c cols IH] /=; first by [].
case: (eqVneq c.1 n) => [->|ne_cn] /=; first by case: eqP.
rewrite IH; case: (eqVneq n n') => [<-|//].
by rewrite (negbTE ne_cn).
Qed.

Lemma names_assign cols n v :
  [seq c.1 | c <- DataFrame.assign cols n v] =
  if n \in [seq c.1 | c <- cols] then [seq c.1 | c <- cols]
  else rcons [seq c.1 | c <- cols] n.
Proof.
elim: cols => [|c cols IH] //=.
rewrite in_cons [n == _]eq_sym.
by case: (eqVneq c.1 n) => [->|_] //=; rewrite IH; case: ifP.
Qed.

Lemma getitem_setitem_scalar (df : DataFrame.t C) n (c : C) :
  DataFrame.getitem (DataFrame.setitem_scalar df n c) n =
  Ok (nseq (DataFrame.nrows df) c).
Proof. by rewrite /DataFrame.getitem /= lookup_assign eqxx. Qed.

Lemma wf_assign cols n v k :
  all (fun c => size c.2 == k) cols -> size v == k ->
  all (fun c => size c.2 == k) (DataFrame.assign cols n v).
Proof.
move=> + sz_v; elim: cols => [|c cols IH] /=; first by rewrite sz_v.
case/andP=> sz_c wf_cols.
by case: ifP => _ /=; rewrite ?sz_v ?sz_c ?wf_cols ?IH.
Qed.

End FrameFacts.

(** ** fit_residuals *)

Section FitResiduals.

Variable F : realFieldType.

(** C7.  A [residual_model_type] other than ["linear"] makes [fit_residuals]
    raise its configuration error ([ValueError]) whatever the data, so
    before any regression is built or fitted, and the forecaster is as it
    was: one that [__init__] has just made still has no mean model and no
    std model. *)
Theorem fit_residuals_unknown_type (self : Forecaster.t F)
    (residual_data : DataFrame.t F) (mean_col std_col : string)
    (residual_covariates : seq string) (residual_model_type : string) :
  residual_model_type != Forecaster.linear ->
  let call fc :=
    Forecaster.fit_residuals fc residual_data mean_col std_col
      residual_covariates residual_model_type in
  [/\ (call self).2 = Raise ValueError,
      is_configuration_error (call self).2,
      (call self).1 = self,
      Forecaster.mean_residual_model (call (Forecaster.init F)).1 = None &
      Forecaster.std_residual_model (call (Forecaster.init F)).1 = None].
Proof.
move=> /negbTE ne_ty call.
by rewrite /call /Forecaster.fit_residuals ne_ty.
Qed.

End FitResiduals.

Lemma fit_residuals_unknown_type_witness :
  ("unsupported"%string != Forecaster.linear) /\
  let call fc :=
    Forecaster.fit_residuals fc Fixtures.grid_table "residual_mean"%string
      "residual_std"%string [:: "far_out"%string; "num_data"%string]
      "unsupported"%string in
  [/\ (call Fixtures.grid_forecaster).2 = Raise ValueError,
      is_configuration_error (call Fixtures.grid_forecaster).2,
      (call Fixtures.grid_forecaster).1 = Fixtures.grid_forecaster,
      Forecaster.mean_residual_model (call (Forecaster.init rat)).1 = None &
      Forecaster.std_residual_model (call (Forecaster.init rat)).1 = None].
Proof.
split; first by [].
exact: (@fit_residuals_unknown_type rat Fixtures.grid_forecaster
          Fixtures.grid_table "residual_mean"%string "residual_std"%string
          [:: "far_out"%string; "num_data"%string] "unsupported"%string isT).
Defined.

(** ** Dot products of numeric rows *)

Section DotFacts.

Variable F : realFieldType.
Implicit Types (xs c : seq F) (a : F).

Lemma dot_from_num a xs c :
  dot_from (Num a) [seq Num x | x <- xs] c =
  Ok (Num (a + \sum_(p <- zip xs c) p.1 * p.2)).
Proof.
elim: xs a c => [|x xs IH] a [|b c] /=; rewrite ?big_nil ?addr0 //.
by rewrite IH big_cons addrA.
Qed.

Lemma dot_row_num xs c :
  dot_row [seq Num x | x <- xs] c = Ok (Num (\sum_(p <- zip xs c) p.1 * p.2)).
Proof.
case: xs c => [|x xs] [|b c] /=; rewrite ?big_nil //.
by rewrite dot_from_num big_cons.
Qed.

Lemma mapM_map_ok A A' B (h : A' -> A) (f : A' -> B) (g : A -> result B)
    (s : seq A') :
  (forall x, g (h x) = Ok (f x)) ->
  mapM g [seq h x | x <- s] = Ok [seq f x | x <- s].
Proof. by move=> fg; elim: s => [|x s IH] //=; rewrite fg /= IH. Qed.

Lemma mapM_size A B (g : A -> result B) (s : seq A) (r : seq B) :
  mapM g s = Ok r -> size r = size s.
Proof.
elim: s r => [|x s IH] r /=; first by case=> <-.
case: (g x) => //= y; case: (mapM g s) IH => //= ys IH [<-] /=.
by rewrite (IH ys).
Qed.

Lemma rows_of_map A C (c0 : C) (f : A -> string -> C) (es : seq A)
    (ns : seq string) :
  DataFrame.rows_of c0 (size es) [seq [seq f e n | e <- es] | n <- ns] =
  [seq [seq f e n | n <- ns] | e <- es].
Proof.
case def_es: es => [|e0 es'] //; rewrite -def_es.
rewrite /DataFrame.rows_of -[in RHS](mkseq_nth e0 es) /mkseq -map_comp.
apply/eq_in_map => i; rewrite mem_iota /= add0n => lt_i.
rewrite -map_comp; apply/eq_map => n.
by rewrite [LHS]/comp (nth_map e0).
Qed.

End DotFacts.

(** ** LinearResidualModel.predict on a frame of numbers *)

Section PredictFacts.

Variable F : realFieldType.

Notation model := (LinearResidualModel.t F).
Notation frame := (DataFrame.t (value F)).
Notation intercept := LinearResidualModel.intercept.

Lemma select_lookup (df : frame) (col : string -> seq (value F))
    (ns : seq string) :
  (forall n, n \in ns -> DataFrame.lookup (DataFrame.columns df) n = Some (col n)) ->
  DataFrame.select df ns = Ok [seq col n | n <- ns].
Proof.
elim: ns => [|n ns IH] //= in_ns.
rewrite /DataFrame.getitem in_ns ?mem_head //= IH // => n' n'_in.
by rewrite in_ns // in_cons n'_in orbT.
Qed.

Lemma sum_zip_map (e : string -> F) (ns : seq string) (c : seq F) :
  \sum_(p <- zip [seq e n | n <- ns] c) p.1 * p.2 = linear_predictor ns c e.
Proof.
rewrite /linear_predictor.
elim: ns c => [|n ns IH] [|b c] /=; rewrite ?big_nil //.
by rewrite !big_cons IH.
Qed.

(** The frame that [predict] returns is its argument with the intercept
    column written into it, whatever else happens in the call. *)
Lemma predict_frame (m : model) (df : frame) :
  (LinearResidualModel.predict m df).1 =
  DataFrame.setitem_scalar df intercept (Num 1).
Proof. by []. Qed.

Lemma predict_result (m : model) (df : frame) :
  (LinearResidualModel.predict m df).2 =
  let df1 := DataFrame.setitem_scalar df intercept (Num 1) in
  rbind (DataFrame.select df1 (intercept :: LinearResidualModel.covariates m))
    (fun cols =>
       match LinearResidualModel.coef m with
       | None =>
           if DataFrame.nrows df1 == 0%N then Ok (nseq (size cols) [::])
           else Raise TypeError
       | Some c =>
           if size c != size cols then Raise ValueError
           else rbind (mapM (fun row => dot_row row c)
                         (DataFrame.rows_of (Num 0) (DataFrame.nrows df1) cols))
                  (fun p => Ok [:: p])
       end).
Proof. by []. Qed.

(** On rows of numbers [predict] returns, for each row, the value of the
    regression on it. *)
Lemma predict_numeric (m : model) (df : frame) (c : seq F)
    (es : seq (string -> F)) :
  LinearResidualModel.coef m = Some c ->
  size c = (size (LinearResidualModel.covariates m)).+1 ->
  DataFrame.nrows df = size es ->
  (forall n, n \in intercept :: LinearResidualModel.covariates m ->
     DataFrame.lookup
       (DataFrame.columns (DataFrame.setitem_scalar df intercept (Num 1))) n =
     Some [seq Num (e n) | e <- es]) ->
  (LinearResidualModel.predict m df).2 =
  Ok [:: [seq Num (linear_predictor
                     (intercept :: LinearResidualModel.covariates m) c e)
         | e <- es]].
Proof.
move=> def_c sz_c sz_df cols_df.
rewrite predict_result; cbv zeta.
rewrite (select_lookup cols_df) /rbind def_c.
rewrite size_map sz_c eqxx [DataFrame.nrows _]sz_df.
rewrite (rows_of_map (Num 0) (fun e n => Num (e n))).
rewrite (@mapM_map_ok _ _ _ _
           (fun e => Num (linear_predictor
              (intercept :: LinearResidualModel.covariates m) c e))) //.
by move=> e; rewrite -sum_zip_map -dot_row_num -map_comp.
Qed.

End PredictFacts.

(** ** Forecaster.predict *)

Section GridFacts.

Variable F : realFieldType.

Notation model := (LinearResidualModel.t F).
Notation frame := (DataFrame.t (value F)).
Notation intercept := LinearResidualModel.intercept.

Lemma model_predict_ok (m : option model) (df df1 : frame)
    (p : seq (seq (value F))) :
  Forecaster.model_predict m df = Ok (df1, p) ->
  exists2 m', m = Some m' &
    df1 = DataFrame.setitem_scalar df intercept (Num 1) /\
    (LinearResidualModel.predict m' df).2 = Ok p.
Proof.
case: m => [m'|] //; rewrite /Forecaster.model_predict.
rewrite (surjective_pairing (LinearResidualModel.predict m' df)) predict_frame.
case def_r: (LinearResidualModel.predict m' df).2 => [p'|e] //= [<- <-].
by exists m'.
Qed.

Lemma setitem2d_ok (df df' : frame) (n : string) (a : seq (seq (value F))) :
  DataFrame.setitem2d df n a = Ok df' ->
  exists v,
    [/\ a = [:: v], size v = DataFrame.nrows df &
        df' = DataFrame.Build (DataFrame.nrows df)
                (DataFrame.assign (DataFrame.columns df) n v)].
Proof.
case: a => [|v [|w a]] //=; rewrite /DataFrame.setitem.
by case: ifP => // /eqP sz_v [<-]; exists v.
Qed.

Lemma predict_columns (self : Forecaster.t F)
    (far_out num_data : seq (value F)) (g : frame) :
  Forecaster.predict self far_out num_data = Ok g ->
  DataFrame.names g =
    [:: Forecaster.far_out_col; Forecaster.num_data_col; intercept;
        Forecaster.residual_mean_col; Forecaster.residual_std_col] /\
  DataFrame.getitem g intercept = Ok (nseq (DataFrame.nrows g) (Num 1)).
Proof.
rewrite /Forecaster.predict.
case def_mp: (Forecaster.model_predict _ _) => [[df1 p]|] //=.
case/model_predict_ok: def_mp => mm _ [-> _].
case def_df2: (DataFrame.setitem2d _ _ _) => [df2|] //=.
case/setitem2d_ok: def_df2 => v [_ _ ->].
case def_sp: (Forecaster.model_predict _ _) => [[df3 q]|] //=.
case/model_predict_ok: def_sp => sm _ [-> _].
by case/setitem2d_ok => w [_ _ ->].
Qed.

(** C10.  [LinearResidualModel.predict] writes a column of ones named
    "intercept" into the frame it is given: the frame the caller holds is
    changed by the call.  So the grid that [Forecaster.predict] returns has
    five columns, the intercept between the two inputs and the two
    residual columns, with 1 in every row. *)
Theorem predict_writes_intercept (m : model) (df : frame)
    (self : Forecaster.t F) (far_out num_data : seq (value F)) (g : frame) :
  let df' := (LinearResidualModel.predict m df).1 in
  [/\ df' = DataFrame.setitem_scalar df intercept (Num 1),
      DataFrame.getitem df' intercept = Ok (nseq (DataFrame.nrows df) (Num 1)),
      DataFrame.names df' =
        (if intercept \in DataFrame.names df then DataFrame.names df
         else rcons (DataFrame.names df) intercept) &
      Forecaster.predict self far_out num_data = Ok g ->
      DataFrame.names g =
        [:: Forecaster.far_out_col; Forecaster.num_data_col; intercept;
            Forecaster.residual_mean_col; Forecaster.residual_std_col] /\
      DataFrame.getitem g intercept = Ok (nseq (DataFrame.nrows g) (Num 1))].
Proof.
move=> df'; split; rewrite ?predict_frame //.
- exact: getitem_setitem_scalar.
- by rewrite /DataFrame.names /= names_assign.
- exact: predict_columns.
Qed.

Lemma map_cst A B (c : B) (s : seq A) : nseq (size s) c = [seq c | _ <- s].
Proof. by elim: s => //= _ s ->. Qed.

Lemma model_predict_some (m : model) (df : frame) (p : seq (seq (value F))) :
  (LinearResidualModel.predict m df).2 = Ok p ->
  Forecaster.model_predict (Some m) df =
  Ok (DataFrame.setitem_scalar df intercept (Num 1), p).
Proof.
rewrite /Forecaster.model_predict.
by rewrite (surjective_pairing (LinearResidualModel.predict m df)) => ->.
Qed.

Lemma product_num (ds ams : seq F) :
  Forecaster.product [seq Num d | d <- ds] [seq Num a | a <- ams] =
  [seq (Num p.1, Num p.2) | p <- grid_pairs ds ams].
Proof.
by rewrite /Forecaster.product /grid_pairs allpairs_mapl allpairs_mapr map_allpairs.
Qed.

Lemma predict_steps (self : Forecaster.t F) (far_out num_data : seq (value F))
    (df1 : frame) (p : seq (seq (value F))) (df2 df3 : frame)
    (q : seq (seq (value F))) (g : frame) :
  Forecaster.model_predict (Forecaster.mean_residual_model self)
    (DataFrame.from_records (Forecaster.product far_out num_data)
       Forecaster.far_out_col Forecaster.num_data_col) = Ok (df1, p) ->
  DataFrame.setitem2d df1 Forecaster.residual_mean_col p = Ok df2 ->
  Forecaster.model_predict (Forecaster.std_residual_model self) df2 =
    Ok (df3, q) ->
  DataFrame.setitem2d df3 Forecaster.residual_std_col q = Ok g ->
  Forecaster.predict self far_out num_data = Ok g.
Proof. by rewrite /Forecaster.predict => -> /= -> /= -> /=. Qed.

(** C1.  With both regressions fitted on columns of the grid,
    [Forecaster.predict] on non-empty sequences of distances and amounts
    returns a grid of [len(distances) * len(amounts)] rows, one for each
    pair of the Cartesian product with the distances outermost, where
    [residual_mean] is the mean regression of the row and [residual_std]
    the std regression of the row. *)
Theorem predict_grid (self : Forecaster.t F) (mm sm : model) (cm cs : seq F)
    (distances amounts : seq F) :
  Forecaster.mean_residual_model self = Some mm ->
  LinearResidualModel.coef mm = Some cm ->
  size cm = (size (LinearResidualModel.covariates mm)).+1 ->
  all (mem grid_cols) (LinearResidualModel.covariates mm) ->
  Forecaster.std_residual_model self = Some sm ->
  LinearResidualModel.coef sm = Some cs ->
  size cs = (size (LinearResidualModel.covariates sm)).+1 ->
  all (mem grid_cols_mean) (LinearResidualModel.covariates sm) ->
  distances != [::] -> amounts != [::] ->
  let pairs := grid_pairs distances amounts in
  let n := (size distances * size amounts)%N in
  let mean p :=
    linear_predictor (intercept :: LinearResidualModel.covariates mm) cm
      (grid_row p.1 p.2) in
  let std p :=
    linear_predictor (intercept :: LinearResidualModel.covariates sm) cs
      (grid_row_mean p.1 p.2 (mean p)) in
  Forecaster.predict self [seq Num d | d <- distances]
    [seq Num a | a <- amounts] =
  Ok (DataFrame.Build n
        [:: (Forecaster.far_out_col, [seq Num p.1 | p <- pairs]);
            (Forecaster.num_data_col, [seq Num p.2 | p <- pairs]);
            (intercept, nseq n (Num 1));
            (Forecaster.residual_mean_col, [seq Num (mean p) | p <- pairs]);
            (Forecaster.residual_std_col, [seq Num (std p) | p <- pairs])]).
Proof.
move=> def_mm def_cm sz_cm cov_mm def_sm def_cs sz_cs cov_sm _ _ pairs n mean std.
have sz_pairs: size pairs = n by rewrite size_allpairs.
pose nd : frame :=
  DataFrame.from_records [seq (Num p.1, Num p.2) | p <- pairs]
    Forecaster.far_out_col Forecaster.num_data_col.
pose df2 : frame :=
  DataFrame.Build (size pairs)
    [:: (Forecaster.far_out_col, [seq Num p.1 | p <- pairs]);
        (Forecaster.num_data_col, [seq Num p.2 | p <- pairs]);
        (intercept, nseq (size pairs) (Num 1));
        (Forecaster.residual_mean_col, [seq Num (mean p) | p <- pairs])].
have pm: (LinearResidualModel.predict mm nd).2 =
         Ok [:: [seq Num (mean p) | p <- pairs]].
  rewrite (@predict_numeric _ mm _ cm [seq grid_row p.1 p.2 | p <- pairs]) //.
  - by rewrite /= !size_map.
  - move=> c; rewrite in_cons => /orP[/eqP->|c_cov] /=.
      by rewrite size_map -map_comp map_cst.
    have /(allP cov_mm): c \in LinearResidualModel.covariates mm by [].
    by rewrite !inE => /or3P[] /eqP-> /=;
       rewrite -!map_comp ?size_map ?map_cst.
  by rewrite -map_comp.
have ps: (LinearResidualModel.predict sm df2).2 =
         Ok [:: [seq Num (std p) | p <- pairs]].
  rewrite (@predict_numeric _ sm _ cs
             [seq grid_row_mean p.1 p.2 (mean p) | p <- pairs]) //.
  - by rewrite /= size_map.
  - move=> c; rewrite in_cons => /orP[/eqP->|c_cov] /=.
      by rewrite -map_comp map_cst.
    have /(allP cov_sm): c \in LinearResidualModel.covariates sm by [].
    by rewrite !inE => /or4P[] /eqP-> /=; rewrite -!map_comp ?map_cst.
  by rewrite -map_comp.
apply: (@predict_steps _ _ _
          (DataFrame.setitem_scalar nd intercept (Num 1))
          [:: [seq Num (mean p) | p <- pairs]] df2
          (DataFrame.setitem_scalar df2 intercept (Num 1))
          [:: [seq Num (std p) | p <- pairs]]).
- by rewrite def_mm product_num (model_predict_some pm).
- by rewrite /= /DataFrame.setitem /= !size_map eqxx -!map_comp.
- by rewrite def_sm (model_predict_some ps).
by rewrite /= /DataFrame.setitem /= !size_map eqxx sz_pairs.
Qed.

End GridFacts.
(** ** [np.linalg.inv] in exact arithmetic

    Over a field the elimination of [Numpy.gesv] solves the system it is
    given, and stops on a zero pivot exactly when the matrix is singular:
    [Numpy.inv (exact F)] returns the inverse of an invertible matrix, and
    nothing for any other. *)

Lemma head_exchange (T : Type) p (rows : seq (seq T)) :
  head [::] (Numpy.exchange p rows) = nth [::] rows p.
Proof. by case: p => [|p] /=; rewrite ?nth0 ?nth_behead. Qed.

Section Elimination.

Variable F : realFieldType.

Notation ex := (exact F).

Lemma entry_array m n (f : nat -> nat -> F) i j :
  (i < m)%N -> (j < n)%N -> Numpy.entry ex (Numpy.array m n f) i j = f i j.
Proof.
by move=> lt_i lt_j; rewrite /Numpy.entry /Numpy.array nth_mkseq // nth_mkseq.
Qed.

Lemma foldl_sum (h : nat -> F) a s :
  foldl (fun x j => x + h j) a s = a + \sum_(j <- s) h j.
Proof.
elim: s a => [|j s IH] a /=; first by rewrite big_nil addr0.
by rewrite IH big_cons addrA.
Qed.

Lemma sumprod_exact p (f g : nat -> F) :
  Numpy.sumprod ex p f g = \sum_(j < p) f j * g j.
Proof.
rewrite /Numpy.sumprod /= foldl_sum add0r.
by rewrite -[p in iota 0 p]subn0 -/(index_iota 0 p) big_mkord.
Qed.

Lemma mx_of_dot m p q a b :
  mx_of m q (Numpy.dot ex m p q a b) = mx_of m p a *m mx_of p q b.
Proof.
apply/matrixP => i j; rewrite !mxE entry_array // sumprod_exact.
by apply: eq_bigr => k _; rewrite !mxE.
Qed.

Lemma mx_of_transpose m n a :
  mx_of n m (Numpy.transpose ex m n a) = (mx_of m n a)^T.
Proof. by apply/matrixP => i j; rewrite !mxE entry_array. Qed.

(** *** The pivot search *)

Lemma idamax_from_spec (pre s : seq F) best v :
    (best < size pre)%N -> nth 0 pre best = v ->
    (forall x, x \in pre -> `|x| <= `|v|) ->
  let r := Numpy.idamax_from ex best v (size pre) s in
  (r < size (pre ++ s))%N /\
  forall x, x \in pre ++ s -> `|x| <= `|nth 0 (pre ++ s) r|.
Proof.
elim: s pre best v => [|x s IH] pre best v lt_best def_v max_v /=.
  by rewrite cats0 def_v.
rewrite -cat_rcons -(size_rcons pre x).
case: ifP => [lt_vx|le_xv].
  apply: IH.
  - by rewrite size_rcons.
  - by rewrite nth_rcons ltnn eqxx.
  move=> y; rewrite mem_rcons inE => /orP[/eqP-> //|/max_v le_y].
  exact: le_trans le_y (ltW lt_vx).
apply: IH.
- by rewrite size_rcons ltnS ltnW.
- by rewrite nth_rcons lt_best.
move=> y; rewrite mem_rcons inE => /orP[/eqP->|/max_v //].
by rewrite leNgt le_xv.
Qed.

Lemma idamax_spec (s : seq F) :
  (0 < size s)%N ->
  (Numpy.idamax ex s < size s)%N /\
  forall x, x \in s -> `|x| <= `|nth 0 s (Numpy.idamax ex s)|.
Proof.
case: s => [//|x s] _.
have := @idamax_from_spec [:: x] s 0%N x isT (erefl _).
by apply=> y; rewrite inE => /eqP->.
Qed.

(** *** The exchange of rows *)

Lemma exchange_perm p (rows : seq (seq F)) :
  (p < size rows)%N -> perm_eq (Numpy.exchange p rows) rows.
Proof.
case: p => [//|p]; case: rows => [//|r0 rest] /=; rewrite ltnS => lt_p.
rewrite -{4}(cat_take_drop p rest) (drop_nth [::] lt_p).
apply/permP => a; rewrite /= !count_cat /=.
by rewrite [LHS]addnCA [RHS]addnCA; congr (_ + _)%N; rewrite [LHS]addnCA.
Qed.

(** *** One step of the elimination *)

Lemma multiplier_exact a c : Numpy.multiplier ex a c = c / a.
Proof. by rewrite /Numpy.multiplier /= normr0 ltNge normr_ge0 /= div1r. Qed.

Lemma size_eliminate l (u r : seq F) :
  size u = size r -> size (Numpy.eliminate ex l u r) = size r.
Proof. by move=> eq_sz; rewrite size_map size_zip eq_sz minnn. Qed.

Lemma nth_eliminate l (u r : seq F) j :
  size u = size r ->
  nth 0 (Numpy.eliminate ex l u r) j = nth 0 r j - l * nth 0 u j.
Proof.
move=> eq_sz; case: (ltnP j (size r)) => [lt_j|le_j].
  by rewrite (nth_map (0, 0)) ?size_zip ?eq_sz ?minnn // nth_zip.
by rewrite !nth_default ?size_eliminate ?eq_sz // mulr0 subr0.
Qed.

Lemma substitute_exact k (u b : seq F) (xs : seq (seq F)) :
    size b = k -> all (fun x => size x == k) xs -> size u = size xs ->
  size (Numpy.substitute ex u b xs) = k /\
  forall c, nth 0 (Numpy.substitute ex u b xs) c =
    nth 0 b c - \sum_(j < size xs) nth 0 u j * Numpy.entry ex xs j c.
Proof.
move=> sz_b; elim: xs u => [|x xs IH] [|a u] //=.
  by move=> _ _; split=> // c; rewrite big_ord0 subr0.
case/andP=> /eqP sz_x sz_xs [sz_u].
have [sz_y nth_y] := IH u sz_xs sz_u.
rewrite /Numpy.substitute /= -/(Numpy.substitute ex u b xs).
split=> [|c]; first by rewrite size_map size_zip sz_x sz_y minnn.
rewrite big_ord_recl /= opprD addrCA -nth_y.
case: (ltnP c k) => [lt_c|le_c].
  rewrite (nth_map (0, 0)) ?size_zip ?sz_x ?sz_y ?minnn // nth_zip ?sz_x //=.
  by rewrite addrC mulrC.
rewrite !nth_default ?size_map ?size_zip ?sz_x ?sz_y ?minnn //.
by rewrite /Numpy.entry /= nth_default ?sz_x // mulr0 oppr0 addr0.
Qed.

Lemma gesvS n rows :
  Numpy.gesv ex n.+1 rows =
  let rows1 :=
    Numpy.exchange (Numpy.idamax ex [seq head 0 r | r <- rows]) rows in
  let u := head [::] rows1 in
  let a := head 0 u in
  if a == 0 then None
  else
    if Numpy.gesv ex n
         [seq Numpy.eliminate ex (Numpy.multiplier ex a (head 0 r))
                (behead u) (behead r)
         | r <- behead rows1] is Some xs
    then Some ([seq v / a | v <- Numpy.substitute ex (take n (behead u))
                                   (drop n (behead u)) xs] :: xs)
    else None.
Proof. by []. Qed.

Lemma combinationS n (r : seq F) (x : nat -> F) :
  combination n.+1 r x =
  nth 0 r 0 * x 0%N + combination n (behead r) (fun j => x j.+1).
Proof.
rewrite /combination big_ord_recl; congr (_ + _).
by apply: eq_bigr => j _; rewrite nth_behead.
Qed.

Lemma combination_eliminate n l (u r : seq F) (x : nat -> F) :
  size u = size r ->
  combination n (Numpy.eliminate ex l u r) x =
  combination n r x - l * combination n u x.
Proof.
move=> eq_sz; rewrite /combination mulr_sumr -sumrB.
by apply: eq_bigr => j _; rewrite nth_eliminate // mulrBl mulrA.
Qed.

Lemma gesv_some k n rows xs :
    shaped_rows n k rows -> Numpy.gesv ex n rows = Some xs ->
  [/\ size xs = n, all (fun x => size x == k) xs & solves n k rows xs].
Proof.
elim: n rows xs => [|n IH] rows xs.
  by case/andP=> /eqP/size0nil-> _ [<-]; split.
case/andP=> /eqP sz_rows sz_row; rewrite gesvS.
set p := Numpy.idamax _ _.
have lt_p: (p < size rows)%N.
  by have [] := @idamax_spec [seq head 0 r | r <- rows];
     rewrite size_map sz_rows.
have := exchange_perm lt_p.
case: (Numpy.exchange p rows) => [|u others] perm1 /=.
  by move/perm_size: perm1; rewrite sz_rows.
have:= sz_row; rewrite -(perm_all _ perm1) /= => /andP[/eqP sz_u sz_others].
case: u sz_u perm1 => [//|a u] /= [sz_u] perm1.
case: ifP => // nz_a.
set lower := [seq _ | r <- others].
case def_xs': (Numpy.gesv ex n lower) => [xs'|] // [<-].
have sz_oth: size others = n.
  by move/perm_size: perm1; rewrite sz_rows /= => -[].
have sh_lower: shaped_rows n k lower.
  rewrite /shaped_rows size_map sz_oth eqxx /= all_map.
  apply/allP => r /(allP sz_others) /= /eqP sz_r.
  by rewrite size_eliminate size_behead sz_r //= sz_u.
have [sz_xs' sh_xs' sol'] := IH _ _ sh_lower def_xs'.
have [||sz_y nth_y] := @substitute_exact k (take n u) (drop n u) xs' _ sh_xs'.
- by rewrite size_drop sz_u addKn.
- by rewrite size_takel ?sz_u ?leq_addr.
set y := Numpy.substitute _ _ _ _ in sz_y nth_y *.
have nth_x0 c : (c < k)%N ->
    nth 0 [seq v / a | v <- y] c =
    (nth 0 u (n + c) - combination n u (fun j => Numpy.entry ex xs' j c)) / a.
  move=> lt_c; rewrite (nth_map 0) ?sz_y // nth_y nth_drop sz_xs'.
  by congr ((_ - _) / _); apply: eq_bigr => j _; rewrite nth_take.
split=> [||r]; rewrite /= ?sz_xs' ?size_map ?sz_y ?eqxx //.
rewrite -(perm_mem perm1) inE => in_r c lt_c.
rewrite combinationS.
have ->: Numpy.entry ex ([seq v / a | v <- y] :: xs') 0 c =
         nth 0 [seq v / a | v <- y] c by [].
have ->: combination n (behead r)
           (fun j => Numpy.entry ex ([seq v / a | v <- y] :: xs') j.+1 c) =
         combination n (behead r) (fun j => Numpy.entry ex xs' j c) by [].
rewrite nth_x0 //.
case/orP: in_r => [/eqP->|in_r] /=.
  by rewrite mulrC divfK ?nz_a // subrK.
have /eqP := allP sz_others _ in_r.
case: r in_r => [//|c0 r] in_r /= [sz_r].
have in_low: Numpy.eliminate ex (Numpy.multiplier ex a c0) u r \in lower.
  by apply/mapP; exists (c0 :: r).
have := sol' _ in_low c lt_c.
rewrite combination_eliminate ?sz_u // nth_eliminate ?sz_u // multiplier_exact.
move=> eq_r; rewrite mulrA mulrAC mulrBr addrAC -addrA eq_r.
by rewrite addrCA subrr addr0.
Qed.

Lemma gesv_none k n rows :
    shaped_rows n k rows -> Numpy.gesv ex n rows = None ->
  exists2 v : nat -> F, (exists2 j, (j < n)%N & v j != 0) &
    forall r, r \in rows -> combination n r v = 0.
Proof.
elim: n rows => [//|n IH] rows.
case/andP=> /eqP sz_rows sz_row; rewrite gesvS.
set heads := [seq head 0 r | r <- rows]; set p := Numpy.idamax _ _.
have [|lt_p max_p] := @idamax_spec heads; first by rewrite size_map sz_rows.
rewrite size_map in lt_p.
have := exchange_perm lt_p; have := head_exchange p rows.
case: (Numpy.exchange p rows) => [|u others] /= def_u perm1.
  by move/perm_size: perm1; rewrite sz_rows.
have:= sz_row; rewrite -(perm_all _ perm1) /= => /andP[/eqP sz_u sz_others].
case: u sz_u perm1 def_u => [//|a u] /= [sz_u] perm1 def_u.
case: ifP => [/eqP a0 _|nz_a].
  exists (fun j => (j == 0%N)%:R); first by exists 0%N; rewrite ?oner_neq0.
  move=> r in_r; rewrite combinationS /= mulr1 /combination big1 ?addr0.
    by move=> j _; rewrite mulr0.
  have := max_p _ (map_f (head 0) in_r).
  by rewrite (nth_map [::]) // -def_u /= a0 normr0 normr_le0 nth0 => /eqP.
set lower := [seq _ | r <- others].
case def_xs': (Numpy.gesv ex n lower) => [//|] _.
have sz_oth: size others = n.
  by move/perm_size: perm1; rewrite sz_rows /= => -[].
have sh_lower: shaped_rows n k lower.
  rewrite /shaped_rows size_map sz_oth eqxx /= all_map.
  apply/allP => r /(allP sz_others) /= /eqP sz_r.
  by rewrite size_eliminate size_behead sz_r //= sz_u.
have [v' [j lt_j nz_j] zero'] := IH _ sh_lower def_xs'.
exists (fun j => if j is j'.+1 then v' j' else - combination n u v' / a).
  by exists j.+1.
move=> r; rewrite -(perm_mem perm1) inE combinationS /= => /orP[/eqP->|in_r] /=.
  by rewrite mulrC divfK ?nz_a // addNr.
have /eqP := allP sz_others _ in_r.
case: r in_r => [//|c0 r] in_r /= [sz_r].
have in_low: Numpy.eliminate ex (Numpy.multiplier ex a c0) u r \in lower.
  by apply/mapP; exists (c0 :: r).
have := zero' _ in_low.
rewrite combination_eliminate ?sz_u // multiplier_exact => /eqP.
rewrite subr_eq0 => /eqP->.
by rewrite mulrA mulrAC mulrN addNr.
Qed.

(** *** The inverse *)

Lemma shaped_array n k (f : nat -> nat -> F) :
  shaped_rows n k (Numpy.array n (n + k) f).
Proof.
rewrite /shaped_rows /Numpy.array size_mkseq eqxx /=.
by apply/allP => r /mapP[i _ ->]; rewrite size_mkseq.
Qed.

Lemma inv_some n a xs :
  Numpy.inv ex n a = Some xs ->
  mx_of n n a \in unitmx /\ mx_of n n xs = invmx (mx_of n n a).
Proof.
move=> /(gesv_some (shaped_array _ _ _)) [sz_xs sh_xs sol].
suff inv_a: mx_of n n a *m mx_of n n xs = 1%:M.
  have [unit_a _] := mulmx1_unit inv_a; split=> //.
  by rewrite -[LHS](mulKmx unit_a) inv_a mulmx1.
apply/matrixP => i c; rewrite !mxE.
pose f i j := if (j < n)%N then Numpy.entry ex a i j
              else if (j - n)%N == i then 1 else 0 : F.
have in_i: mkseq (f i) (n + n) \in Numpy.array n (n + n) f.
  by apply/mapP; exists (val i); rewrite // mem_iota add0n /=.
have := sol _ in_i c (ltn_ord c).
rewrite nth_mkseq ?ltn_add2l // /f ltnNge leq_addr /= addKn.
move=> eq_c; rewrite -val_eqE eq_sym.
transitivity (if val c == val i then 1 else 0 : F); last by case: eqP.
rewrite -eq_c; apply: eq_bigr => j _.
by rewrite !mxE nth_mkseq ?ltn_addr // ltn_ord.
Qed.

Lemma inv_none n a : Numpy.inv ex n a = None -> mx_of n n a \notin unitmx.
Proof.
move=> /(gesv_none (shaped_array _ _ _)) [v [j lt_j nz_j] zero_v].
apply/negP => unit_a.
pose w : 'cV[F]_n := \col_i v i.
suff w0: w = 0.
  by have := congr1 (fun u : 'cV_n => u (Ordinal lt_j) 0) w0;
     rewrite !mxE /= => /eqP; rewrite (negbTE nz_j).
rewrite -(mulKmx unit_a w); suff ->: mx_of n n a *m w = 0 by rewrite mulmx0.
apply/matrixP => i c; rewrite [LHS]mxE [RHS]mxE.
pose f i j := if (j < n)%N then Numpy.entry ex a i j
              else if (j - n)%N == i then 1 else 0 : F.
have in_i: mkseq (f i) (n + n) \in Numpy.array n (n + n) f.
  by apply/mapP; exists (val i); rewrite // mem_iota add0n /=.
rewrite -[RHS](zero_v _ in_i).
by apply: eq_bigr => k _; rewrite !mxE nth_mkseq ?ltn_addr // /f ltn_ord.
Qed.

Lemma inv_unit n a :
  isSome (Numpy.inv ex n a) = (mx_of n n a \in unitmx).
Proof.
case def_inv: (Numpy.inv ex n a) => [xs|] /=.
  by have [-> _] := inv_some def_inv.
by apply/esym/negbTE/inv_none.
Qed.

End Elimination.

(** ** LinearResidualModel.fit over a field *)

Section OLS.

Variable F : realFieldType.

Notation model := (LinearResidualModel.t F).
Notation intercept := LinearResidualModel.intercept.
Notation pred := LinearResidualModel.pred.
Notation out := LinearResidualModel.out.

Lemma lookup_names C (cols : seq (string * seq C)) (n : string) :
  (n \in [seq c.1 | c <- cols]) = isSome (DataFrame.lookup cols n).
Proof.
elim: cols => [|c cols IH] //=.
by rewrite in_cons eq_sym; case: eqP.
Qed.

Lemma select_present C (df : DataFrame.t C) (ns : seq string) :
  all (fun n => n \in DataFrame.names df) ns -> is_ok (DataFrame.select df ns).
Proof.
elim: ns => [|n ns IH] //= /andP[n_in /IH].
rewrite /DataFrame.getitem; move: n_in; rewrite /DataFrame.names lookup_names.
by case: (DataFrame.lookup _ n) => //= v _; case: (DataFrame.select df ns).
Qed.

Lemma fit_present (m : model) :
  columns_present m ->
  LinearResidualModel.fit m =
  match LinearResidualModel.linalg_inv ((pred m)^T *m pred m) with
  | Raise e => (m, Raise e)
  | Ok inv =>
      (LinearResidualModel.set_coef m
         (LinearResidualModel.ravel (inv *m (pred m)^T *m out m)), Ok tt)
  end.
Proof.
case/andP=> /select_present ok_x ok_y; rewrite /LinearResidualModel.fit.
have /select_present:
  all (fun n => n \in DataFrame.names (LinearResidualModel.design_frame m))
    [:: LinearResidualModel.outcome m] by rewrite /= ok_y.
by move: ok_x; case: (DataFrame.select _ _) => // cs _; case: (DataFrame.select _ _).
Qed.

Lemma fit_unit (m : model) :
  columns_present m -> (pred m)^T *m pred m \in unitmx ->
  LinearResidualModel.fit m =
  (LinearResidualModel.set_coef m
     (LinearResidualModel.ravel
        (invmx ((pred m)^T *m pred m) *m (pred m)^T *m out m)), Ok tt).
Proof.
by move=> /fit_present -> inv_X; rewrite /LinearResidualModel.linalg_inv inv_X.
Qed.

Lemma fit_singular (m : model) :
  columns_present m -> (pred m)^T *m pred m \notin unitmx ->
  LinearResidualModel.fit m = (m, Raise LinAlgError).
Proof.
move=> /fit_present -> /negbTE sing_X.
by rewrite /LinearResidualModel.linalg_inv sing_X.
Qed.

(** *** Predicting on the training rows *)

Lemma map_nth_ord C (c0 : C) (s : seq C) :
  [seq nth c0 s j | j : 'I_(size s) <- enum 'I_(size s)] = s.
Proof.
rewrite (map_comp (nth c0 s) val) val_enum_ord.
exact: mkseq_nth.
Qed.

Lemma linear_predictor_ravel (cols : seq string) (c : 'cV[F]_(size cols))
    (e : string -> F) :
  linear_predictor cols (LinearResidualModel.ravel c) e =
  \sum_(j < size cols) e (nth ""%string cols j) * c j 0.
Proof.
rewrite /linear_predictor /LinearResidualModel.ravel.
have ->: zip cols [seq c j 0 | j <- enum 'I_(size cols)] =
         [seq (nth ""%string cols j, c j 0)
         | j : 'I_(size cols) <- enum 'I_(size cols)].
  by rewrite -zip_map map_nth_ord.
by rewrite big_map big_enum.
Qed.

Lemma assign_map A B (f : A -> B) (cols : seq (string * seq A)) (n : string)
    (v : seq A) :
  [seq (c.1, [seq f x | x <- c.2]) | c <- DataFrame.assign cols n v] =
  DataFrame.assign [seq (c.1, [seq f x | x <- c.2]) | c <- cols] n
    [seq f x | x <- v].
Proof. by elim: cols => [|c cols IH] //=; case: ifP => _ //=; rewrite IH. Qed.

Lemma lookup_map A B (f : A -> B) (cols : seq (string * seq A)) (n : string) :
  DataFrame.lookup [seq (c.1, [seq f x | x <- c.2]) | c <- cols] n =
  omap (map f) (DataFrame.lookup cols n).
Proof. by elim: cols => [|c cols IH] //=; case: ifP. Qed.

Lemma lookup_wf C (df : DataFrame.t C) (n : string) (v : seq C) :
  DataFrame.wf df -> DataFrame.lookup (DataFrame.columns df) n = Some v ->
  size v = DataFrame.nrows df.
Proof.
rewrite /DataFrame.wf; elim: (DataFrame.columns df) => [|c cols IH] //=.
by case/andP=> /eqP sz_c /IH{}IH; case: ifP => // _ [<-].
Qed.

Lemma wf_design_frame (m : model) :
  DataFrame.wf (LinearResidualModel.data m) ->
  DataFrame.wf (LinearResidualModel.design_frame m).
Proof. by move=> wf_m; apply: wf_assign; rewrite ?size_nseq. Qed.

Lemma predict_training (m : model)
    (c : 'cV[F]_(size (LinearResidualModel.design_columns m))) :
  columns_present m -> DataFrame.wf (LinearResidualModel.data m) ->
  (LinearResidualModel.predict
     (LinearResidualModel.set_coef m (LinearResidualModel.ravel c))
     (training_rows m)).2 =
  Ok [:: [seq Num ((pred m *m c) i 0)
         | i <- enum 'I_(DataFrame.nrows (LinearResidualModel.design_frame m))]].
Proof.
case/andP=> /allP present_x _ /wf_design_frame wf_df.
set df := LinearResidualModel.design_frame m in wf_df present_x *.
pose e (i : 'I_(DataFrame.nrows df)) (n : string) : F :=
  nth 0 (LinearResidualModel.column0 df n) i.
pose es := [seq e i | i <- enum 'I_(DataFrame.nrows df)].
pose m' := LinearResidualModel.set_coef m (LinearResidualModel.ravel c).
have sz_c: size (LinearResidualModel.ravel c) =
           (size (LinearResidualModel.covariates m')).+1.
  by rewrite size_map size_enum_ord.
have sz_rows: DataFrame.nrows (training_rows m) = size es.
  by rewrite size_map size_enum_ord.
have cols_es n :
  n \in intercept :: LinearResidualModel.covariates m' ->
  DataFrame.lookup
    (DataFrame.columns
       (DataFrame.setitem_scalar (training_rows m) intercept (Num 1))) n =
  Some [seq Num (x n) | x <- es].
  move=> n_in; have:= present_x n n_in.
  rewrite /DataFrame.names lookup_names.
  have ->: DataFrame.columns
             (DataFrame.setitem_scalar (training_rows m) intercept (Num 1)) =
           [seq (c.1, [seq Num x | x <- c.2]) | c <- DataFrame.columns df].
    by rewrite /df /= assign_map map_nseq.
  rewrite lookup_map -map_comp.
  case def_v: (DataFrame.lookup _ n) => [v|] //= _; congr Some.
  have sz_v: size v = DataFrame.nrows df by exact: lookup_wf wf_df def_v.
  have e_v i : Num (e i n) = (@Num F \o nth 0 v \o val) i.
    by rewrite /e /LinearResidualModel.column0 def_v.
  rewrite [RHS](eq_map e_v) [RHS]map_comp val_enum_ord -sz_v map_comp.
  by rewrite -/(mkseq _ _) mkseq_nth.
rewrite (predict_numeric (m := m') (erefl _) sz_c sz_rows cols_es).
rewrite -map_comp; congr (Ok [:: _]); apply/eq_map => i /=.
rewrite (linear_predictor_ravel c) mxE; congr Num.
by apply: eq_bigr => j _; rewrite mxE.
Qed.

(** An outcome that the design columns reproduce with the coefficients [c]
    is fitted with [c]. *)
Lemma fit_exact (m : model)
    (c : 'cV[F]_(size (LinearResidualModel.design_columns m))) :
  columns_present m -> (pred m)^T *m pred m \in unitmx ->
  out m = pred m *m c ->
  LinearResidualModel.fit m =
  (LinearResidualModel.set_coef m (LinearResidualModel.ravel c), Ok tt).
Proof.
move=> present_m inv_X lin_y; rewrite (fit_unit present_m inv_X) lin_y.
by rewrite -[invmx _ *m _ *m _]mulmxA [_^T *m (_ *m _)]mulmxA (mulKmx inv_X).
Qed.

Lemma ravel_col (s : seq F) :
  LinearResidualModel.ravel (\col_(i < size s) nth 0 s i) = s.
Proof.
rewrite /LinearResidualModel.ravel -[RHS](map_nth_ord 0).
by apply/eq_map => i; rewrite mxE.
Qed.

Lemma gram_unit (n : nat) (X : 'M[F]_n) :
  X \in unitmx -> X^T *m X \in unitmx.
Proof. by move=> inv_X; rewrite unitmx_mul unitmx_tr inv_X. Qed.

(** A table with fewer rows than design columns has a singular [Xt X]. *)
Lemma fit_few_rows (m : model) :
  columns_present m ->
  (DataFrame.nrows (LinearResidualModel.data m) <
   size (LinearResidualModel.design_columns m))%N ->
  LinearResidualModel.fit m = (m, Raise LinAlgError).
Proof.
move=> present_m few; apply: fit_singular => //.
rewrite -row_free_unit /row_free neq_ltn; apply/orP; left.
apply: leq_ltn_trans few; apply: leq_trans (mxrankM_maxr _ _) _.
exact: rank_leq_row.
Qed.

(** So does a table with fewer distinct rows than design columns: the rows
    of the design matrix are taken from the [d] rows of [D]. *)
Lemma fit_few_distinct_rows (m : model) (d : nat)
    (D : 'M[F]_(d, size (LinearResidualModel.design_columns m)))
    (pick : 'I_(DataFrame.nrows (LinearResidualModel.design_frame m)) -> 'I_d) :
  columns_present m ->
  (d < size (LinearResidualModel.design_columns m))%N ->
  (forall i j, pred m i j = D (pick i) j) ->
  LinearResidualModel.fit m = (m, Raise LinAlgError).
Proof.
move=> present_m few rows_D; apply: fit_singular => //.
have ->: pred m = (\matrix_(i, r) (pick i == r)%:R) *m D.
  apply/matrixP=> i j; rewrite rows_D [RHS]mxE (bigD1 (pick i)) //=.
  rewrite mxE eqxx mul1r big1 ?addr0 // => r ne_r.
  by rewrite mxE eq_sym (negbTE ne_r) mul0r.
rewrite -row_free_unit /row_free neq_ltn; apply/orP; left.
apply: leq_ltn_trans few; apply: leq_trans (mxrankM_maxr _ _) _.
exact: mulmx_max_rank.
Qed.

(** Design columns that are linearly dependent make [Xt X] singular. *)
Lemma fit_collinear (m : model)
    (v : 'cV[F]_(size (LinearResidualModel.design_columns m))) :
  columns_present m -> v != 0 -> pred m *m v = 0 ->
  LinearResidualModel.fit m = (m, Raise LinAlgError).
Proof.
move=> present_m nz_v Xv0; apply: fit_singular => //.
apply: contra nz_v => inv_X.
by rewrite -(mulKmx inv_X v) -mulmxA Xv0 !mulmx0.
Qed.

End OLS.
(** ** LinearResidualModel.fit over an arithmetic *)

Lemma fit_columns_read (T : Type) (ar : Arith.t T) (m : Machine.t T) :
  columns_read ar m ->
  let n := DataFrame.nrows (Machine.data m) in
  let k := (size (Machine.covariates m)).+1 in
  let pred_t := Numpy.transpose ar n k (Machine.pred ar m) in
  Machine.fit ar m =
  match Numpy.inv ar k (Machine.gram ar m) with
  | None => (m, Raise LinAlgError)
  | Some inv =>
      (Machine.set_coef m
         (Machine.ravel ar k
            (Numpy.dot ar k n 1 (Numpy.dot ar k k n inv pred_t)
               (Machine.out ar m))), Ok tt)
  end.
Proof.
case/andP=> /select_present ok_x ok_y; rewrite /Machine.fit.
have /select_present:
  all (fun c => c \in DataFrame.names (Machine.design_frame ar m))
    [:: Machine.outcome m] by rewrite /= ok_y.
by move: ok_x; case: (DataFrame.select _ _) => // cs _;
   case: (DataFrame.select _ _).
Qed.

(** A table without rows: [Xt X] is the zero matrix, the first pivot is
    zero whatever the arithmetic makes of the search for it. *)
Section NoRows.

Variables (T : Type) (ar : Arith.t T).

Lemma gesv_zero n (rows : seq (seq T)) :
  Arith.is_zero ar
    (head (Arith.zero ar)
       (nth [::] rows
          (Numpy.idamax ar [seq head (Arith.zero ar) r | r <- rows]))) ->
  Numpy.gesv ar n.+1 rows = None.
Proof.
move=> zero_a.
have ->: Numpy.gesv ar n.+1 rows =
  let rows1 :=
    Numpy.exchange (Numpy.idamax ar [seq head (Arith.zero ar) r | r <- rows])
      rows in
  let u := head [::] rows1 in
  let a := head (Arith.zero ar) u in
  if Arith.is_zero ar a then None
  else
    if Numpy.gesv ar n
         [seq Numpy.eliminate ar (Numpy.multiplier ar a (head (Arith.zero ar) r))
                (behead u) (behead r)
         | r <- behead rows1] is Some xs
    then Some ([seq Arith.div ar v a
               | v <- Numpy.substitute ar (take n (behead u))
                        (drop n (behead u)) xs] :: xs)
    else None by [].
by cbv zeta; rewrite head_exchange zero_a.
Qed.

Lemma inv_zero k (a : seq (seq T)) :
  Arith.is_zero ar (Arith.zero ar) ->
  (forall i, Numpy.entry ar a i 0 = Arith.zero ar) ->
  Numpy.inv ar k.+1 a = None.
Proof.
move=> zero0 col0; apply: gesv_zero.
set p := Numpy.idamax _ _.
suff ->: head (Arith.zero ar)
           (nth [::] (Numpy.array k.+1 (k.+1 + k.+1)
              (fun i j => if (j < k.+1)%N then Numpy.entry ar a i j
                          else if (j - k.+1)%N == i then Arith.one ar
                               else Arith.zero ar)) p) = Arith.zero ar.
  by [].
case: (ltnP p k.+1) => [lt_p|le_p]; last by rewrite nth_default ?size_mkseq.
by rewrite /Numpy.array nth_mkseq // -nth0 nth_mkseq // col0.
Qed.

Lemma fit_no_rows (m : Machine.t T) :
  Arith.is_zero ar (Arith.zero ar) -> columns_read ar m ->
  DataFrame.nrows (Machine.data m) = 0%N ->
  Machine.fit ar m = (m, Raise LinAlgError).
Proof.
move=> zero0 present_m rows0; rewrite fit_columns_read //.
rewrite inv_zero // => i; rewrite /Machine.gram /= rows0.
rewrite /Numpy.dot /Numpy.array /Numpy.entry.
case: (ltnP i (size (Machine.covariates m)).+1) => [lt_i|le_i].
  by rewrite nth_mkseq // nth_mkseq.
by rewrite [nth [::] _ i]nth_default ?size_mkseq // nth_nil.
Qed.

End NoRows.

Section ExactFit.

Variable F : realFieldType.

Notation ex := (exact F).

Notation column0 := LinearResidualModel.column0.
Notation intercept := LinearResidualModel.intercept.

Lemma select_columns (df : DataFrame.t F) ns cs :
  DataFrame.select df ns = Ok cs -> cs = [seq column0 df n | n <- ns].
Proof.
elim: ns cs => [|n ns IH] cs /=; first by case.
rewrite /DataFrame.getitem /column0.
case: (DataFrame.lookup _ n) => [v|] //=.
by case: (DataFrame.select df ns) IH => [cs'|] //= IH [<-]; rewrite (IH cs').
Qed.

Lemma entry_rows_of n (cs : seq (seq F)) i j :
  (i < n)%N -> (j < size cs)%N ->
  Numpy.entry ex (DataFrame.rows_of 0 n cs) i j = nth 0 (nth [::] cs j) i.
Proof.
move=> lt_i lt_j; rewrite /Numpy.entry /DataFrame.rows_of.
by rewrite (nth_map 0%N) ?size_iota // nth_iota // add0n (nth_map [::]).
Qed.

Lemma ravel_mx_of k (a : seq (seq F)) :
  Machine.ravel ex k a = LinearResidualModel.ravel (mx_of k 1 a).
Proof.
rewrite /Machine.ravel /LinearResidualModel.ravel /mkseq -val_enum_ord.
by rewrite -map_comp; apply/eq_map => i; rewrite /= mxE.
Qed.

Section Fit.

Variable m : Machine.t F.

Let n := DataFrame.nrows (Machine.data m).
Let k := size (Machine.design_columns m).
Let X : 'M[F]_(n, k) := mx_of n k (Machine.pred ex m).
Let y : 'M[F]_(n, 1) := mx_of n 1 (Machine.out ex m).

Lemma machine_pred_entry (i : 'I_n) (j : 'I_k) :
  columns_read ex m ->
  X i j = nth 0 (column0 (Machine.design_frame ex m)
                   (nth ""%string (Machine.design_columns m) j)) i.
Proof.
case/andP=> /select_present + _; rewrite /X mxE /Machine.pred.
case def_cs: (DataFrame.select _ _) => [cs|] // _.
rewrite (select_columns def_cs) entry_rows_of ?size_map //.
by rewrite (nth_map ""%string).
Qed.

Lemma machine_out_entry (i : 'I_n) :
  columns_read ex m ->
  y i 0 = nth 0 (column0 (Machine.design_frame ex m) (Machine.outcome m)) i.
Proof.
case/andP=> _ ok_y; rewrite /y mxE /Machine.out.
have /select_present:
  all (fun c => c \in DataFrame.names (Machine.design_frame ex m))
    [:: Machine.outcome m] by rewrite /= ok_y.
case def_cs: (DataFrame.select _ _) => [cs|] // _.
by rewrite (select_columns def_cs) entry_rows_of.
Qed.

Lemma machine_gram : mx_of k k (Machine.gram ex m) = X^T *m X.
Proof. by rewrite /Machine.gram mx_of_dot mx_of_transpose. Qed.

Lemma machine_fit_unit :
  columns_read ex m -> X^T *m X \in unitmx ->
  Machine.fit ex m =
  (Machine.set_coef m
     (LinearResidualModel.ravel (invmx (X^T *m X) *m X^T *m y)), Ok tt).
Proof.
move=> /fit_columns_read -> unit_X.
case def_inv: (Numpy.inv ex k _) => [inv|]; last first.
  by have := inv_none def_inv; rewrite machine_gram unit_X.
have [_ def_mx] := inv_some def_inv.
by rewrite ravel_mx_of !mx_of_dot mx_of_transpose def_mx machine_gram.
Qed.

Lemma machine_fit_singular :
  columns_read ex m -> X^T *m X \notin unitmx ->
  Machine.fit ex m = (m, Raise LinAlgError).
Proof.
move=> /fit_columns_read -> sing_X.
case def_inv: (Numpy.inv ex k _) => [inv|] //.
by have [] := inv_some def_inv; rewrite machine_gram (negbTE sing_X).
Qed.

Lemma gram_normal :
  X^T *m X \in unitmx ->
  X^T *m X *m (invmx (X^T *m X) *m X^T *m y) = X^T *m y.
Proof. by move=> unit_X; rewrite -[invmx _ *m _ *m _]mulmxA mulKVmx. Qed.

Lemma design_intercept (i : 'I_n) (j : 'I_k) :
  columns_read ex m -> nth ""%string (Machine.design_columns m) j = intercept ->
  X i j = 1.
Proof.
move=> present_m def_j; rewrite machine_pred_entry // def_j.
by rewrite /column0 /= lookup_assign eqxx nth_nseq ltn_ord.
Qed.

Lemma design_column (i : 'I_n) (j : 'I_k) :
  columns_read ex m -> nth ""%string (Machine.design_columns m) j != intercept ->
  X i j = nth 0 (column0 (Machine.data m)
                   (nth ""%string (Machine.design_columns m) j)) i.
Proof.
move=> present_m ne_j; rewrite machine_pred_entry //.
by rewrite /column0 /= lookup_assign eq_sym (negbTE ne_j).
Qed.

Lemma outcome_column (i : 'I_n) :
  columns_read ex m -> Machine.outcome m != intercept ->
  y i 0 = nth 0 (column0 (Machine.data m) (Machine.outcome m)) i.
Proof.
move=> present_m ne_j; rewrite machine_out_entry //.
by rewrite /column0 /= lookup_assign eq_sym (negbTE ne_j).
Qed.

End Fit.

Lemma mx_of_column k (s : seq F) :
  size s = k -> LinearResidualModel.ravel (mx_of k 1 [seq [:: x] | x <- s]) = s.
Proof.
move=> <-; rewrite -[RHS](map_nth_ord 0); apply/eq_map => i.
by rewrite mxE /Numpy.entry (nth_map 0).
Qed.




(** *** The two embeddings of [fit] *)

Lemma select_names C (df : DataFrame.t C) (ns : seq string) :
  is_ok (DataFrame.select df ns) -> all (fun n => n \in DataFrame.names df) ns.
Proof.
elim: ns => [|n ns IH] //=.
rewrite /DataFrame.getitem /DataFrame.names lookup_names.
case: (DataFrame.lookup _ n) => [v|] //=.
by case: (DataFrame.select df ns) IH => //= cs ->.
Qed.

Lemma mx_of_pred (m : LinearResidualModel.t F) :
  columns_present m ->
  mx_of _ _ (Machine.pred ex (machine_of m)) = LinearResidualModel.pred m.
Proof.
move=> present_m; apply/matrixP => i j.
by rewrite (@machine_pred_entry (machine_of m)) // mxE.
Qed.

Lemma mx_of_out (m : LinearResidualModel.t F) :
  columns_present m ->
  mx_of _ 1 (Machine.out ex (machine_of m)) = LinearResidualModel.out m.
Proof.
move=> present_m; apply/matrixP => i j.
by rewrite ord1 (@machine_out_entry (machine_of m)) // mxE.
Qed.

(** The embedding of [fit] over the field [F] is the run of the
    elimination in the arithmetic [exact F]. *)
Lemma machine_fit (m : LinearResidualModel.t F) :
  Machine.fit ex (machine_of m) =
  (machine_of (LinearResidualModel.fit m).1, (LinearResidualModel.fit m).2).
Proof.
have [present_m|] := boolP (columns_present m).
  have present': columns_read ex (machine_of m) := present_m.
  have [unit_X|sing_X] :=
    boolP ((LinearResidualModel.pred m)^T *m LinearResidualModel.pred m
           \in unitmx).
    rewrite (fit_unit present_m unit_X) (machine_fit_unit present').
      by rewrite mx_of_pred.
    by rewrite mx_of_pred // mx_of_out.
  rewrite (fit_singular present_m sing_X) (machine_fit_singular present') //.
  by rewrite mx_of_pred.
rewrite /columns_present /Machine.fit /LinearResidualModel.fit.
rewrite -[Machine.design_frame ex (machine_of m)]/(LinearResidualModel.design_frame m).
rewrite -[Machine.design_columns (machine_of m)]/(LinearResidualModel.design_columns m).
rewrite -[Machine.outcome (machine_of m)]/(LinearResidualModel.outcome m).
case def_x: (DataFrame.select _ (LinearResidualModel.design_columns m)) => [cs|e] //.
case def_y: (DataFrame.select _ [:: _]) => [cy|e] //.
have /select_names-> /=: is_ok (DataFrame.select
  (LinearResidualModel.design_frame m) (LinearResidualModel.design_columns m)).
  by rewrite def_x.
have /select_names /=: is_ok (DataFrame.select
  (LinearResidualModel.design_frame m) [:: LinearResidualModel.outcome m]).
  by rewrite def_y.
by rewrite andbT => ->.
Qed.

End ExactFit.

(** C3.  With the columns it reads in the training table, [fit] evaluates
    [inv(Xt X) . Xt . y] over the design matrix [X = [1, covariates...]]
    and the outcome column [y], in the arithmetic it runs in, and raises
    numpy's singular-matrix error exactly when [np.linalg.inv] meets a zero
    pivot; it does so for every table without rows.  In exact arithmetic
    the error is raised exactly when [Xt X] is not invertible, and the
    coefficients stored otherwise are the ordinary least squares solution
    of the normal equations [Xt X c = Xt y]. *)
Theorem fit_normal_equations :
  [/\ forall (T : Type) (ar : Arith.t T) (m : Machine.t T),
        columns_read ar m ->
        let n := DataFrame.nrows (Machine.data m) in
        let k := (size (Machine.covariates m)).+1 in
        let pred_t := Numpy.transpose ar n k (Machine.pred ar m) in
        Machine.fit ar m =
        match Numpy.inv ar k (Numpy.dot ar k n k pred_t (Machine.pred ar m))
        with
        | None => (m, Raise LinAlgError)
        | Some inv =>
            (Machine.set_coef m
               (Machine.ravel ar k
                  (Numpy.dot ar k n 1 (Numpy.dot ar k k n inv pred_t)
                     (Machine.out ar m))), Ok tt)
        end,
      forall (T : Type) (ar : Arith.t T) (m : Machine.t T),
        Arith.is_zero ar (Arith.zero ar) -> columns_read ar m ->
        DataFrame.nrows (Machine.data m) = 0%N ->
        Machine.fit ar m = (m, Raise LinAlgError)
    & forall (F : realFieldType) (m : Machine.t F),
     columns_read (exact F) m ->
     let n := DataFrame.nrows (Machine.data m) in
     let covs := Machine.covariates m in
     let X : 'M[F]_(n, (size covs).+1) :=
       mx_of n (size covs).+1 (Machine.pred (exact F) m) in
     let y : 'cV[F]_n := mx_of n 1 (Machine.out (exact F) m) in
     let c := invmx (X^T *m X) *m X^T *m y in
     [/\ [/\ forall i, X i ord0 = 1,
             forall i (j : 'I_(size covs)),
               nth ""%string covs j != LinearResidualModel.intercept ->
               X i (lift ord0 j) =
               nth 0 (LinearResidualModel.column0 (Machine.data m)
                        (nth ""%string covs j)) i
           & Machine.outcome m != LinearResidualModel.intercept ->
             forall i, y i ord0 =
                       nth 0 (LinearResidualModel.column0 (Machine.data m)
                                (Machine.outcome m)) i],
         (Machine.fit (exact F) m).2 = Ok tt <-> X^T *m X \in unitmx,
         is_numerical_error (Machine.fit (exact F) m).2 =
           (X^T *m X \notin unitmx),
         X^T *m X \in unitmx ->
           [/\ Machine.fit (exact F) m =
                 (Machine.set_coef m (LinearResidualModel.ravel c), Ok tt),
               Machine.coef (Machine.fit (exact F) m).1 =
                 Some (LinearResidualModel.ravel c)
             & X^T *m X *m c = X^T *m y]
       & X^T *m X \notin unitmx ->
           Machine.fit (exact F) m = (m, Raise LinAlgError)]].
Proof.
split=> [T ar m present_m|T ar m|F m present_m n covs X y c].
- exact: fit_columns_read.
- exact: fit_no_rows.
have pins:
  [/\ forall i, X i ord0 = 1,
      forall i (j : 'I_(size covs)),
        nth ""%string covs j != LinearResidualModel.intercept ->
        X i (lift ord0 j) =
        nth 0 (LinearResidualModel.column0 (Machine.data m)
                 (nth ""%string covs j)) i
    & Machine.outcome m != LinearResidualModel.intercept ->
      forall i, y i ord0 =
                nth 0 (LinearResidualModel.column0 (Machine.data m)
                         (Machine.outcome m)) i].
  split=> [i|i j ne_j|ne_y i].
  - exact: design_intercept.
  - by have /= -> := @design_column _ m i (lift ord0 j) present_m.
  - exact: outcome_column.
have [unit_X|sing_X] := boolP (X^T *m X \in unitmx).
  rewrite (machine_fit_unit present_m unit_X); split=> // _.
  by split=> //; exact: gram_normal.
by rewrite (machine_fit_singular present_m sing_X); split.
Qed.

(** ** Forecaster.simulate *)

Section SimulateFacts.

Variable F : realFieldType.
Variable translate : option F -> option F.

Notation frame := (DataFrame.t (value F)).
Notation pipeline := (ModelPipeline.t F).
Notation intercept := LinearResidualModel.intercept.

(** The frame that [predict] returns has one row for each pair, and its two
    residual columns are as long. *)
Lemma predict_rows (self : Forecaster.t F) (far_out num_data : seq (value F))
    (g : frame) :
  Forecaster.predict self far_out num_data = Ok g ->
  exists vm vs,
    [/\ DataFrame.getitem g Forecaster.residual_mean_col = Ok vm,
        DataFrame.getitem g Forecaster.residual_std_col = Ok vs,
        size vm = (size far_out * size num_data)%N &
        size vs = (size far_out * size num_data)%N].
Proof.
rewrite /Forecaster.predict.
case def_mp: (Forecaster.model_predict _ _) => [[df1 p]|] //=.
case/model_predict_ok: def_mp => mm _ [-> _].
case def_df2: (DataFrame.setitem2d _ _ _) => [df2|] //=.
case/setitem2d_ok: def_df2 => v [_ sz_v ->].
case def_sp: (Forecaster.model_predict _ _) => [[df3 q]|] //=.
case/model_predict_ok: def_sp => sm _ [-> _].
case/setitem2d_ok => w [_ sz_w ->].
exists v, w; split=> //.
- by rewrite sz_v /= /Forecaster.product size_allpairs.
- by rewrite sz_w /= /Forecaster.product size_allpairs.
Qed.

(** The two input columns of the grid hold the pairs of the product. *)
Lemma predict_inputs (self : Forecaster.t F) (far_out num_data : seq (value F))
    (g : frame) :
  Forecaster.predict self far_out num_data = Ok g ->
  DataFrame.getitem g Forecaster.far_out_col =
    Ok [seq p.1 | p <- Forecaster.product far_out num_data] /\
  DataFrame.getitem g Forecaster.num_data_col =
    Ok [seq p.2 | p <- Forecaster.product far_out num_data].
Proof.
rewrite /Forecaster.predict.
case def_mp: (Forecaster.model_predict _ _) => [[df1 p]|] //=.
case/model_predict_ok: def_mp => mm _ [-> _].
case def_df2: (DataFrame.setitem2d _ _ _) => [df2|] //=.
case/setitem2d_ok: def_df2 => v [_ _ ->].
case def_sp: (Forecaster.model_predict _ _) => [[df3 q]|] //=.
case/model_predict_ok: def_sp => sm _ [-> _].
by case/setitem2d_ok => w [_ _ ->].
Qed.

(** Flooring, then converting to floats, is converting and then taking
    the larger of the value and the floor. *)
Lemma py_max_float (epsilon : F) (x y : value F) (s : F) :
  py_max epsilon x = Ok y -> to_float y = Ok s ->
  exists2 p, to_float x = Ok p & s = Num.max p epsilon.
Proof.
case: x => [a|[|a [|? ?]]] //=.
- by case: ifP => lt_a [<-] /= [<-]; exists a; rewrite // /Num.max lt_a.
- by case=> <-.
- by case: ifP => lt_a [<-] /= [<-]; exists a; rewrite // /Num.max lt_a.
Qed.

Lemma mapM_py_max_float (epsilon : F) (xs ys : seq (value F)) (ss : seq F) :
  mapM (py_max epsilon) xs = Ok ys -> mapM (@to_float F) ys = Ok ss ->
  exists2 ps, mapM (@to_float F) xs = Ok ps &
              ss = [seq Num.max p epsilon | p <- ps].
Proof.
elim: xs ys ss => [|x xs IH] ys ss /=; first by case=> <- [<-]; exists [::].
case def_y: (py_max epsilon x) => [y|] //=.
case def_ys': (mapM _ xs) => [ys'|] //= [<-] /=.
case def_s: (to_float y) => [s|] //=.
case def_ss': (mapM _ ys') => [ss'|] //= [<-].
have [p -> ->] := py_max_float def_y def_s.
by have [ps -> ->] := IH _ _ def_ys' def_ss'; exists (p :: ps).
Qed.

Lemma broadcast_same (h : nat) (s : seq F) :
  size s = h -> Forecaster.broadcast h s = Ok s.
Proof. by rewrite /Forecaster.broadcast => ->; rewrite eqxx. Qed.

(** What [random_normal] returns when it returns: the floats of [loc] and
    [scale], no negative scale, and the samples [loc + scale * z]. *)
Lemma random_normal_ok (loc scale : seq (value F)) (n h : nat)
    (z : nat -> nat -> F) (e : seq (seq F)) :
  size loc = h -> size scale = h ->
  Forecaster.random_normal loc scale n h z = Ok e ->
  exists l s,
    [/\ mapM (@to_float F) loc = Ok l, mapM (@to_float F) scale = Ok s,
        ~~ has (fun x => x < 0) s &
        e = [seq [seq nth 0 l j + nth 0 s j * z i j | j <- iota 0 h]
            | i <- iota 0 n]].
Proof.
move=> sz_loc sz_scale; rewrite /Forecaster.random_normal.
case def_l: (mapM _ loc) => [l|] //=.
case def_s: (mapM _ scale) => [s|] //=.
case: ifP => // neg_s.
rewrite !broadcast_same ?(mapM_size def_l) ?(mapM_size def_s) //= => -[<-].
by exists l, s; rewrite neg_s.
Qed.

(** The local variables of [simulate], when the lines that compute them
    have all run. *)
Lemma simulate_locals_ok (self : Forecaster.t F) (mp : pipeline)
    (far_out num_simulations : nat) (group : string) (epsilon : F)
    (z : nat -> nat -> F) (l : Forecaster.locals F) :
  Forecaster.simulate_locals self mp far_out num_simulations group epsilon z =
    Ok l ->
  let num_out := [seq k.+1 | k <- iota 0 far_out] in
  exists predicted_std,
    [/\ Forecaster.predict self [seq Num k%:R | k <- num_out]
          (Forecaster.array_of_series F (Forecaster.num_obs l)) =
          Ok (Forecaster.residuals l),
        DataFrame.getitem (Forecaster.residuals l)
          Forecaster.residual_mean_col = Ok (Forecaster.mean_residual l),
        DataFrame.getitem (Forecaster.residuals l)
          Forecaster.residual_std_col = Ok predicted_std,
        mapM (py_max epsilon) predicted_std = Ok (Forecaster.std_residual l) &
        Forecaster.random_normal (Forecaster.mean_residual l)
          (Forecaster.std_residual l) num_simulations far_out z =
          Ok (Forecaster.error l)]
    /\ Forecaster.forecast_data l =
          [seq [seq p.1 + p.1 * p.2 | p <- zip (Forecaster.mean_pred l) e]
          | e <- Forecaster.error l].
Proof.
rewrite /Forecaster.simulate_locals.
case def_r: (Forecaster.predict _ _ _) => [r|] //=.
case def_mr: (DataFrame.getitem r _) => [mr|] //=.
case def_ps: (DataFrame.getitem r _) => [ps|] //=.
case def_sr: (mapM _ ps) => [sr|] //=.
case def_e: (Forecaster.random_normal _ _ _ _ _) => [e|] //= [<-] /=.
by exists ps.
Qed.

(** The local variables that do not depend on the forecaster. *)
Lemma simulate_locals_history (self : Forecaster.t F) (mp : pipeline)
    (far_out num_simulations : nat) (group : string) (epsilon : F)
    (z : nat -> nat -> F) (l : Forecaster.locals F) :
  Forecaster.simulate_locals self mp far_out num_simulations group epsilon z =
    Ok l ->
  [/\ Forecaster.data l =
        [seq r <- ModelPipeline.all_data mp | Forecaster.in_group group r],
      Forecaster.max_t l =
        Forecaster.series_max
          [seq ModelPipeline.row_t r | r <- Forecaster.data l],
      Forecaster.num_obs l =
        Forecaster.count_columns mp
          [seq r <- Forecaster.data l
          | ModelPipeline.row_obs_compare r != None],
      Forecaster.num_out l = [seq k.+1 | k <- iota 0 far_out] &
      Forecaster.forecast_times l =
        [seq omap (fun m => m + k%:R) (Forecaster.max_t l)
        | k <- Forecaster.num_out l]] /\
  [/\ Forecaster.observations l =
        [seq ModelPipeline.row_obs_compare r | r <- Forecaster.data l],
      Forecaster.obs_times l =
        [seq ModelPipeline.row_t r | r <- Forecaster.data l],
      Forecaster.all_times l =
        Forecaster.obs_times l ++ Forecaster.forecast_times l,
      Forecaster.mean_pred l =
        ModelPipeline.predict mp (Forecaster.forecast_times l)
          (ModelPipeline.predict_space mp) group &
      Forecaster.new_observations l =
        Forecaster.observations l ++
        [seq Some x | x <- flatten (Forecaster.forecast_data l)]] /\
  Forecaster.simulated_flag l =
    nseq (size (Forecaster.observations l)) 0%N ++
    nseq (size (Forecaster.forecast_data l)) 1%N.
Proof.
rewrite /Forecaster.simulate_locals.
case def_r: (Forecaster.predict _ _ _) => [r|] //=.
case def_mr: (DataFrame.getitem r _) => [mr|] //=.
case def_ps: (DataFrame.getitem r _) => [ps|] //=.
case def_sr: (mapM _ ps) => [sr|] //=.
by case def_e: (Forecaster.random_normal _ _ _ _ _) => [e|] //= [<-].
Qed.

(** The amount of data that [simulate] hands to [predict] is never a
    number: it is the row of the counts of the four columns, and every row
    of the grid holds that row in its num_data column. *)
Lemma simulate_num_data (self : Forecaster.t F) (mp : pipeline)
    (far_out num_simulations : nat) (group : string) (epsilon : F)
    (z : nat -> nat -> F) (l : Forecaster.locals F) :
  Forecaster.simulate_locals self mp far_out num_simulations group epsilon z =
    Ok l ->
  exists counts : seq F,
    [/\ size counts = 4%N,
        Forecaster.array_of_series F (Forecaster.num_obs l) = [:: Arr counts] &
        DataFrame.getitem (Forecaster.residuals l) Forecaster.num_data_col =
          Ok (nseq far_out (Arr counts))].
Proof.
move=> def_l; have [[_ _ def_n _ _] _] := simulate_locals_history def_l.
have [ps [[/predict_inputs[_ ->] _ _ _ _] _]] := simulate_locals_ok def_l.
exists [seq (c.2)%:R | c <- Forecaster.num_obs l]; split=> //.
  by rewrite def_n.
rewrite /Forecaster.product /Forecaster.array_of_series allpairs1r.
by rewrite -!map_comp -[far_out in RHS](size_iota 0) map_cst.
Qed.

(** The sampling step: the floats of [mean_residual] and [std_residual],
    one for each offset, and the samples drawn with them. *)
Lemma simulate_sampling (self : Forecaster.t F) (mp : pipeline)
    (far_out num_simulations : nat) (group : string) (epsilon : F)
    (z : nat -> nat -> F) (l : Forecaster.locals F) :
  Forecaster.simulate_locals self mp far_out num_simulations group epsilon z =
    Ok l ->
  exists loc scale : seq F,
    [/\ mapM (@to_float F) (Forecaster.mean_residual l) = Ok loc,
        mapM (@to_float F) (Forecaster.std_residual l) = Ok scale,
        size loc = far_out, size scale = far_out &
        Forecaster.error l =
          [seq [seq nth 0 loc j + nth 0 scale j * z i j | j <- iota 0 far_out]
          | i <- iota 0 num_simulations]].
Proof.
case/simulate_locals_ok=> ps [[def_r def_mr def_ps def_sr def_e] _].
have [vm [vs [def_vm def_vs sz_vm sz_vs]]] := predict_rows def_r.
move: def_vm def_vs; rewrite def_mr def_ps => -[eq_vm] [eq_vs].
have sz_h: (size [seq (Num k%:R : value F) | k <- [seq k.+1 | k <- iota 0 far_out]]
            * size (Forecaster.array_of_series F (Forecaster.num_obs l)))%N
           = far_out by rewrite !size_map size_iota muln1.
have sz_mr: size (Forecaster.mean_residual l) = far_out.
  by rewrite eq_vm sz_vm.
have sz_sr: size (Forecaster.std_residual l) = far_out.
  by rewrite (mapM_size def_sr) eq_vs sz_vs.
have [loc [scale [def_loc def_scale _ ->]]] :=
  random_normal_ok sz_mr sz_sr def_e.
exists loc, scale; split=> //.
- by rewrite (mapM_size def_loc).
- by rewrite (mapM_size def_scale).
Qed.

(** C4.  When [simulate] reaches the sampling, the scale that
    [np.random.normal] is called with is, offset by offset, the larger of
    the predicted [residual_std] and [epsilon]; it is never below
    [epsilon], and each sample is [mean_residual + scale * z]. *)
Theorem simulate_std_floor (self : Forecaster.t F) (mp : pipeline)
    (far_out num_simulations : nat) (group : string) (epsilon : F)
    (z : nat -> nat -> F) (l : Forecaster.locals F) :
  Forecaster.simulate_locals self mp far_out num_simulations group epsilon z =
    Ok l ->
  exists predicted_std loc scale : seq F,
    [/\ rbind (DataFrame.getitem (Forecaster.residuals l)
                 Forecaster.residual_std_col) (mapM (@to_float F)) =
          Ok predicted_std,
        mapM (@to_float F) (Forecaster.mean_residual l) = Ok loc,
        mapM (@to_float F) (Forecaster.std_residual l) = Ok scale &
        size scale = far_out] /\
    [/\ scale = [seq Num.max p epsilon | p <- predicted_std],
        all (fun s => epsilon <= s) scale &
        Forecaster.error l =
          [seq [seq nth 0 loc j + nth 0 scale j * z i j | j <- iota 0 far_out]
          | i <- iota 0 num_simulations]].
Proof.
move=> def_l; have [loc [scale [def_loc def_scale _ sz_scale def_e]]] :=
  simulate_sampling def_l.
case/simulate_locals_ok: def_l => ps [[_ _ def_ps def_sr _] _].
have [fps def_fps def_max] := mapM_py_max_float def_sr def_scale.
exists fps, loc, scale; split; split=> //; first by rewrite def_ps.
by rewrite def_max all_map; apply/allP => p _ /=; rewrite le_max lexx orbT.
Qed.

(** C5.  Each simulated comparison-space value is
    [mean_pred + mean_pred * error]: the sample scales the mean forecast
    instead of being added to it, so where the mean forecast is zero the
    simulated value is zero whatever was sampled. *)
Theorem simulate_relative_noise (self : Forecaster.t F) (mp : pipeline)
    (far_out num_simulations : nat) (group : string) (epsilon : F)
    (z : nat -> nat -> F) (l : Forecaster.locals F) (i j : nat) :
  Forecaster.simulate_locals self mp far_out num_simulations group epsilon z =
    Ok l ->
  (i < num_simulations)%N -> (j < far_out)%N ->
  let m := nth 0 (Forecaster.mean_pred l) j in
  let e := nth 0 (nth [::] (Forecaster.error l) i) j in
  let x := nth 0 (nth [::] (Forecaster.forecast_data l) i) j in
  x = m + m * e /\ (m = 0 -> x = 0).
Proof.
move=> def_l lt_i lt_j m e x.
have [[_ _ _ def_no def_ft] [[_ _ _ def_mp _] _]] :=
  simulate_locals_history def_l.
have [loc [scale [_ _ _ _ def_e]]] := simulate_sampling def_l.
have [_ [_ def_fd]] := simulate_locals_ok def_l.
have sz_mp: size (Forecaster.mean_pred l) = far_out.
  by rewrite def_mp /ModelPipeline.predict def_ft def_no !size_map size_iota.
have sz_e: size (Forecaster.error l) = num_simulations.
  by rewrite def_e size_map size_iota.
have sz_ei: size (nth [::] (Forecaster.error l) i) = far_out.
  by rewrite def_e (nth_map 0%N) ?size_iota // size_map size_iota.
have def_x: x = m + m * e.
  rewrite /x def_fd (nth_map [::]) ?sz_e //.
  rewrite (nth_map (0, 0)) ?size_zip ?sz_mp ?sz_ei ?minnn //.
  by rewrite nth_zip ?sz_mp ?sz_ei.
by split=> // m0; rewrite def_x m0 mul0r addr0.
Qed.

(** *** The assembly of the tables *)

(** The arrays that the last lines put side by side: with [n] historical
    rows, the times have [n + far_out] entries, the observations
    [n + num_simulations * far_out], and the flags [n + num_simulations],
    of which the last [num_simulations] are 1. *)
Lemma simulate_locals_sizes (self : Forecaster.t F) (mp : pipeline)
    (far_out num_simulations : nat) (group : string) (epsilon : F)
    (z : nat -> nat -> F) (l : Forecaster.locals F) :
  Forecaster.simulate_locals self mp far_out num_simulations group epsilon z =
    Ok l ->
  let n := size (Forecaster.data l) in
  [/\ size (Forecaster.all_times l) = (n + far_out)%N,
      size (Forecaster.new_observations l) =
        (n + num_simulations * far_out)%N,
      size (Forecaster.data_translator translate (Forecaster.new_observations l)) =
        (n + num_simulations * far_out)%N &
      Forecaster.simulated_flag l = nseq n 0%N ++ nseq num_simulations 1%N].
Proof.
move=> def_l n.
have [[_ _ _ def_no def_ft] [[def_obs def_ot def_at _ def_new] def_flag]] :=
  simulate_locals_history def_l.
have [loc [scale [_ _ _ _ def_e]]] := simulate_sampling def_l.
have [_ [_ def_fd]] := simulate_locals_ok def_l.
have sz_fd: size (Forecaster.forecast_data l) = num_simulations.
  by rewrite def_fd def_e !size_map size_iota.
have sz_mp: size (Forecaster.mean_pred l) = far_out.
  have [_ [[_ _ _ -> _] _]] := simulate_locals_history def_l.
  by rewrite /ModelPipeline.predict def_ft def_no !size_map size_iota.
have sz_flat: size (flatten (Forecaster.forecast_data l)) =
              (num_simulations * far_out)%N.
  rewrite size_flatten /shape def_fd def_e -!map_comp.
  have row_size i :
    (size \o (fun e => [seq p.1 + p.1 * p.2 | p <- zip (Forecaster.mean_pred l) e])
       \o (fun i => [seq nth 0 loc j + nth 0 scale j * z i j
                    | j <- iota 0 far_out])) i = far_out.
    by rewrite /= size_map size_zip sz_mp size_map size_iota minnn.
  by rewrite (eq_map row_size) -map_cst sumn_nseq size_iota mulnC.
have sz_new: size (Forecaster.new_observations l) =
             (n + num_simulations * far_out)%N.
  by rewrite def_new size_cat size_map sz_flat def_obs size_map.
split=> //.
- by rewrite def_at size_cat def_ot def_ft def_no !size_map size_iota.
- by rewrite /Forecaster.data_translator size_map.
- by rewrite def_flag sz_fd def_obs size_map.
Qed.

(** [pd.concat] refuses the arrays: with at least one draw to assemble,
    [simulate] returns nothing. *)
Lemma simulate_raises (self : Forecaster.t F) (mp : pipeline)
    (far_out num_simulations : nat) (group : string) (epsilon : F)
    (z : nat -> nat -> F) :
  (0 < num_simulations)%N ->
  is_ok (Forecaster.simulate translate self mp far_out num_simulations group
           epsilon z) = false.
Proof.
case: num_simulations => // n _; rewrite /Forecaster.simulate.
by case: (Forecaster.simulate_locals _ _ _ _ _ _ _).
Qed.

Lemma simulate_type_error (self : Forecaster.t F) (mp : pipeline)
    (far_out num_simulations : nat) (group : string) (epsilon : F)
    (z : nat -> nat -> F) :
  (0 < num_simulations)%N ->
  is_ok (Forecaster.simulate_locals self mp far_out num_simulations group
           epsilon z) ->
  Forecaster.simulate translate self mp far_out num_simulations group
    epsilon z = Raise TypeError.
Proof.
case: num_simulations => // n _; rewrite /Forecaster.simulate.
by case: (Forecaster.simulate_locals _ _ _ _ _ _ _).
Qed.

(** *** A group that the data does not have *)




End SimulateFacts.

(** ** Worked examples *)

Lemma simulate_locals_example :
  Forecaster.simulate_locals Fixtures.offset_forecaster Fixtures.pipeline 4 2
    "A"%string Fixtures.epsilon Fixtures.deviates = Ok Fixtures.locals_a.
Proof. vm_cast_no_check (erefl (Ok Fixtures.locals_a)). Qed.

(** ** The properties on the worked examples *)

(** The forecaster of the examples is the one that [fit_residuals] makes
    of the residual table. *)
Lemma offset_pred_unit (m : LinearResidualModel.t rat) :
  LinearResidualModel.data m = Fixtures.residual_table ->
  LinearResidualModel.covariates m = [:: "far_out"%string] ->
  (LinearResidualModel.pred m)^T *m LinearResidualModel.pred m \in unitmx.
Proof.
case: m => data outcome covs coef /= -> ->.
set m := LinearResidualModel.Build _ _ _ _.
have inv_r: (LinearResidualModel.pred m : 'M[rat]_2) *m
            Fixtures.offset_inverse = 1%:M.
  apply/matrixP=> i j; rewrite !mxE !big_ord_recl big_ord0 !mxE.
  by case: i => [[|[|i]] lt_i] //; case: j => [[|[|j]] lt_j] //; vm_compute.
apply: (@gram_unit rat 2 (LinearResidualModel.pred m)).
by case: (mulmx1_unit inv_r).
Qed.

Lemma grid_pred_unit (m : LinearResidualModel.t rat) :
  LinearResidualModel.data m = Fixtures.grid_table ->
  LinearResidualModel.covariates m = [:: "far_out"%string; "num_data"%string] ->
  (LinearResidualModel.pred m)^T *m LinearResidualModel.pred m \in unitmx.
Proof.
case: m => data outcome covs coef /= -> ->.
set m := LinearResidualModel.Build _ _ _ _.
have inv_r: (LinearResidualModel.pred m : 'M[rat]_3) *m
            Fixtures.grid_inverse = 1%:M.
  apply/matrixP=> i j; rewrite !mxE !big_ord_recl big_ord0 !mxE.
  by case: i => [[|[|[|i]]] lt_i] //; case: j => [[|[|[|j]]] lt_j] //;
     vm_compute.
apply: (@gram_unit rat 3 (LinearResidualModel.pred m)).
by case: (mulmx1_unit inv_r).
Qed.

Lemma fit_residuals_grid_example :
  Forecaster.fit_residuals (Forecaster.init rat) Fixtures.grid_table
    "residual_mean"%string "residual_std"%string
    [:: "far_out"%string; "num_data"%string] "linear"%string =
  (Fixtures.grid_forecaster, Ok tt).
Proof.
rewrite /Forecaster.fit_residuals /=.
set m0 := LinearResidualModel.init _ "residual_mean"%string _.
set s0 := LinearResidualModel.init _ "residual_std"%string _.
have fit_m0: LinearResidualModel.fit m0 = (Fixtures.grid_mean_model, Ok tt).
  rewrite (@fit_exact _ m0
             (\col_(i < size [:: 1; 2; 3 : rat]) nth 0 [:: 1; 2; 3] i)) //.
  - exact: grid_pred_unit.
  - apply/matrixP=> i j; rewrite !mxE !big_ord_recl big_ord0 !mxE.
    by case: i => [[|[|[|i]]] lt_i] //; case: j => [[|j] lt_j] //; vm_compute.
  by rewrite (ravel_col [:: 1; 2; 3]).
have fit_s0: LinearResidualModel.fit s0 = (Fixtures.grid_std_model, Ok tt).
  rewrite (@fit_exact _ s0
             (\col_(i < size [:: 5; 1; 0 : rat]) nth 0 [:: 5; 1; 0] i)) //.
  - exact: grid_pred_unit.
  - apply/matrixP=> i j; rewrite !mxE !big_ord_recl big_ord0 !mxE.
    by case: i => [[|[|[|i]]] lt_i] //; case: j => [[|j] lt_j] //; vm_compute.
  by rewrite (ravel_col [:: 5; 1; 0]).
by rewrite fit_m0 fit_s0.
Qed.

Lemma fit_residuals_example :
  Forecaster.fit_residuals (Forecaster.init rat) Fixtures.residual_table
    "residual_mean"%string "residual_std"%string [:: "far_out"%string]
    "linear"%string = (Fixtures.offset_forecaster, Ok tt).
Proof.
rewrite /Forecaster.fit_residuals /=.
set m0 := LinearResidualModel.init _ "residual_mean"%string _.
set s0 := LinearResidualModel.init _ "residual_std"%string _.
have fit_m0: LinearResidualModel.fit m0 = (Fixtures.offset_mean_model, Ok tt).
  rewrite (@fit_exact _ m0 (\col_(i < size [:: 0; 1 : rat]) nth 0 [:: 0; 1] i)) //.
  - exact: offset_pred_unit.
  - apply/matrixP=> i j; rewrite !mxE !big_ord_recl big_ord0 !mxE.
    by case: i => [[|[|i]] lt_i] //; case: j => [[|j] lt_j] //; vm_compute.
  by rewrite (ravel_col [:: 0; 1]).
have fit_s0: LinearResidualModel.fit s0 = (Fixtures.offset_std_model, Ok tt).
  rewrite (@fit_exact _ s0 (\col_(i < size [:: 2; -1 : rat]) nth 0 [:: 2; -1] i)) //.
  - exact: offset_pred_unit.
  - apply/matrixP=> i j; rewrite !mxE !big_ord_recl big_ord0 !mxE.
    by case: i => [[|[|i]] lt_i] //; case: j => [[|j] lt_j] //; vm_compute.
  by rewrite (ravel_col [:: 2; -1]).
by rewrite fit_m0 fit_s0.
Qed.

Lemma predict_grid_witness :
  [/\ Forecaster.mean_residual_model Fixtures.grid_forecaster =
        Some Fixtures.grid_mean_model,
      LinearResidualModel.coef Fixtures.grid_mean_model = Some [:: 1; 2; 3],
      size [:: 1; 2; 3 : rat] =
        (size (LinearResidualModel.covariates Fixtures.grid_mean_model)).+1 &
      all (mem grid_cols)
        (LinearResidualModel.covariates Fixtures.grid_mean_model)] /\
  [/\ Forecaster.std_residual_model Fixtures.grid_forecaster =
        Some Fixtures.grid_std_model,
      LinearResidualModel.coef Fixtures.grid_std_model = Some [:: 5; 1; 0],
      size [:: 5; 1; 0 : rat] =
        (size (LinearResidualModel.covariates Fixtures.grid_std_model)).+1 &
      all (mem grid_cols_mean)
        (LinearResidualModel.covariates Fixtures.grid_std_model)] /\
  [/\ [:: 1; 2; 3 : rat] != [::], [:: 10 : rat] != [::] &
      Forecaster.predict Fixtures.grid_forecaster
        [seq Num d | d <- [:: 1; 2; 3]] [seq Num a | a <- [:: 10]] =
      Ok Fixtures.grid_3x1].
Proof.
do 2![split; first by []]; split; [by [] | by [] |].
rewrite (@predict_grid rat Fixtures.grid_forecaster Fixtures.grid_mean_model
           Fixtures.grid_std_model [:: 1; 2; 3] [:: 5; 1; 0] [:: 1; 2; 3]
           [:: 10] erefl erefl erefl isT erefl erefl erefl isT isT isT).
rewrite /linear_predictor /= !big_cons !big_nil.
vm_cast_no_check (erefl (Ok Fixtures.grid_3x1)).
Defined.

Lemma predict_grid_example :
  Forecaster.predict Fixtures.grid_forecaster [:: Num 1; Num 2; Num 3]
    [:: Num 10] = Ok Fixtures.grid_3x1.
Proof. vm_cast_no_check (erefl (Ok Fixtures.grid_3x1)). Qed.

Lemma predict_writes_intercept_witness :
  Forecaster.predict Fixtures.grid_forecaster [:: Num 1; Num 2; Num 3]
    [:: Num 10] = Ok Fixtures.grid_3x1 /\
  let df' :=
    (LinearResidualModel.predict Fixtures.grid_mean_model Fixtures.one_row).1 in
  [/\ df' = DataFrame.setitem_scalar Fixtures.one_row "intercept"%string
              (Num 1),
      DataFrame.getitem df' "intercept"%string = Ok [:: Num 1],
      DataFrame.names df' = [:: "far_out"; "num_data"; "intercept"]%string,
      DataFrame.names Fixtures.grid_3x1 =
        [:: "far_out"; "num_data"; "intercept"; "residual_mean";
            "residual_std"]%string &
      DataFrame.getitem Fixtures.grid_3x1 "intercept"%string =
        Ok [:: Num 1; Num 1; Num 1]].
Proof.
split; first exact: predict_grid_example.
have [def_df' ones names_df' /(_ predict_grid_example)[names_g ones_g]] :=
  @predict_writes_intercept rat Fixtures.grid_mean_model Fixtures.one_row
    Fixtures.grid_forecaster [:: Num 1; Num 2; Num 3] [:: Num 10]
    Fixtures.grid_3x1.
by split.
Defined.

Lemma simulate_std_floor_witness :
  Forecaster.simulate_locals Fixtures.offset_forecaster Fixtures.pipeline 4 2
    "A"%string Fixtures.epsilon Fixtures.deviates = Ok Fixtures.locals_a /\
  exists predicted_std loc scale : seq rat,
    [/\ rbind (DataFrame.getitem (Forecaster.residuals Fixtures.locals_a)
                 Forecaster.residual_std_col) (mapM (@to_float rat)) =
          Ok predicted_std,
        mapM (@to_float rat) (Forecaster.mean_residual Fixtures.locals_a) =
          Ok loc,
        mapM (@to_float rat) (Forecaster.std_residual Fixtures.locals_a) =
          Ok scale &
        size scale = 4%N] /\
    [/\ scale = [seq Num.max p Fixtures.epsilon | p <- predicted_std],
        all (fun s => Fixtures.epsilon <= s) scale &
        Forecaster.error Fixtures.locals_a =
          [seq [seq nth 0 loc j + nth 0 scale j * Fixtures.deviates i j
               | j <- iota 0 4]
          | i <- iota 0 2]].
Proof.
split; first exact: simulate_locals_example.
exact: (simulate_std_floor simulate_locals_example).
Defined.

(** In the example the predicted spreads 1, 0, -1, -2 are sampled with the
    scales 1, 1/2, 1/2, 1/2. *)
Lemma simulate_std_floor_example :
  DataFrame.getitem (Forecaster.residuals Fixtures.locals_a)
    Forecaster.residual_std_col = Ok [:: Num 1; Num 0; Num (-1); Num (-2)] /\
  Forecaster.std_residual Fixtures.locals_a =
    [:: Num 1; Num (1 / 2); Num (1 / 2); Num (1 / 2)].
Proof. by []. Qed.

Lemma simulate_relative_noise_witness :
  [/\ Forecaster.simulate_locals Fixtures.offset_forecaster Fixtures.pipeline
        4 2 "A"%string Fixtures.epsilon Fixtures.deviates =
        Ok Fixtures.locals_a,
      (1 < 2)%N & (0 < 4)%N] /\
  let m := nth 0 (Forecaster.mean_pred Fixtures.locals_a) 0 in
  let e := nth 0 (nth [::] (Forecaster.error Fixtures.locals_a) 1) 0 in
  let x := nth 0 (nth [::] (Forecaster.forecast_data Fixtures.locals_a) 1) 0 in
  x = m + m * e /\ (m = 0 -> x = 0).
Proof.
split; first by split=> //; exact: simulate_locals_example.
exact: (@simulate_relative_noise rat Fixtures.offset_forecaster
          Fixtures.pipeline 4 2 "A"%string Fixtures.epsilon Fixtures.deviates
          Fixtures.locals_a 1 0 simulate_locals_example isT isT).
Defined.

(** C6, on the example: the third row of group A has no observation, and
    [simulate] still takes its time, 3, as [max_t], where
    [get_max_t_per_group] gives 2; [num_obs] is the Series of the counts of
    the four columns, where [get_num_obs_per_group] gives the number 2; the
    array handed to [predict] has one element, the row of the four counts. *)
Theorem simulate_history_example :
  [/\ Forecaster.simulate_locals Fixtures.offset_forecaster Fixtures.pipeline
        4 2 "A"%string Fixtures.epsilon Fixtures.deviates =
        Ok Fixtures.locals_a,
      Forecaster.max_t Fixtures.locals_a = Some 3,
      Forecaster.get_max_t_per_group Fixtures.history "A"%string =
        Some (Some 2) &
      Forecaster.forecast_times Fixtures.locals_a =
        [:: Some 4; Some 5; Some 6; Some 7]] /\
  [/\ Forecaster.num_obs Fixtures.locals_a =
        [:: ("t"%string, 2%N); ("group"%string, 2%N); ("obs"%string, 2%N);
            ("obs_compare"%string, 2%N)],
      Forecaster.get_num_obs_per_group Fixtures.history "A"%string = Some 2%N,
      Forecaster.array_of_series rat (Forecaster.num_obs Fixtures.locals_a) =
        [:: Arr [:: 2; 2; 2; 2]] &
      DataFrame.getitem (Forecaster.residuals Fixtures.locals_a)
        Forecaster.num_data_col = Ok (nseq 4 (Arr [:: 2; 2; 2; 2]))].
Proof.
by split; split.
Qed.

(** C2, on the example: five draws over a horizon of four, for group A and
    its three historical rows.  [simulate] raises the [TypeError] of
    [pd.concat] and returns no table.  The arrays it was about to put side
    by side have 7 times, 23 observations and 8 flags, of which the last 5,
    not 4, are 1. *)
Theorem simulate_five_draws :
  Forecaster.simulate Fixtures.identity Fixtures.offset_forecaster
    Fixtures.pipeline 4 5 "A"%string Fixtures.epsilon Fixtures.deviates =
    Raise TypeError /\
  exists l,
    [/\ Forecaster.simulate_locals Fixtures.offset_forecaster
          Fixtures.pipeline 4 5 "A"%string Fixtures.epsilon
          Fixtures.deviates = Ok l,
        size (Forecaster.all_times l) = 7%N,
        size (Forecaster.new_observations l) = 23%N,
        size (Forecaster.data_translator Fixtures.identity
                (Forecaster.new_observations l)) = 23%N &
        Forecaster.simulated_flag l = nseq 3 0%N ++ nseq 5 1%N].
Proof.
have ok_l:
  is_ok (Forecaster.simulate_locals Fixtures.offset_forecaster
           Fixtures.pipeline 4 5 "A"%string Fixtures.epsilon
           Fixtures.deviates) by vm_compute.
split; first exact: simulate_type_error.
case def_l: (Forecaster.simulate_locals _ _ _ _ _ _ _) ok_l => [l|] // _.
exists l; have [sz_at sz_new sz_fit def_flag] :=
  simulate_locals_sizes Fixtures.identity def_l.
have [[def_d _ _ _ _] _] := simulate_locals_history def_l.
have sz_d: size (Forecaster.data l) = 3%N by rewrite def_d.
by move: sz_at sz_new sz_fit def_flag; rewrite sz_d.
Qed.



(** The design matrix of the line example, [[1, 0], [1, 1]], and its
    inverse. *)
Lemma line_pred_unit :
  (LinearResidualModel.pred Fixtures.line_model : 'M[rat]_2) \in unitmx.
Proof.
have inv_r:
  (LinearResidualModel.pred Fixtures.line_model : 'M[rat]_2) *m
  Fixtures.line_inverse = 1%:M.
  apply/matrixP=> i j; rewrite !mxE !big_ord_recl big_ord0 !mxE.
  by case: i => [[|[|i]] lt_i] //; case: j => [[|[|j]] lt_j] //; vm_compute.
by case: (mulmx1_unit inv_r).
Qed.

Lemma line_gram_unit :
  (LinearResidualModel.pred Fixtures.line_model)^T *m
  LinearResidualModel.pred Fixtures.line_model \in unitmx.
Proof.
rewrite (@unitmx_mul _ 2 (LinearResidualModel.pred Fixtures.line_model)^T
           (LinearResidualModel.pred Fixtures.line_model)).
by rewrite unitmx_tr line_pred_unit.
Qed.

Lemma line_exact :
  LinearResidualModel.out Fixtures.line_model =
  LinearResidualModel.pred Fixtures.line_model *m Fixtures.line_coef.
Proof.
apply/matrixP=> i j; rewrite !mxE !big_ord_recl big_ord0 !mxE.
by case: i => [[|[|i]] lt_i] //; case: j => [[|j] lt_j] //; vm_compute.
Qed.

(** The line example over the arithmetic [exact rat]: the same design
    matrix and outcome as in the embedding over the field. *)
Lemma line_machine_pred :
  mx_of 2 2 (Machine.pred (exact rat) Fixtures.line_machine) =
  LinearResidualModel.pred Fixtures.line_model.
Proof. exact: (@mx_of_pred rat Fixtures.line_model isT). Qed.

Lemma line_machine_out :
  mx_of 2 1 (Machine.out (exact rat) Fixtures.line_machine) =
  LinearResidualModel.out Fixtures.line_model.
Proof. exact: (@mx_of_out rat Fixtures.line_model isT). Qed.

Lemma line_machine_unit :
  let X := mx_of 2 2 (Machine.pred (exact rat) Fixtures.line_machine) in
  X^T *m X \in unitmx.
Proof. by rewrite /= line_machine_pred; exact: line_gram_unit. Qed.

Lemma line_machine_exact :
  mx_of 2 1 (Machine.out (exact rat) Fixtures.line_machine) =
  mx_of 2 2 (Machine.pred (exact rat) Fixtures.line_machine) *m
  Fixtures.line_coef.
Proof. by rewrite line_machine_pred line_machine_out; exact: line_exact. Qed.

Lemma fit_normal_equations_witness :
  let m := Fixtures.line_machine in
  let X := mx_of 2 2 (Machine.pred (exact rat) m) in
  let y := mx_of 2 1 (Machine.out (exact rat) m) in
  [/\ columns_read (exact rat) m,
      X^T *m X \in unitmx,
      Machine.fit (exact rat) m = (Machine.set_coef m [:: 1; 2], Ok tt),
      X^T *m X *m Fixtures.line_coef = X^T *m y
    & Machine.fit float64 Fixtures.empty_float64 =
      (Fixtures.empty_float64, Raise LinAlgError)].
Proof.
move=> m X y.
have [_ _ /(_ rat m isT) [_ _ _ /(_ line_machine_unit) [_ _ normal] _]] :=
  fit_normal_equations.
have def_c: invmx (X^T *m X) *m X^T *m y = Fixtures.line_coef.
  rewrite /y line_machine_exact -/X -[invmx _ *m _ *m _]mulmxA.
  by rewrite [X^T *m (_ *m _)]mulmxA (mulKmx line_machine_unit).
split=> //; first exact: line_machine_unit.
by rewrite -def_c.
Defined.

(** C3 fails on a table of one row, x = 49 and y = 1, in float64.
    [Xt X = [[1, 49], [49, 2401]]] is singular, and in exact arithmetic
    [fit] raises.  In float64 the pivot is 49, the multiplier of the other
    row is the float nearest to 1/49, and the second pivot is 49 minus the
    rounded product of the multiplier with 2401: it is 2^-47 and not zero,
    so [np.linalg.inv] returns and [fit] stores coefficients. *)
Lemma fit_normal_equations_counterexample :
  let m := Fixtures.single_exact in
  let X := mx_of 1 2 (Machine.pred (exact rat) m) in
  [/\ columns_read (exact rat) m,
      X^T *m X \notin unitmx,
      Machine.fit (exact rat) m = (m, Raise LinAlgError),
      Machine.gram float64 Fixtures.single_float64 =
        [:: [:: 1%float; 49%float]; [:: 49%float; 2401%float]]
    & (Machine.fit float64 Fixtures.single_float64).2 = Ok tt /\
      isSome (Machine.coef (Machine.fit float64 Fixtures.single_float64).1)].
Proof.
move=> m X.
have sing_X: X^T *m X \notin unitmx.
  by rewrite -(@machine_gram rat m) -inv_unit; vm_compute.
by split.
Qed.

(** The line y = 1 + 2 x at [a] and [a + 1]: the design matrix
    [[1, a], [1, a + 1]] has determinant 1 whatever [a] is. *)
Section Far.

Variables (F : realFieldType) (a : F).

Let m := Fixtures.far_exact a.
Let X : 'M[F]_2 := mx_of 2 2 (Machine.pred (exact F) m).
Let y : 'cV[F]_2 := mx_of 2 1 (Machine.out (exact F) m).


Lemma far_out :
  y = \matrix_(i, j) nth 0 [:: 1 + 2 * a; 1 + 2 * (a + 1)] i.
Proof.
apply/matrixP => i j; rewrite !mxE ord1.
by case: i => [[|[|i]] lt_i].
Qed.



End Far.



(** On the line example itself the float64 round trip is exact. *)
Lemma roundtrip64_line : roundtrip64 0 Fixtures.line_float64.
Proof. by []. Qed.
(** * Further properties of the code *)

(** ** The helpers over the historical table *)

Section HelperFacts.

Variable F : realFieldType.
Notation row := (ModelPipeline.row F).
Implicit Types (data : seq row) (g : string).

Lemma helper_rows data g :
  [seq r <- Forecaster.non_nulls data | Forecaster.in_group g r] =
  [seq r <- data | observed_in g r].
Proof.
rewrite /Forecaster.non_nulls -filter_predI; apply/eq_filter => r.
by rewrite /= /observed_in andbC.
Qed.

Lemma get_num_obs_per_group_has data g :
  Forecaster.get_num_obs_per_group data g =
  if has (observed_in g) data then Some (count (observed_in g) data)
  else None.
Proof.
rewrite /Forecaster.get_num_obs_per_group helper_rows has_count -size_filter.
by case: [seq r <- data | observed_in g r].
Qed.

(** X1.  The dictionaries of [get_num_obs_per_group] and
    [get_max_t_per_group] have the same keys: the groups with a row whose
    observation is not missing.  The count of a group is the number of
    these rows, so no group is there with the count 0, and a group of
    which every observation is missing is in neither dictionary. *)
Theorem helper_keys data g :
  [/\ isSome (Forecaster.get_num_obs_per_group data g) =
        has (observed_in g) data,
      isSome (Forecaster.get_max_t_per_group data g) =
        has (observed_in g) data,
      Forecaster.get_num_obs_per_group data g =
        (if has (observed_in g) data then Some (count (observed_in g) data)
         else None) &
      Forecaster.get_num_obs_per_group data g != Some 0%N].
Proof.
rewrite /Forecaster.get_num_obs_per_group /Forecaster.get_max_t_per_group.
rewrite helper_rows has_count -size_filter.
by case: [seq r <- data | observed_in g r].
Qed.

Lemma sum_in_group (gs : seq string) (r : row) :
  uniq gs ->
  (\sum_(g <- gs) Forecaster.in_group g r)%N =
  (if ModelPipeline.row_group r is Some g then g \in gs else false).
Proof.
move=> uniq_gs; rewrite /Forecaster.in_group.
case: (ModelPipeline.row_group r) => [g0|]; last first.
  by rewrite big1_seq.
rewrite -(count_uniq_mem g0 uniq_gs) -sum1_count [RHS]big_mkcond /=.
by apply: eq_bigr => g _; rewrite eq_sym; congr (nat_of_bool _).
Qed.

(** X2.  The counts of [get_num_obs_per_group] add up, over the groups of
    the table, to the number of rows that have an observation and a group:
    every such row is counted once, and a row without a group in no
    count. *)
Theorem num_obs_total data (gs : seq string) :
  uniq gs ->
  all (fun r => if ModelPipeline.row_group r is Some g then g \in gs else true)
    data ->
  (\sum_(g <- gs) odflt 0 (Forecaster.get_num_obs_per_group data g))%N =
  count (fun r => (ModelPipeline.row_obs r != None) &&
                  (ModelPipeline.row_group r != None)) data.
Proof.
move=> uniq_gs cover.
have ->: (\sum_(g <- gs) odflt 0 (Forecaster.get_num_obs_per_group data g) =
          \sum_(g <- gs) count (observed_in g) data)%N.
  apply: eq_bigr => g _; rewrite get_num_obs_per_group_has.
  by rewrite has_count; case: (count _ _).
elim: data cover => [|r data IH] /=; first by rewrite big1.
case/andP=> r_gs /IH <-; rewrite big_split /=; congr (_ + _)%N.
rewrite /observed_in; case: (ModelPipeline.row_obs r) => [x|] /=; last first.
  by rewrite big1.
by rewrite (sum_in_group _ uniq_gs); case: (ModelPipeline.row_group r) r_gs => [g ->|].
Qed.

Lemma foldl_max_bound (x : F) (xs : seq F) :
  let m := foldl Num.max x xs in (m \in x :: xs) && all (fun y => y <= m) (x :: xs).
Proof.
elim: xs x => [|y ys IH] x /=; first by rewrite mem_head lexx.
have /andP[] := IH (Num.max x y); rewrite /= !in_cons.
set m := foldl _ _ _ => m_in /andP[le_m ->]; rewrite andbT.
move: le_m; rewrite ge_max => /andP[-> ->] /=; rewrite andbT.
case/orP: m_in => [/eqP->|->]; last by rewrite !orbT.
by rewrite /Num.max; case: ifP; rewrite eqxx ?orbT.
Qed.

Lemma series_max_bound (s : seq (option F)) :
  match Forecaster.series_max s with
  | Some m => (Some m \in s) && all (fun t => if t is Some x then x <= m else true) s
  | None => all (fun t => t == None) s
  end.
Proof.
rewrite /Forecaster.series_max /Forecaster.non_null.
case def_xs: (pmap id s) => [|x xs].
  apply/allP=> -[y|] // y_in.
  have: y \in pmap id s by rewrite mem_pmap map_id.
  by rewrite def_xs.
have /andP[m_in /allP le_m] := foldl_max_bound x xs.
have ->: (Some (foldl Num.max x xs) \in s) = (foldl Num.max x xs \in pmap id s).
  by rewrite mem_pmap map_id.
rewrite def_xs m_in /=.
apply/allP=> -[y|] // y_in; apply: le_m.
by rewrite -def_xs mem_pmap map_id.
Qed.

Lemma get_max_t_per_group_has data g :
  Forecaster.get_max_t_per_group data g =
  if has (observed_in g) data then
    Some (Forecaster.series_max
            [seq ModelPipeline.row_t r | r <- data & observed_in g r])
  else None.
Proof.
rewrite /Forecaster.get_max_t_per_group helper_rows has_count -size_filter.
by case: [seq r <- data | observed_in g r].
Qed.

(** X3.  The value of [get_max_t_per_group] for a group is the time of one
    of its rows with an observation, and no such row has a later time; it
    is NaN when, and only when, all these rows have a missing time. *)
Theorem max_t_per_group_bound data g (t : option F) :
  Forecaster.get_max_t_per_group data g = Some t ->
  match t with
  | Some m =>
      has (fun r => observed_in g r && (ModelPipeline.row_t r == Some m)) data /\
      all (fun r => observed_in g r ==>
             if ModelPipeline.row_t r is Some x then x <= m else true) data
  | None =>
      has (observed_in g) data /\
      all (fun r => observed_in g r ==> (ModelPipeline.row_t r == None)) data
  end.
Proof.
rewrite get_max_t_per_group_has; case: ifP => // has_rows [<-].
have:= series_max_bound [seq ModelPipeline.row_t r | r <- data & observed_in g r].
case: (Forecaster.series_max _) => [m|].
  case/andP=> m_in le_m; split.
    move: m_in; rewrite -has_pred1 has_map has_count count_filter -has_count.
    by apply: sub_has => r' /= /andP[-> ->].
  by move: le_m; rewrite all_map all_filter.
by rewrite all_map all_filter.
Qed.

Lemma filter_observed data g :
  all (fun r => Forecaster.in_group g r ==> (ModelPipeline.row_obs r != None))
    data ->
  [seq r <- data | Forecaster.in_group g r] =
  [seq r <- data | observed_in g r].
Proof.
elim: data => [|r data IH] //= /andP[obs_r /IH ->].
by rewrite /observed_in andbC; case: (Forecaster.in_group g r) obs_r => //= ->.
Qed.

(** X4.  The last time that [simulate] forecasts from is never before the
    one [get_max_t_per_group] gives for the group, and it is that one when
    every row of the group has an observation. *)
Theorem simulate_max_t_helper (self : Forecaster.t F) (mp : ModelPipeline.t F)
    (far_out num_simulations : nat) (group : string) (epsilon : F)
    (z : nat -> nat -> F) (l : Forecaster.locals F) :
  Forecaster.simulate_locals self mp far_out num_simulations group epsilon z =
    Ok l ->
  let helper :=
    Forecaster.get_max_t_per_group (ModelPipeline.all_data mp) group in
  (forall m, helper = Some (Some m) ->
     exists2 m', Forecaster.max_t l = Some m' & m <= m') /\
  (all (fun r => Forecaster.in_group group r ==>
                 (ModelPipeline.row_obs r != None))
     (ModelPipeline.all_data mp) ->
   Forecaster.max_t l = odflt None helper).
Proof.
move=> /simulate_locals_history[[def_d def_t _ _ _] _] helper.
rewrite /helper def_t def_d.
rewrite get_max_t_per_group_has; split; last first.
  move/filter_observed=> ->; case: ifP => //=.
  by rewrite has_count -size_filter; case: (filter _ _).
move=> m; case: ifP => // _ [def_m].
have:= series_max_bound
         [seq ModelPipeline.row_t r
         | r <- ModelPipeline.all_data mp & observed_in group r].
rewrite def_m => /andP[m_obs _].
have m_all: Some m \in [seq ModelPipeline.row_t r
                       | r <- ModelPipeline.all_data mp
                       & Forecaster.in_group group r].
  move: m_obs; rewrite -!has_pred1 !has_map !has_count !count_filter -!has_count.
  by apply: sub_has => r /= /andP[->] /andP[_ ->].
have:= series_max_bound
         [seq ModelPipeline.row_t r
         | r <- ModelPipeline.all_data mp & Forecaster.in_group group r].
case: (Forecaster.series_max _) => [m' /andP[_ /allP/(_ _ m_all) le_m]|].
  by exists m'.
by move/allP/(_ _ m_all).
Qed.

End HelperFacts.

(** ** LinearResidualModel.fit: missing columns, repeated calls *)

Section LeastSquares.

Variable F : realFieldType.

Notation model := (LinearResidualModel.t F).
Notation intercept := LinearResidualModel.intercept.
Notation pred := LinearResidualModel.pred.
Notation out := LinearResidualModel.out.

Lemma select_absent C (df : DataFrame.t C) (ns : seq string) :
  ~~ all (fun n => n \in DataFrame.names df) ns ->
  DataFrame.select df ns = Raise KeyError.
Proof.
elim: ns => [|n ns IH] //=; rewrite /DataFrame.getitem /DataFrame.names.
rewrite lookup_names; case: (DataFrame.lookup _ n) => [v|] //= /IH ->.
by [].
Qed.

Lemma names_design_frame (m : model) (n : string) :
  (n \in DataFrame.names (LinearResidualModel.design_frame m)) =
  (n == intercept) || (n \in DataFrame.names (LinearResidualModel.data m)).
Proof.
rewrite /DataFrame.names /= names_assign; case: ifP => [in_data|_].
  by case: eqP => // ->.
by rewrite mem_rcons in_cons.
Qed.

(** X7.  [fit] raises [KeyError] exactly when the outcome or a covariate is not
    a column of the training table, the intercept apart, which [fit] adds
    itself; the model is then as it was. *)
Theorem fit_missing_column (m : model) :
  let known n :=
    (n == intercept) || (n \in DataFrame.names (LinearResidualModel.data m)) in
  is_not_found (LinearResidualModel.fit m).2 =
    ~~ all known (LinearResidualModel.outcome m :: LinearResidualModel.covariates m)
  /\ (is_not_found (LinearResidualModel.fit m).2 ->
      LinearResidualModel.fit m = (m, Raise KeyError)).
Proof.
move=> known.
have def_known: all known (LinearResidualModel.outcome m
                           :: LinearResidualModel.covariates m) =
                columns_present m.
  rewrite /columns_present [all _ (LinearResidualModel.design_columns m)]/=.
  rewrite [all known _]/= !names_design_frame eqxx /= andbC /known.
  by congr (_ && _); apply: eq_all => n; rewrite names_design_frame.
rewrite def_known; have [present_m|absent_m] := boolP (columns_present m).
  rewrite (fit_present present_m).
  by rewrite /LinearResidualModel.linalg_inv; case: ifP.
suff ->: LinearResidualModel.fit m = (m, Raise KeyError) by [].
case/nandP: absent_m => [/select_absent sx|absent_y].
  by rewrite /LinearResidualModel.fit sx.
have /select_absent sy:
  ~~ all (fun n => n \in DataFrame.names (LinearResidualModel.design_frame m))
     [:: LinearResidualModel.outcome m] by rewrite /= andbT.
have [/select_present|/select_absent sx] :=
  boolP (all (fun n => n \in DataFrame.names (LinearResidualModel.design_frame m))
           (LinearResidualModel.design_columns m)).
  by rewrite /LinearResidualModel.fit sy; case: (DataFrame.select _ _).
by rewrite /LinearResidualModel.fit sx.
Qed.

Lemma fit_set_coef (m : model) (c : seq F) :
  LinearResidualModel.fit (LinearResidualModel.set_coef m c) =
  match LinearResidualModel.fit m with
  | (m1, Ok _) => (m1, Ok tt)
  | (_, Raise e) => (LinearResidualModel.set_coef m c, Raise e)
  end.
Proof.
have ->:
  LinearResidualModel.fit (LinearResidualModel.set_coef m c) =
  match DataFrame.select (LinearResidualModel.design_frame m)
          (LinearResidualModel.design_columns m),
        DataFrame.select (LinearResidualModel.design_frame m)
          [:: LinearResidualModel.outcome m] with
  | Raise e, _ => (LinearResidualModel.set_coef m c, Raise e)
  | Ok _, Raise e => (LinearResidualModel.set_coef m c, Raise e)
  | Ok _, Ok _ =>
      match LinearResidualModel.linalg_inv ((pred m)^T *m pred m) with
      | Raise e => (LinearResidualModel.set_coef m c, Raise e)
      | Ok inv =>
          (LinearResidualModel.set_coef m
             (LinearResidualModel.ravel (inv *m (pred m)^T *m out m)), Ok tt)
      end
  end by [].
rewrite /LinearResidualModel.fit.
case: (DataFrame.select _ (LinearResidualModel.design_columns m)) => [cs|e] //.
case: (DataFrame.select _ _) => [cs'|e] //.
by case: (LinearResidualModel.linalg_inv _).
Qed.

Lemma size_ravel (n : nat) (c : 'cV[F]_n) :
  size (LinearResidualModel.ravel c) = n.
Proof. by rewrite size_map size_enum_ord. Qed.

Lemma fit_cases (m : model) :
  (exists e, LinearResidualModel.fit m = (m, Raise e)) \/
  (exists2 c, size c = (size (LinearResidualModel.covariates m)).+1 &
              LinearResidualModel.fit m =
              (LinearResidualModel.set_coef m c, Ok tt)).
Proof.
rewrite /LinearResidualModel.fit.
case: (DataFrame.select _ _) => [cs|e]; last by left; exists e.
case: (DataFrame.select _ _) => [cs'|e]; last by left; exists e.
case: (LinearResidualModel.linalg_inv _) => [inv|e]; last by left; exists e.
by right; eexists; last by []; rewrite size_ravel.
Qed.

(** X9.  [fit] works on a copy of the training table: the model keeps its data
    (no intercept column is added to it), its outcome and its covariates; a
    call that raises leaves the coefficients as they were; and fitting a
    second time gives what the first call gave. *)
Theorem fit_again (m : model) :
  let m' := (LinearResidualModel.fit m).1 in
  [/\ LinearResidualModel.data m' = LinearResidualModel.data m,
      LinearResidualModel.outcome m' = LinearResidualModel.outcome m /\
      LinearResidualModel.covariates m' = LinearResidualModel.covariates m,
      ~~ is_ok (LinearResidualModel.fit m).2 -> m' = m &
      LinearResidualModel.fit m' = LinearResidualModel.fit m].
Proof.
case: (fit_cases m) => [[e def_fit]|[c _ def_fit]] /=; rewrite def_fit /=.
  by split.
by split=> //; rewrite fit_set_coef def_fit.
Qed.

End LeastSquares.

(** ** fit_residuals, predict and simulate together *)

Section GridMore.

Variable F : realFieldType.

Notation model := (LinearResidualModel.t F).
Notation frame := (DataFrame.t (value F)).
Notation intercept := LinearResidualModel.intercept.

Lemma numeric_map (xs : seq F) : numeric [seq Num x | x <- xs].
Proof. by rewrite /numeric -map_comp. Qed.

Lemma numeric_pairs (ds : seq F) (nd : seq (value F)) :
  numeric nd ->
  [seq p.2 | p <- [seq (d, v) | d <- ds, v <- nd]] =
  [seq Num (amount p.2) | p <- [seq (d, v) | d <- ds, v <- nd]].
Proof.
move=> num_nd; rewrite !map_allpairs /=.
by elim: ds => [|d ds IH] //=; rewrite IH map_id -num_nd.
Qed.

Lemma product_pairs (ds : seq F) (nd : seq (value F)) :
  Forecaster.product [seq Num d | d <- ds] nd =
  [seq (Num p.1, p.2) | p <- [seq (d, v) | d <- ds, v <- nd]].
Proof. by rewrite /Forecaster.product allpairs_mapl map_allpairs. Qed.

(** The grid of [predict] for distances that are numbers.  The amounts of
    data need to be numbers only when a regression reads them. *)
Lemma predict_table (self : Forecaster.t F) (mm sm : model) (cm cs : seq F)
    (ds : seq F) (nd : seq (value F)) :
  Forecaster.mean_residual_model self = Some mm ->
  LinearResidualModel.coef mm = Some cm ->
  size cm = (size (LinearResidualModel.covariates mm)).+1 ->
  all (mem grid_cols) (LinearResidualModel.covariates mm) ->
  Forecaster.std_residual_model self = Some sm ->
  LinearResidualModel.coef sm = Some cs ->
  size cs = (size (LinearResidualModel.covariates sm)).+1 ->
  all (mem grid_cols_mean) (LinearResidualModel.covariates sm) ->
  (Forecaster.num_data_col \in
     LinearResidualModel.covariates mm ++ LinearResidualModel.covariates sm ->
   numeric nd) ->
  let pairs := [seq (d, v) | d <- ds, v <- nd] in
  let mean p :=
    linear_predictor (intercept :: LinearResidualModel.covariates mm) cm
      (grid_row p.1 (amount p.2)) in
  let std p :=
    linear_predictor (intercept :: LinearResidualModel.covariates sm) cs
      (grid_row_mean p.1 (amount p.2) (mean p)) in
  Forecaster.predict self [seq Num d | d <- ds] nd =
  Ok (DataFrame.Build (size pairs)
        [:: (Forecaster.far_out_col, [seq Num p.1 | p <- pairs]);
            (Forecaster.num_data_col, [seq p.2 | p <- pairs]);
            (intercept, nseq (size pairs) (Num 1));
            (Forecaster.residual_mean_col, [seq Num (mean p) | p <- pairs]);
            (Forecaster.residual_std_col, [seq Num (std p) | p <- pairs])]).
Proof.
move=> def_mm def_cm sz_cm cov_mm def_sm def_cs sz_cs cov_sm num_nd pairs mean std.
pose nd0 : frame :=
  DataFrame.from_records [seq (Num p.1, p.2) | p <- pairs]
    Forecaster.far_out_col Forecaster.num_data_col.
pose df2 : frame :=
  DataFrame.Build (size pairs)
    [:: (Forecaster.far_out_col, [seq Num p.1 | p <- pairs]);
        (Forecaster.num_data_col, [seq p.2 | p <- pairs]);
        (intercept, nseq (size pairs) (Num 1));
        (Forecaster.residual_mean_col, [seq Num (mean p) | p <- pairs])].
have pm: (LinearResidualModel.predict mm nd0).2 =
         Ok [:: [seq Num (mean p) | p <- pairs]].
  rewrite (@predict_numeric _ mm _ cm
             [seq grid_row p.1 (amount p.2) | p <- pairs]) //.
  - by rewrite /= !size_map.
  - move=> c; rewrite in_cons => /orP[/eqP->|c_cov] /=.
      by rewrite size_map -map_comp map_cst.
    have /(allP cov_mm): c \in LinearResidualModel.covariates mm by [].
    rewrite !inE => /or3P[] /eqP def_c; move: c_cov; rewrite def_c /= => c_cov.
    + by rewrite -!map_comp.
    + rewrite -!map_comp [in RHS]/comp /= -(numeric_pairs ds) //.
      by apply: num_nd; rewrite mem_cat c_cov.
    + by rewrite -!map_comp ?size_map ?map_cst.
  by rewrite -map_comp.
have ps: (LinearResidualModel.predict sm df2).2 =
         Ok [:: [seq Num (std p) | p <- pairs]].
  rewrite (@predict_numeric _ sm _ cs
             [seq grid_row_mean p.1 (amount p.2) (mean p) | p <- pairs]) //.
  - by rewrite /= size_map.
  - move=> c; rewrite in_cons => /orP[/eqP->|c_cov] /=.
      by rewrite -map_comp map_cst.
    have /(allP cov_sm): c \in LinearResidualModel.covariates sm by [].
    rewrite !inE => /or4P[] /eqP def_c; move: c_cov; rewrite def_c /= => c_cov.
    + by rewrite -!map_comp.
    + rewrite -!map_comp [in RHS]/comp /= -(numeric_pairs ds) //.
      by apply: num_nd; rewrite mem_cat c_cov orbT.
    + by rewrite -!map_comp ?map_cst.
    + by rewrite -!map_comp.
  by rewrite -map_comp.
apply: (@predict_steps _ _ _ _
          (DataFrame.setitem_scalar nd0 intercept (Num 1))
          [:: [seq Num (mean p) | p <- pairs]] df2
          (DataFrame.setitem_scalar df2 intercept (Num 1))
          [:: [seq Num (std p) | p <- pairs]]).
- by rewrite def_mm product_pairs (model_predict_some pm).
- by rewrite /= /DataFrame.setitem /= !size_map eqxx -!map_comp.
- by rewrite def_sm (model_predict_some ps).
by rewrite /= /DataFrame.setitem /= !size_map eqxx.
Qed.

(** *** fit_residuals with the type "linear" *)

Lemma fit_residuals_linear (self : Forecaster.t F) (data : DataFrame.t F)
    (mean_col std_col : string) (covs : seq string) :
  Forecaster.fit_residuals self data mean_col std_col covs Forecaster.linear =
  let m0 := LinearResidualModel.init data mean_col covs in
  let s0 := LinearResidualModel.init data std_col covs in
  match LinearResidualModel.fit m0 with
  | (m1, Raise e) => (Forecaster.Build (Some m1) (Some s0), Raise e)
  | (m1, Ok _) =>
      (Forecaster.Build (Some m1) (Some (LinearResidualModel.fit s0).1),
       (LinearResidualModel.fit s0).2)
  end.
Proof.
rewrite /Forecaster.fit_residuals eqxx /=.
case: (LinearResidualModel.fit _) => m1 [u|e] //.
by case: (LinearResidualModel.fit _).
Qed.

Lemma getitem_names_ok C (df : DataFrame.t C) (n : string) :
  is_ok (DataFrame.getitem df n) = (n \in DataFrame.names df).
Proof.
rewrite /DataFrame.getitem /DataFrame.names lookup_names.
by case: (DataFrame.lookup _ n).
Qed.

(** A model without coefficients predicts nothing on a frame that has a
    row. *)
Lemma predict_unfitted (m : model) (df : frame) :
  LinearResidualModel.coef m = None -> DataFrame.nrows df != 0%N ->
  is_ok (LinearResidualModel.predict m df).2 = false.
Proof.
move=> no_coef /negbTE rows_df; rewrite predict_result; cbv zeta.
case: (DataFrame.select _ _) => [cols|e] //=.
by rewrite no_coef rows_df.
Qed.

(** X11.  A model on which [fit] has not run, as [__init__] leaves it, cannot
    predict.  On a frame that has a row the call raises, after it has
    written the intercept column into the frame: [KeyError] when a covariate
    is not a column of the frame, and otherwise the [TypeError] of the
    product with [None]. *)
Theorem predict_before_fit (m : model) (df : frame) :
  LinearResidualModel.coef m = None -> DataFrame.nrows df != 0%N ->
  let df' := (LinearResidualModel.predict m df).1 in
  df' = DataFrame.setitem_scalar df intercept (Num 1) /\
  (LinearResidualModel.predict m df).2 =
    if all (fun n => n \in DataFrame.names df')
         (LinearResidualModel.covariates m)
    then Raise TypeError else Raise KeyError.
Proof.
move=> no_coef /negbTE rows_df df'; split=> //.
rewrite /df' predict_frame predict_result; cbv zeta.
set df1 := DataFrame.setitem_scalar df intercept (Num 1).
have in_df1: intercept \in DataFrame.names df1.
  by rewrite -getitem_names_ok getitem_setitem_scalar.
have [present|absent] := boolP (all _ _).
  have: is_ok (DataFrame.select df1
                 (intercept :: LinearResidualModel.covariates m)).
    by apply: select_present; rewrite /= in_df1.
  by case: (DataFrame.select _ _) => //= cols _; rewrite no_coef rows_df.
by rewrite select_absent //= in_df1.
Qed.

Lemma model_predict_unfitted (m : model) (df : frame) :
  LinearResidualModel.coef m = None -> DataFrame.nrows df != 0%N ->
  is_ok (Forecaster.model_predict (Some m) df) = false.
Proof.
move=> no_coef rows_df; rewrite /Forecaster.model_predict.
rewrite (surjective_pairing (LinearResidualModel.predict m df)).
by case: (_.2) (predict_unfitted no_coef rows_df).
Qed.

Lemma predict_std_unfitted (self : Forecaster.t F) (sm : model)
    (far_out num_data : seq (value F)) :
  Forecaster.std_residual_model self = Some sm ->
  LinearResidualModel.coef sm = None ->
  (0 < size far_out)%N -> (0 < size num_data)%N ->
  is_ok (Forecaster.predict self far_out num_data) = false.
Proof.
move=> def_sm no_coef fo0 nd0; rewrite /Forecaster.predict.
case def_mp: (Forecaster.model_predict _ _) => [[df1 p]|] //=.
case/model_predict_ok: def_mp => mm _ [def_df1 _].
case def_df2: (DataFrame.setitem2d _ _ _) => [df2|] //=.
case/setitem2d_ok: def_df2 => v [_ _ def_df2].
have rows_df2: DataFrame.nrows df2 != 0%N.
  rewrite def_df2 def_df1 /= /Forecaster.product size_allpairs.
  by rewrite muln_eq0 negb_or -!lt0n fo0.
have:= model_predict_unfitted no_coef rows_df2; rewrite def_sm.
by case: (Forecaster.model_predict _ _).
Qed.

(** X12.  A call of [fit_residuals] with the type "linear" that raises has
    already replaced the two models: the std model is left without
    coefficients, the mean model without them too when it is its fit that
    failed, and [predict] raises on every grid that has a row, whatever the
    forecaster could do before. *)
Theorem fit_residuals_failure (self self' : Forecaster.t F)
    (data : DataFrame.t F) (mean_col std_col : string) (covs : seq string)
    (e : exn) :
  Forecaster.fit_residuals self data mean_col std_col covs Forecaster.linear =
    (self', Raise e) ->
  [/\ Forecaster.mean_residual_model self' =
        Some (LinearResidualModel.fit
                (LinearResidualModel.init data mean_col covs)).1,
      Forecaster.std_residual_model self' =
        Some (LinearResidualModel.init data std_col covs) &
      forall far_out num_data : seq (value F),
        (0 < size far_out)%N -> (0 < size num_data)%N ->
        is_ok (Forecaster.predict self' far_out num_data) = false].
Proof.
rewrite fit_residuals_linear; cbv zeta.
set m0 := LinearResidualModel.init data mean_col covs.
set s0 := LinearResidualModel.init data std_col covs.
case: (fit_cases m0) => [[e1 ->]|[c _ ->]].
  by case=> <- _; split=> // fo nd; apply: predict_std_unfitted.
case: (fit_cases s0) => [[e2 ->]|[c2 _ ->]] //= [<- _].
by split=> // fo nd; apply: predict_std_unfitted.
Qed.

(** *** fit_residuals, then predict *)

Lemma linear_predictor_ext (cols : seq string) (c : seq F)
    (e e' : string -> F) :
  (forall n, n \in cols -> e n = e' n) ->
  linear_predictor cols c e = linear_predictor cols c e'.
Proof.
move=> eq_e; rewrite /linear_predictor.
elim: cols c eq_e => [|n cols IH] [|a c] eq_e; rewrite /= ?big_nil //.
rewrite !big_cons eq_e ?mem_head // IH // => n' n'_in.
by rewrite eq_e // in_cons n'_in orbT.
Qed.

Lemma fit_residuals_ok (self self' : Forecaster.t F) (data : DataFrame.t F)
    (mean_col std_col : string) (covs : seq string) :
  Forecaster.fit_residuals self data mean_col std_col covs Forecaster.linear =
    (self', Ok tt) ->
  exists cm cs : seq F,
    [/\ size cm = (size covs).+1, size cs = (size covs).+1 &
        self' =
        Forecaster.Build
          (Some (LinearResidualModel.Build data mean_col covs (Some cm)))
          (Some (LinearResidualModel.Build data std_col covs (Some cs)))].
Proof.
rewrite fit_residuals_linear; cbv zeta.
case: (fit_cases (LinearResidualModel.init data mean_col covs))
  => [[e ->]|[cm sz_cm ->]] //.
case: (fit_cases (LinearResidualModel.init data std_col covs))
  => [[e ->]|[cs sz_cs ->]] //= [<-].
by exists cm, cs.
Qed.

(** X13.  After a call of [fit_residuals] that returned, with covariates among
    "far_out" and "num_data", [predict] returns for all numbers of
    distances and amounts, also none: the grid of their pairs, with the
    values of the two fitted regressions in each row. *)
Theorem fit_residuals_then_predict (self self' : Forecaster.t F)
    (data : DataFrame.t F) (mean_col std_col : string) (covs : seq string)
    (distances amounts : seq F) :
  Forecaster.fit_residuals self data mean_col std_col covs Forecaster.linear =
    (self', Ok tt) ->
  all (mem [:: Forecaster.far_out_col; Forecaster.num_data_col]) covs ->
  exists mm sm cm cs,
    [/\ Forecaster.mean_residual_model self' = Some mm,
        LinearResidualModel.coef mm = Some cm,
        Forecaster.std_residual_model self' = Some sm,
        LinearResidualModel.coef sm = Some cs &
        let pairs := grid_pairs distances amounts in
        let value_of c p :=
          Num (linear_predictor (intercept :: covs) c (grid_row p.1 p.2)) in
        Forecaster.predict self' [seq Num d | d <- distances]
          [seq Num a | a <- amounts] =
        Ok (DataFrame.Build (size distances * size amounts)
              [:: (Forecaster.far_out_col, [seq Num p.1 | p <- pairs]);
                  (Forecaster.num_data_col, [seq Num p.2 | p <- pairs]);
                  (intercept, nseq (size distances * size amounts) (Num 1));
                  (Forecaster.residual_mean_col,
                   [seq value_of cm p | p <- pairs]);
                  (Forecaster.residual_std_col,
                   [seq value_of cs p | p <- pairs])])].
Proof.
move=> /fit_residuals_ok[cm [cs [sz_cm sz_cs ->]]] cov_grid.
set mm := LinearResidualModel.Build data mean_col covs (Some cm).
set sm := LinearResidualModel.Build data std_col covs (Some cs).
exists mm, sm, cm, cs; split=> // pairs value_of.
have cov_m: all (mem grid_cols) covs.
  by apply: sub_all cov_grid => n; rewrite !inE => /orP[] ->; rewrite ?orbT.
have cov_s: all (mem grid_cols_mean) covs.
  by apply: sub_all cov_grid => n; rewrite !inE => /orP[] ->; rewrite ?orbT.
rewrite (@predict_table _ mm sm cm cs) //; first by move=> _; apply: numeric_map.
rewrite /pairs /grid_pairs allpairs_mapr size_allpairs !map_allpairs /=.
congr (Ok (DataFrame.Build _ [:: _; _; _; _; (_, _)])).
apply: eq_allpairs => d a; rewrite /value_of /=; congr Num.
apply: linear_predictor_ext => n.
rewrite in_cons => /orP[/eqP->|n_in] //.
have /(allP cov_grid): n \in covs by [].
by rewrite /grid_row_mean !inE => /orP[] /eqP->.
Qed.

End GridMore.

Section SimulateMore.

Variable F : realFieldType.
Variable translate : option F -> option F.

Notation model := (LinearResidualModel.t F).
Notation frame := (DataFrame.t (value F)).
Notation intercept := LinearResidualModel.intercept.

(** X14.  Before [fit_residuals] has set the mean model, [predict] and
    [simulate] raise [AttributeError] for all their other arguments: the
    grid and the history are built, and the call fails on
    [self.mean_residual_model.predict]. *)
Theorem unfitted_forecaster (self : Forecaster.t F)
    (far_out num_data : seq (value F)) (mp : ModelPipeline.t F)
    (horizon num_simulations : nat) (group : string) (epsilon : F)
    (z : nat -> nat -> F) :
  Forecaster.mean_residual_model self = None ->
  Forecaster.predict self far_out num_data = Raise AttributeError /\
  Forecaster.simulate translate self mp horizon num_simulations group
    epsilon z = Raise AttributeError.
Proof.
move=> no_model.
have no_grid fo nd : Forecaster.predict self fo nd = Raise AttributeError.
  by rewrite /Forecaster.predict no_model.
by rewrite /Forecaster.simulate /Forecaster.simulate_locals !no_grid.
Qed.

Lemma simulate_restrict (self : Forecaster.t F) (mp : ModelPipeline.t F)
    (far_out num_simulations : nat) (group : string) (epsilon : F)
    (z : nat -> nat -> F) :
  Forecaster.simulate translate self mp far_out num_simulations group
    epsilon z =
  Forecaster.simulate translate self (restrict mp group) far_out
    num_simulations group epsilon z.
Proof.
by rewrite /Forecaster.simulate /Forecaster.simulate_locals /= filter_id.
Qed.

(** X15.  [simulate] reads the rows of its group and no other: two pipelines
    that differ in the rows of other groups only give the same result. *)
Theorem simulate_own_group (self : Forecaster.t F)
    (mp mp' : ModelPipeline.t F) (far_out num_simulations : nat)
    (group : string) (epsilon : F) (z : nat -> nat -> F) :
  restrict mp group = restrict mp' group ->
  Forecaster.simulate translate self mp far_out num_simulations group
    epsilon z =
  Forecaster.simulate translate self mp' far_out num_simulations group
    epsilon z.
Proof.
by move=> same; rewrite simulate_restrict same -simulate_restrict.
Qed.

Lemma mapM_to_float (xs : seq F) :
  mapM (@to_float F) [seq Num x | x <- xs] = Ok xs.
Proof. by rewrite -[in RHS](map_id xs); apply: mapM_map_ok. Qed.

Lemma mapM_py_max_num (epsilon : F) (xs : seq F) :
  mapM (py_max epsilon) [seq Num x | x <- xs] =
  Ok [seq Num (Num.max x epsilon) | x <- xs].
Proof.
apply: mapM_map_ok => x /=; rewrite /Num.max.
by case: ifP.
Qed.

Lemma random_normal_num (loc scale : seq F) (n h : nat)
    (z : nat -> nat -> F) :
  size loc = h -> size scale = h -> all (fun s => 0 <= s) scale ->
  Forecaster.random_normal [seq Num x | x <- loc] [seq Num x | x <- scale]
    n h z =
  Ok [seq [seq nth 0 loc j + nth 0 scale j * z i j | j <- iota 0 h]
     | i <- iota 0 n].
Proof.
move=> sz_loc sz_scale pos_scale.
rewrite /Forecaster.random_normal !mapM_to_float /=.
have /negbTE->: ~~ has (fun x => x < 0) scale.
  by rewrite -all_predC; apply: sub_all pos_scale => x /=; rewrite -leNgt.
by rewrite !broadcast_same.
Qed.

(** The lines 175 to 204 run when their five fallible steps do. *)
Lemma simulate_locals_steps (self : Forecaster.t F) (mp : ModelPipeline.t F)
    (far_out num_simulations : nat) (group : string) (epsilon : F)
    (z : nat -> nat -> F) (g : frame) (vm ps sr : seq (value F))
    (e : seq (seq F)) :
  let data :=
    [seq r <- ModelPipeline.all_data mp | Forecaster.in_group group r] in
  Forecaster.predict self
    [seq Num k%:R | k <- [seq k.+1 | k <- iota 0 far_out]]
    (Forecaster.array_of_series F
       (Forecaster.count_columns mp
          [seq r <- data | ModelPipeline.row_obs_compare r != None])) =
    Ok g ->
  DataFrame.getitem g Forecaster.residual_mean_col = Ok vm ->
  DataFrame.getitem g Forecaster.residual_std_col = Ok ps ->
  mapM (py_max epsilon) ps = Ok sr ->
  Forecaster.random_normal vm sr num_simulations far_out z = Ok e ->
  exists l,
    Forecaster.simulate_locals self mp far_out num_simulations group epsilon
      z = Ok l.
Proof.
move=> data def_g def_vm def_ps def_sr def_e.
rewrite /Forecaster.simulate_locals def_g /rbind def_vm def_ps def_sr def_e.
by eexists.
Qed.

(** X16.  With regressions fitted on "far_out" alone and a floor that is not
    negative, lines 175 to 204 of [simulate], from the selection of the
    rows of the group to the flags of the simulated values, run without
    raising for every pipeline, group, horizon and number of draws. *)
Theorem simulate_reaches_assembly (self0 self : Forecaster.t F)
    (data : DataFrame.t F) (mean_col std_col : string) (covs : seq string)
    (mp : ModelPipeline.t F) (far_out num_simulations : nat)
    (group : string) (epsilon : F) (z : nat -> nat -> F) :
  Forecaster.fit_residuals self0 data mean_col std_col covs Forecaster.linear =
    (self, Ok tt) ->
  all (pred1 Forecaster.far_out_col) covs ->
  0 <= epsilon ->
  exists l,
    Forecaster.simulate_locals self mp far_out num_simulations group epsilon
      z = Ok l.
Proof.
move=> /fit_residuals_ok[cm [cs [sz_cm sz_cs ->]]] cov_far eps0.
set mm := LinearResidualModel.Build data mean_col covs (Some cm).
set sm := LinearResidualModel.Build data std_col covs (Some cs).
have cov_m: all (mem grid_cols) covs.
  by apply: sub_all cov_far => n /= /eqP->.
have cov_s: all (mem grid_cols_mean) covs.
  by apply: sub_all cov_far => n /= /eqP->.
have no_nd: Forecaster.num_data_col \in covs ++ covs -> False.
  by rewrite mem_cat orbb => /(allP cov_far).
have def_g ds nd := @predict_table _ (Forecaster.Build (Some mm) (Some sm))
                      mm sm cm cs ds nd (erefl _) (erefl _) sz_cm cov_m
                      (erefl _) (erefl _) sz_cs cov_s
                      (fun in_covs => False_ind _ (no_nd in_covs)).
pose counts :=
  Forecaster.array_of_series F
    (Forecaster.count_columns mp
       [seq r <- [seq r <- ModelPipeline.all_data mp
                 | Forecaster.in_group group r]
       | ModelPipeline.row_obs_compare r != None]).
pose ds : seq F := [seq k%:R | k <- [seq k.+1 | k <- iota 0 far_out]].
pose pairs := [seq (d, v) | d <- ds, v <- counts].
have sz_pairs: size pairs = far_out.
  by rewrite size_allpairs !size_map size_iota muln1.
pose mean (p : F * value F) :=
  linear_predictor (intercept :: covs) cm (grid_row p.1 (amount p.2)).
pose std (p : F * value F) :=
  linear_predictor (intercept :: covs) cs
    (grid_row_mean p.1 (amount p.2) (mean p)).
pose g : frame :=
  DataFrame.Build (size pairs)
    [:: (Forecaster.far_out_col, [seq Num p.1 | p <- pairs]);
        (Forecaster.num_data_col, [seq p.2 | p <- pairs]);
        (intercept, nseq (size pairs) (Num 1));
        (Forecaster.residual_mean_col, [seq Num (mean p) | p <- pairs]);
        (Forecaster.residual_std_col, [seq Num (std p) | p <- pairs])].
have def_grid:
  Forecaster.predict (Forecaster.Build (Some mm) (Some sm))
    [seq Num k%:R | k <- [seq k.+1 | k <- iota 0 far_out]] counts = Ok g.
  by rewrite (map_comp (@Num F)) def_g.
have def_vm: DataFrame.getitem g Forecaster.residual_mean_col =
             Ok [seq Num x | x <- [seq mean p | p <- pairs]].
  by rewrite -map_comp.
have def_ps: DataFrame.getitem g Forecaster.residual_std_col =
             Ok [seq Num x | x <- [seq std p | p <- pairs]].
  by rewrite -map_comp.
have [e def_e]: exists e,
  Forecaster.random_normal [seq Num x | x <- [seq mean p | p <- pairs]]
    [seq Num (Num.max x epsilon) | x <- [seq std p | p <- pairs]]
    num_simulations far_out z = Ok e.
  rewrite (map_comp (@Num F) (Num.max^~ epsilon)).
  rewrite random_normal_num; last by eexists.
  - by rewrite size_map sz_pairs.
  - by rewrite !size_map sz_pairs.
  by rewrite all_map; apply/allP => p _ /=; rewrite le_max eps0 orbT.
exact: (simulate_locals_steps def_grid def_vm def_ps (mapM_py_max_num _ _)
          def_e).
Qed.

End SimulateMore.

(** ** Grids with array cells *)

Section Cells.

Variable F : realFieldType.

Notation model := (LinearResidualModel.t F).
Notation frame := (DataFrame.t (value F)).
Notation intercept := LinearResidualModel.intercept.

Implicit Types (v acc : value F) (row : seq (value F)) (c : seq F).

Lemma vscale_shaped k v a :
  shaped k (vscale v a) = shaped k v /\ is_arr (vscale v a) = is_arr v.
Proof. by case: v => [x|xs] //=; rewrite size_map. Qed.

Lemma vadd_shaped k v w :
  shaped k v -> shaped k w ->
  exists r, [/\ vadd v w = Ok r, shaped k r & is_arr r = is_arr v || is_arr w].
Proof.
case: v w => [x|xs] [y|ys] /=.
- by exists (Num (x + y)).
- by move=> _ sz_ys; eexists; split=> //=; rewrite size_map.
- by move=> sz_xs _; eexists; split=> //=; rewrite size_map.
move=> /eqP sz_xs /eqP sz_ys; rewrite sz_xs sz_ys eqxx.
by eexists; split=> //=; rewrite size_map size_zip sz_xs sz_ys minnn.
Qed.

Lemma dot_from_shaped k acc row c :
  shaped k acc -> all (shaped k) row ->
  exists r,
    [/\ dot_from acc row c = Ok r, shaped k r &
        is_arr r = is_arr acc || has is_arr (take (size c) row)].
Proof.
elim: row c acc => [|x row IH] [|a c] acc sh_acc //=;
  try by exists acc; rewrite orbF.
case/andP=> sh_x sh_row.
have [sh_xa arr_xa] := vscale_shaped k x a.
have [acc' [-> sh_acc' arr_acc']] : exists r,
  [/\ vadd acc (vscale x a) = Ok r, shaped k r &
      is_arr r = is_arr acc || is_arr (vscale x a)].
  by apply: vadd_shaped; rewrite ?sh_xa.
have [r [def_r sh_r arr_r]] := IH c acc' sh_acc' sh_row.
by exists r; split; rewrite //= arr_r arr_acc' arr_xa orbA.
Qed.

Lemma dot_row_shaped k row c :
  all (shaped k) row ->
  [/\ dot_row row c = Ok (dot_cell row c), shaped k (dot_cell row c) &
      is_arr (dot_cell row c) = has is_arr (take (size c) row)].
Proof.
rewrite /dot_cell; case: row c => [|x row] [|a c] //= /andP[sh_x sh_row].
have [sh_xa arr_xa] := vscale_shaped k x a.
have [r [-> sh_r ->]] :=
  @dot_from_shaped k (vscale x a) row c (etrans sh_xa sh_x) sh_row.
by rewrite arr_xa.
Qed.

Lemma mapM_map A A' B (h : A' -> A) (g : A -> result B) (s : seq A') :
  mapM g [seq h x | x <- s] = mapM (fun x => g (h x)) s.
Proof. by elim: s => [|x s IH] //=; rewrite IH. Qed.

(** [LinearResidualModel.predict] on a frame whose rows are given by a
    function of the column name. *)
Lemma predict_cells (m : model) (df : frame) (c : seq F) (A : Type)
    (es : seq A) (f : A -> string -> value F) :
  LinearResidualModel.coef m = Some c ->
  size c = (size (LinearResidualModel.covariates m)).+1 ->
  DataFrame.nrows df = size es ->
  (forall n, n \in intercept :: LinearResidualModel.covariates m ->
     DataFrame.lookup
       (DataFrame.columns (DataFrame.setitem_scalar df intercept (Num 1))) n =
     Some [seq f e n | e <- es]) ->
  (LinearResidualModel.predict m df).2 =
  rbind (mapM (fun e =>
                 dot_row [seq f e n
                         | n <- intercept :: LinearResidualModel.covariates m]
                   c) es)
    (fun p => Ok [:: p]).
Proof.
move=> def_c sz_c sz_df cols_df.
rewrite predict_result; cbv zeta.
rewrite (select_lookup cols_df) /rbind def_c.
rewrite size_map sz_c eqxx [DataFrame.nrows _]sz_df.
by rewrite (rows_of_map (Num 0) f) mapM_map.
Qed.

Lemma mapM_ok A B (g : A -> result B) (f : A -> B) (s : seq A) :
  (forall x, g x = Ok (f x)) -> mapM g s = Ok [seq f x | x <- s].
Proof. by move=> gf; elim: s => [|x s IH] //=; rewrite gf /= IH. Qed.

Lemma count_row_shaped (counts : seq F) (d : F) (ns : seq string) :
  all (shaped (size counts)) [seq count_row counts d n | n <- ns].
Proof.
rewrite all_map; apply/allP => n _ /=; rewrite /count_row.
by do 3![case: ifP => _ //=].
Qed.

Lemma count_row_mean_shaped (counts : seq F) (d : F) (m : value F)
    (ns : seq string) :
  shaped (size counts) m ->
  all (shaped (size counts)) [seq count_row_mean counts d m n | n <- ns].
Proof.
move=> sh_m; rewrite all_map; apply/allP => n _ /=.
rewrite /count_row_mean /count_row.
by do 4![case: ifP => _ //=].
Qed.

(** The grid of [predict] when the amount of data is one array: every
    regression that reads "num_data" has arrays for values. *)
Lemma predict_counts (self : Forecaster.t F) (mm sm : model) (cm cs : seq F)
    (ds counts : seq F) :
  Forecaster.mean_residual_model self = Some mm ->
  LinearResidualModel.coef mm = Some cm ->
  size cm = (size (LinearResidualModel.covariates mm)).+1 ->
  all (mem grid_cols) (LinearResidualModel.covariates mm) ->
  Forecaster.std_residual_model self = Some sm ->
  LinearResidualModel.coef sm = Some cs ->
  size cs = (size (LinearResidualModel.covariates sm)).+1 ->
  all (mem grid_cols_mean) (LinearResidualModel.covariates sm) ->
  let mean d :=
    dot_cell [seq count_row counts d n
             | n <- intercept :: LinearResidualModel.covariates mm] cm in
  let std d :=
    dot_cell [seq count_row_mean counts d (mean d) n
             | n <- intercept :: LinearResidualModel.covariates sm] cs in
  Forecaster.predict self [seq Num d | d <- ds] [:: Arr counts] =
  Ok (DataFrame.Build (size ds)
        [:: (Forecaster.far_out_col, [seq Num d | d <- ds]);
            (Forecaster.num_data_col, [seq Arr counts | d <- ds]);
            (intercept, nseq (size ds) (Num 1));
            (Forecaster.residual_mean_col, [seq mean d | d <- ds]);
            (Forecaster.residual_std_col, [seq std d | d <- ds])]).
Proof.
move=> def_mm def_cm sz_cm cov_mm def_sm def_cs sz_cs cov_sm mean std.
pose nd0 : frame :=
  DataFrame.from_records [seq (Num d, Arr counts) | d <- ds]
    Forecaster.far_out_col Forecaster.num_data_col.
pose df2 : frame :=
  DataFrame.Build (size ds)
    [:: (Forecaster.far_out_col, [seq Num d | d <- ds]);
        (Forecaster.num_data_col, [seq Arr counts | d <- ds]);
        (intercept, nseq (size ds) (Num 1));
        (Forecaster.residual_mean_col, [seq mean d | d <- ds])].
have sh_mean d : shaped (size counts) (mean d).
  by have [] := @dot_row_shaped _ _ cm (count_row_shaped counts d
                  (intercept :: LinearResidualModel.covariates mm)).
have pm: (LinearResidualModel.predict mm nd0).2 = Ok [:: [seq mean d | d <- ds]].
  rewrite (@predict_cells mm _ cm _ ds (count_row counts)) //.
  - by rewrite /= size_map.
  - move=> c; rewrite in_cons => /orP[/eqP->|c_cov] /=.
      by rewrite size_map map_cst.
    have /(allP cov_mm): c \in LinearResidualModel.covariates mm by [].
    by rewrite !inE => /or3P[] /eqP-> /=;
       rewrite -?map_comp ?size_map ?map_cst.
  rewrite (@mapM_ok _ _ _ mean) // => d.
  by have [] := @dot_row_shaped _ _ cm (count_row_shaped counts d
                  (intercept :: LinearResidualModel.covariates mm)).
have ps: (LinearResidualModel.predict sm df2).2 = Ok [:: [seq std d | d <- ds]].
  rewrite (@predict_cells sm _ cs _ ds
             (fun d => count_row_mean counts d (mean d))) //.
  - move=> c; rewrite in_cons => /orP[/eqP->|c_cov] /=.
      by rewrite map_cst.
    have /(allP cov_sm): c \in LinearResidualModel.covariates sm by [].
    by rewrite !inE => /or4P[] /eqP-> /=; rewrite -?map_comp ?map_cst.
  rewrite (@mapM_ok _ _ _ std) // => d.
  by have [] := @dot_row_shaped _ _ cs (count_row_mean_shaped d
                  (intercept :: LinearResidualModel.covariates sm)
                  (sh_mean d)).
apply: (@predict_steps _ _ _ _
          (DataFrame.setitem_scalar nd0 intercept (Num 1))
          [:: [seq mean d | d <- ds]] df2
          (DataFrame.setitem_scalar df2 intercept (Num 1))
          [:: [seq std d | d <- ds]]).
- rewrite def_mm /Forecaster.product allpairs_mapl allpairs1r.
  by rewrite (model_predict_some pm).
- by rewrite /= /DataFrame.setitem /= !size_map eqxx -!map_comp.
- by rewrite def_sm (model_predict_some ps).
by rewrite /= /DataFrame.setitem /= !size_map eqxx.
Qed.

Lemma py_max_array (epsilon : F) (v : value F) (k : nat) :
  is_arr v -> shaped k v -> (1 < k)%N -> py_max epsilon v = Raise ValueError.
Proof. by case: v => [x|[|x [|y xs]]] //= _ /eqP<-. Qed.

End Cells.

Section SimulateCounts.

Variable F : realFieldType.
Variable translate : option F -> option F.

Notation model := (LinearResidualModel.t F).
Notation intercept := LinearResidualModel.intercept.

(** X17.  A forecaster whose regressions read "num_data" cannot simulate.  The
    amount of data that [simulate] hands to [predict] is the array of the
    counts of the columns, so the predicted spread of every row is an array,
    and [max(x, epsilon)] has no truth value to decide on: the call raises
    [ValueError] for every pipeline, group and number of draws, as soon as
    the horizon has one step. *)
Theorem simulate_num_data_covariate (self0 self : Forecaster.t F)
    (data : DataFrame.t F) (mean_col std_col : string) (covs : seq string)
    (mp : ModelPipeline.t F) (far_out num_simulations : nat)
    (group : string) (epsilon : F) (z : nat -> nat -> F) :
  Forecaster.fit_residuals self0 data mean_col std_col covs Forecaster.linear =
    (self, Ok tt) ->
  all (mem [:: Forecaster.far_out_col; Forecaster.num_data_col]) covs ->
  Forecaster.num_data_col \in covs ->
  (0 < far_out)%N ->
  Forecaster.simulate_locals self mp far_out num_simulations group epsilon z =
    Raise ValueError /\
  Forecaster.simulate translate self mp far_out num_simulations group
    epsilon z = Raise ValueError.
Proof.
move=> /fit_residuals_ok[cm [cs [sz_cm sz_cs ->]]] cov_grid nd_cov far_out0.
set mm := LinearResidualModel.Build data mean_col covs (Some cm).
set sm := LinearResidualModel.Build data std_col covs (Some cs).
have cov_m: all (mem grid_cols) covs.
  by apply: sub_all cov_grid => n; rewrite !inE => /orP[] ->; rewrite ?orbT.
have cov_s: all (mem grid_cols_mean) covs.
  by apply: sub_all cov_grid => n; rewrite !inE => /orP[] ->; rewrite ?orbT.
suff def_l:
  Forecaster.simulate_locals (Forecaster.Build (Some mm) (Some sm)) mp
    far_out num_simulations group epsilon z = Raise ValueError.
  by rewrite /Forecaster.simulate def_l.
pose counts : seq F :=
  [seq (c.2)%:R
  | c <- Forecaster.count_columns mp
           [seq r <- [seq r <- ModelPipeline.all_data mp
                     | Forecaster.in_group group r]
           | ModelPipeline.row_obs_compare r != None]].
pose ds : seq F := [seq k%:R | k <- [seq k.+1 | k <- iota 0 far_out]].
have def_g := @predict_counts _ (Forecaster.Build (Some mm) (Some sm)) mm sm
                cm cs ds counts (erefl _) (erefl _) sz_cm cov_m (erefl _)
                (erefl _) sz_cs cov_s.
move: def_g; cbv zeta.
set mean := fun d : F => dot_cell _ cm.
set std := fun d : F => dot_cell _ cs.
move=> def_g.
have sh_mean d : shaped (size counts) (mean d).
  by have [] := @dot_row_shaped _ _ _ cm (count_row_shaped counts d
                  (intercept :: covs)).
have sh_std d : shaped (size counts) (std d).
  by have [] := @dot_row_shaped _ _ _ cs
                  (count_row_mean_shaped d (intercept :: covs) (sh_mean d)).
have std_arr d : is_arr (std d).
  have [_ _ ->] := @dot_row_shaped _ _ _ cs
                     (count_row_mean_shaped d (intercept :: covs) (sh_mean d)).
  rewrite take_oversize ?size_map ?sz_cs // has_map.
  apply/hasP; exists Forecaster.num_data_col; last by [].
  by rewrite in_cons nd_cov orbT.
rewrite /Forecaster.simulate_locals -/counts.
rewrite -[Forecaster.array_of_series F _]/([:: Arr counts]).
rewrite (map_comp (@Num F)) -/ds def_g /=.
case def_ds: ds => [|d0 ds'] /=.
  by move: def_ds; rewrite /ds; case: (far_out) far_out0.
by rewrite (@py_max_array _ epsilon (std d0) 4 (std_arr d0) (sh_std d0)).
Qed.

End SimulateCounts.

(** ** get_covariates_by_group *)

Section DictFacts.

Variable V : Type.

Lemma get_set (d : Dict.t V) (k k' : string) (v : V) :
  Dict.get (Dict.set d k v) k' = if k == k' then Some v else Dict.get d k'.
Proof.
elim: d => [|p d IH] /=; first by [].
case: (eqVneq p.1 k) => [->|ne_pk] /=; first by case: eqP.
rewrite IH; case: (eqVneq k k') => [<-|//].
by rewrite (negbTE ne_pk).
Qed.

Lemma get_map (f : string -> V) (ks : seq string) (k : string) :
  Dict.get [seq (k', f k') | k' <- ks] k =
  if k \in ks then Some (f k) else None.
Proof.
elim: ks => [|k0 ks IH] //=; rewrite in_cons eq_sym.
by case: (eqVneq k k0) => [->|_].
Qed.

End DictFacts.

Section CovariateFacts.

Variable F : realFieldType.

Notation table := (Covariates.table F).
Implicit Types (data : table) (col s : seq (option F)) (k : string).

Lemma mem_unique s : Covariates.unique s =i s.
Proof.
elim: s => [|x s IH] y //=; rewrite !in_cons mem_filter IH.
by case: (eqVneq y x).
Qed.

Lemma unique_single s :
  (size (Covariates.unique s) == 1%N) =
  (s != [::]) && all (pred1 (head None s)) s.
Proof.
case: s => [|x s] //=; rewrite eqxx /= eqSS size_eq0.
apply/eqP/allP => [no_other y y_in|all_x].
  rewrite /=; case: (eqVneq y x) => // ne_yx.
  have: y \in [seq z <- Covariates.unique s | z != x].
    by rewrite mem_filter ne_yx mem_unique.
  by rewrite no_other.
apply/eqP; rewrite -[_ == _]negbK -has_filter -all_predC.
by apply/allP => y; rewrite mem_unique /= negbK => /all_x.
Qed.

Lemma head_unique s : head None (Covariates.unique s) = head None s.
Proof. by case: s. Qed.

(** The inner loop returns the first values when every group has one
    value, and fails on a group that has not. *)
Lemma single_values_spec (items : Dict.t (seq (option F))) :
  match Covariates.single_values items with
  | Covariates.Returns d =>
      all (fun p => size p.2 == 1%N) items /\
      d = [seq (p.1, head None p.2) | p <- items]
  | Covariates.Raises _ => False
  | Covariates.AssertionError k =>
      has (fun p => (p.1 == k) && (size p.2 != 1%N)) items
  end.
Proof.
elim: items => [|[k v] items IH] //=.
case: ifP => [sz_v|_]; last by rewrite eqxx.
case: (Covariates.single_values items) IH => [d [-> ->]|e|k'] //.
by move=> ->; rewrite orbT.
Qed.

Lemma cells_of_nth data col (i : nat) k :
  size (Covariates.group data) = size col ->
  nth None (Covariates.group data) i = Some k ->
  nth None col i \in Covariates.cells_of data col k.
Proof.
move=> sz_col def_k.
have lt_i: (i < size (Covariates.group data))%N.
  by case: ltnP def_k => // le_i; rewrite nth_default.
apply/mapP; exists (Some k, nth None col i) => //.
rewrite mem_filter /= eqxx /= -def_k -nth_zip //.
by apply: mem_nth; rewrite size_zip -sz_col minnn.
Qed.

Lemma group_keys_nth data (i : nat) k :
  nth None (Covariates.group data) i = Some k ->
  k \in Covariates.group_keys data.
Proof.
move=> def_k; rewrite /Covariates.group_keys mem_sort mem_undup mem_pmap map_id.
rewrite -def_k; apply: mem_nth.
by case: ltnP def_k => // le_i; rewrite nth_default.
Qed.

Lemma getitem_size C (df : DataFrame.t C) (n : string) (v : seq C) :
  DataFrame.wf df -> DataFrame.getitem df n = Ok v ->
  size v = DataFrame.nrows df.
Proof.
move=> wf_df; rewrite /DataFrame.getitem.
case def_v: (DataFrame.lookup _ n) => [w|] // [<-].
exact: lookup_wf wf_df def_v.
Qed.

(** With the columns as long as the table, a group has one value when,
    and only when, its cells are all the first of them. *)
Lemma unique_by_group_single data col :
  size (Covariates.group data) = size col ->
  all (fun p => size p.2 == 1%N) (Covariates.unique_by_group data col) =
  Covariates.constant_by_group data col.
Proof.
move=> sz_col; rewrite /Covariates.unique_by_group all_map.
apply: eq_in_all => k; rewrite /= unique_single.
rewrite /Covariates.group_keys mem_sort mem_undup mem_pmap map_id.
move=> /(nthP None)[i lt_i def_k].
have:= cells_of_nth sz_col def_k.
by case: (Covariates.cells_of data col k).
Qed.

Lemma covariates_from_spec data (covs : seq string)
    (acc : Dict.t (Dict.t (option F))) :
  match Covariates.covariates_from data covs acc with
  | Covariates.Returns d =>
      (forall cov, cov \in covs ->
         exists2 col,
           DataFrame.getitem (Covariates.frame data) cov = Ok col &
           all (fun p => size p.2 == 1%N)
             (Covariates.unique_by_group data col) /\
           Dict.get d cov =
             Some [seq (p.1, head None p.2)
                  | p <- Covariates.unique_by_group data col]) /\
      (forall cov, cov \notin covs -> Dict.get d cov = Dict.get acc cov)
  | Covariates.Raises e =>
      e = KeyError /\
      ~~ all (fun cov => cov \in DataFrame.names (Covariates.frame data)) covs
  | Covariates.AssertionError k =>
      exists cov col,
        [/\ cov \in covs,
            DataFrame.getitem (Covariates.frame data) cov = Ok col &
            has (fun p => (p.1 == k) && (size p.2 != 1%N))
              (Covariates.unique_by_group data col)]
  end.
Proof.
elim: covs acc => [|cov covs IH] acc /=; first by split.
rewrite -getitem_names_ok.
case def_col: (DataFrame.getitem _ cov) => [col|e] /=; last first.
  by move: def_col; rewrite /DataFrame.getitem; case: (DataFrame.lookup _ _) => // -[<-].
have:= single_values_spec (Covariates.unique_by_group data col).
case: (Covariates.single_values _) => [inner [single_col def_inner]|e|k] //;
  last by move=> has_k; exists cov, col; rewrite mem_head.
have:= IH (Dict.set acc cov inner).
case: (Covariates.covariates_from _ _ _) => [d [in_covs out_covs]|e|k] //.
- split=> [cov'|cov']; rewrite in_cons.
    have [cov'_in _|cov'_out] := boolP (cov' \in covs); first exact: in_covs.
    rewrite orbF => /eqP def_cov'; rewrite def_cov' in cov'_out *.
    exists col => //; split=> //.
    by rewrite (out_covs _ cov'_out) get_set eqxx def_inner.
  rewrite negb_or eq_sym => /andP[ne_cov /out_covs ->].
  by rewrite get_set (negbTE ne_cov).
- move=> [cov' [col' [cov'_in def_col' has_k]]].
  by exists cov', col'; rewrite in_cons cov'_in orbT.
Qed.

Lemma wf_getitem data cov col :
  Covariates.wf data ->
  DataFrame.getitem (Covariates.frame data) cov = Ok col ->
  size (Covariates.group data) = size col.
Proof.
by case/andP=> wf_df /eqP-> /(getitem_size wf_df).
Qed.

(** X18.  When [get_covariates_by_group] returns, its dictionary has, for every
    covariate asked for and every row of the table that has a group, the
    value of the covariate in that row under the group of the row. *)
Theorem get_covariates_by_group_sound (all_cov_names : seq string) data
    (d : Dict.t (Dict.t (option F))) :
  Covariates.wf data ->
  Covariates.get_covariates_by_group all_cov_names data =
    Covariates.Returns d ->
  forall cov, cov \in all_cov_names ->
  exists col inner,
    [/\ DataFrame.getitem (Covariates.frame data) cov = Ok col,
        Dict.get d cov = Some inner &
        forall (i : nat) k,
          nth None (Covariates.group data) i = Some k ->
          Dict.get inner k = Some (nth None col i)].
Proof.
move=> wf_data; rewrite /Covariates.get_covariates_by_group => def_d.
have:= covariates_from_spec data all_cov_names [::]; rewrite def_d.
case=> in_names _ cov /in_names[col def_col [single_col def_inner]].
have sz_col := wf_getitem wf_data def_col.
exists col; eexists; split; [by [] | exact: def_inner |] => i k def_k.
rewrite /Covariates.unique_by_group -map_comp.
rewrite (get_map (fun k' => head None
                    (Covariates.unique (Covariates.cells_of data col k')))).
rewrite (group_keys_nth def_k) head_unique; congr Some.
move: single_col; rewrite (unique_by_group_single sz_col).
move/allP/(_ _ (group_keys_nth def_k))/allP/(_ _ (cells_of_nth sz_col def_k)).
by move/eqP.
Qed.

(** X19.  The three ways the call can end.  It returns when every covariate is a
    column with one value in every group; it raises [KeyError] when it
    comes to a name that is not a column; and the assertion fails, naming
    a group, when a covariate has two values in that group. *)
Theorem get_covariates_by_group_outcome (all_cov_names : seq string) data :
  Covariates.wf data ->
  match Covariates.get_covariates_by_group all_cov_names data with
  | Covariates.Returns _ =>
      forall cov, cov \in all_cov_names ->
      exists2 col,
        DataFrame.getitem (Covariates.frame data) cov = Ok col &
        Covariates.constant_by_group data col
  | Covariates.Raises e =>
      e = KeyError /\
      ~~ all (fun cov => cov \in DataFrame.names (Covariates.frame data))
           all_cov_names
  | Covariates.AssertionError k =>
      exists cov col,
        [/\ cov \in all_cov_names,
            DataFrame.getitem (Covariates.frame data) cov = Ok col,
            k \in Covariates.group_keys data &
            ~~ all (pred1 (head None (Covariates.cells_of data col k)))
                 (Covariates.cells_of data col k)]
  end.
Proof.
move=> wf_data; rewrite /Covariates.get_covariates_by_group.
have:= covariates_from_spec data all_cov_names [::].
case: (Covariates.covariates_from _ _ _) => [d [in_names _]|e|k] //.
  move=> cov /in_names[col def_col [single_col _]]; exists col => //.
  by rewrite -(unique_by_group_single (wf_getitem wf_data def_col)).
case=> cov [col [cov_in def_col]].
rewrite /Covariates.unique_by_group has_map => /hasP[k' k'_in /=].
case/andP=> /eqP def_k'; rewrite def_k' in k'_in *.
rewrite unique_single negb_and negbK => /orP[/eqP no_cell|many].
  move: k'_in; rewrite /Covariates.group_keys mem_sort mem_undup mem_pmap.
  rewrite map_id => /(nthP None)[i lt_i def_k].
  have:= cells_of_nth (wf_getitem wf_data def_col) def_k.
  by rewrite no_cell.
by exists cov, col; split.
Qed.

End CovariateFacts.

(** ** The further properties on the worked examples *)

Lemma population_example :
  Covariates.get_covariates_by_group [:: "beds"; "pop"; "beds"]%string
    Fixtures.population = Covariates.Returns Fixtures.population_dict.
Proof. by []. Qed.

Lemma mixed_population_example :
  Covariates.get_covariates_by_group [:: "pop"%string] Fixtures.mixed_population =
  Covariates.AssertionError "A"%string.
Proof. by []. Qed.

Lemma fit_residuals_missing_example :
  Forecaster.fit_residuals Fixtures.grid_forecaster Fixtures.residual_table
    "missing"%string "residual_std"%string [:: "far_out"%string]
    Forecaster.linear =
  (Forecaster.Build
     (Some (LinearResidualModel.init Fixtures.residual_table
              "missing"%string [:: "far_out"%string]))
     (Some (LinearResidualModel.init Fixtures.residual_table
              "residual_std"%string [:: "far_out"%string])),
   Raise KeyError).
Proof. by []. Qed.

Lemma restrict_example :
  restrict Fixtures.pipeline "A"%string =
  restrict Fixtures.other_pipeline "A"%string.
Proof. by []. Qed.

Lemma num_obs_total_witness :
  (uniq [:: "A"; "B"]%string /\
   all (fun r : ModelPipeline.row rat =>
          if ModelPipeline.row_group r is Some g
          then g \in [:: "A"; "B"]%string else true) Fixtures.history) /\
  (\sum_(g <- [:: "A"; "B"]%string)
      odflt 0 (Forecaster.get_num_obs_per_group Fixtures.history g))%N = 3%N.
Proof.
split; first by [].
exact: (@num_obs_total rat Fixtures.history [:: "A"; "B"]%string isT isT).
Defined.

Lemma max_t_per_group_bound_witness :
  Forecaster.get_max_t_per_group Fixtures.history "A"%string =
    Some (Some 2) /\
  has (fun r => observed_in "A"%string r &&
                (ModelPipeline.row_t r == Some 2)) Fixtures.history /\
  all (fun r => observed_in "A"%string r ==>
         if ModelPipeline.row_t r is Some x then x <= 2 else true)
    Fixtures.history.
Proof.
split; first by [].
exact: (@max_t_per_group_bound rat Fixtures.history "A"%string (Some 2)
          (erefl _)).
Defined.

Lemma simulate_max_t_helper_witness :
  Forecaster.simulate_locals Fixtures.offset_forecaster Fixtures.pipeline 4 2
    "A"%string Fixtures.epsilon Fixtures.deviates = Ok Fixtures.locals_a /\
  let helper :=
    Forecaster.get_max_t_per_group
      (ModelPipeline.all_data Fixtures.pipeline) "A"%string in
  (forall m, helper = Some (Some m) ->
     exists2 m', Forecaster.max_t Fixtures.locals_a = Some m' & m <= m') /\
  (all (fun r => Forecaster.in_group "A"%string r ==>
                 (ModelPipeline.row_obs r != None))
     (ModelPipeline.all_data Fixtures.pipeline) ->
   Forecaster.max_t Fixtures.locals_a = odflt None helper).
Proof.
split; first exact: simulate_locals_example.
exact: (simulate_max_t_helper simulate_locals_example).
Defined.

Lemma fit_residuals_failure_witness :
  Forecaster.fit_residuals Fixtures.grid_forecaster Fixtures.residual_table
    "missing"%string "residual_std"%string [:: "far_out"%string]
    Forecaster.linear =
  (Forecaster.Build
     (Some (LinearResidualModel.init Fixtures.residual_table
              "missing"%string [:: "far_out"%string]))
     (Some (LinearResidualModel.init Fixtures.residual_table
              "residual_std"%string [:: "far_out"%string])),
   Raise KeyError) /\
  forall far_out num_data : seq (value rat),
    (0 < size far_out)%N -> (0 < size num_data)%N ->
    is_ok (Forecaster.predict
             (Forecaster.Build
                (Some (LinearResidualModel.init Fixtures.residual_table
                         "missing"%string [:: "far_out"%string]))
                (Some (LinearResidualModel.init Fixtures.residual_table
                         "residual_std"%string [:: "far_out"%string])))
             far_out num_data) = false.
Proof.
split; first exact: fit_residuals_missing_example.
by have [_ _] := fit_residuals_failure fit_residuals_missing_example.
Defined.

Lemma fit_residuals_then_predict_witness :
  (Forecaster.fit_residuals (Forecaster.init rat) Fixtures.grid_table
     "residual_mean"%string "residual_std"%string
     [:: "far_out"%string; "num_data"%string] Forecaster.linear =
     (Fixtures.grid_forecaster, Ok tt) /\
   all (mem [:: Forecaster.far_out_col; Forecaster.num_data_col])
     [:: "far_out"%string; "num_data"%string]) /\
  exists mm sm cm cs,
    [/\ Forecaster.mean_residual_model Fixtures.grid_forecaster = Some mm,
        LinearResidualModel.coef mm = Some cm,
        Forecaster.std_residual_model Fixtures.grid_forecaster = Some sm,
        LinearResidualModel.coef sm = Some cs &
        let pairs := grid_pairs [:: 1; 2; 3] [:: 10] in
        let value_of c p :=
          Num (linear_predictor
                 [:: LinearResidualModel.intercept; "far_out"; "num_data"]%string
                 c (grid_row p.1 p.2)) in
        Forecaster.predict Fixtures.grid_forecaster
          [seq Num d | d <- [:: 1; 2; 3]] [seq Num a | a <- [:: 10]] =
        Ok (DataFrame.Build 3
              [:: (Forecaster.far_out_col, [seq Num p.1 | p <- pairs]);
                  (Forecaster.num_data_col, [seq Num p.2 | p <- pairs]);
                  (LinearResidualModel.intercept, nseq 3 (Num 1));
                  (Forecaster.residual_mean_col,
                   [seq value_of cm p | p <- pairs]);
                  (Forecaster.residual_std_col,
                   [seq value_of cs p | p <- pairs])])].
Proof.
split; first by split; [exact: fit_residuals_grid_example|].
exact: (@fit_residuals_then_predict rat (Forecaster.init rat)
          Fixtures.grid_forecaster Fixtures.grid_table "residual_mean"%string
          "residual_std"%string [:: "far_out"%string; "num_data"%string]
          [:: 1; 2; 3] [:: 10] fit_residuals_grid_example isT).
Defined.

Lemma unfitted_forecaster_witness :
  Forecaster.mean_residual_model (Forecaster.init rat) = None /\
  Forecaster.predict (Forecaster.init rat) [:: Num 1; Num 2] [:: Num 10] =
    Raise AttributeError /\
  Forecaster.simulate Fixtures.identity (Forecaster.init rat)
    Fixtures.pipeline 4 2 "A"%string Fixtures.epsilon Fixtures.deviates =
    Raise AttributeError.
Proof.
split; first by [].
exact: (@unfitted_forecaster rat Fixtures.identity (Forecaster.init rat)
          [:: Num 1; Num 2] [:: Num 10] Fixtures.pipeline 4 2 "A"%string
          Fixtures.epsilon Fixtures.deviates (erefl _)).
Defined.

Lemma simulate_own_group_witness :
  restrict Fixtures.pipeline "A"%string =
    restrict Fixtures.other_pipeline "A"%string /\
  Forecaster.simulate Fixtures.identity Fixtures.offset_forecaster
    Fixtures.pipeline 4 2 "A"%string Fixtures.epsilon Fixtures.deviates =
  Forecaster.simulate Fixtures.identity Fixtures.offset_forecaster
    Fixtures.other_pipeline 4 2 "A"%string Fixtures.epsilon Fixtures.deviates.
Proof.
split; first exact: restrict_example.
exact: (@simulate_own_group rat Fixtures.identity Fixtures.offset_forecaster
          Fixtures.pipeline Fixtures.other_pipeline 4 2 "A"%string Fixtures.epsilon
          Fixtures.deviates restrict_example).
Defined.

Lemma simulate_reaches_assembly_witness :
  [/\ Forecaster.fit_residuals (Forecaster.init rat) Fixtures.residual_table
        "residual_mean"%string "residual_std"%string [:: "far_out"%string]
        Forecaster.linear = (Fixtures.offset_forecaster, Ok tt),
      all (pred1 Forecaster.far_out_col) [:: "far_out"%string] &
      0 <= Fixtures.epsilon] /\
  exists l,
    Forecaster.simulate_locals Fixtures.offset_forecaster Fixtures.pipeline
      4 2 "A"%string Fixtures.epsilon Fixtures.deviates = Ok l.
Proof.
split; first by split; [exact: fit_residuals_example| |].
exact: (@simulate_reaches_assembly rat (Forecaster.init rat)
          Fixtures.offset_forecaster Fixtures.residual_table
          "residual_mean"%string "residual_std"%string [:: "far_out"%string]
          Fixtures.pipeline 4 2 "A"%string Fixtures.epsilon Fixtures.deviates
          fit_residuals_example isT isT).
Defined.

Lemma simulate_num_data_covariate_witness :
  [/\ Forecaster.fit_residuals (Forecaster.init rat) Fixtures.grid_table
        "residual_mean"%string "residual_std"%string
        [:: "far_out"%string; "num_data"%string] Forecaster.linear =
        (Fixtures.grid_forecaster, Ok tt),
      all (mem [:: Forecaster.far_out_col; Forecaster.num_data_col])
        [:: "far_out"%string; "num_data"%string],
      Forecaster.num_data_col \in [:: "far_out"%string; "num_data"%string] &
      (0 < 4)%N] /\
  Forecaster.simulate_locals Fixtures.grid_forecaster Fixtures.pipeline 4 2
    "A"%string Fixtures.epsilon Fixtures.deviates = Raise ValueError /\
  Forecaster.simulate Fixtures.identity Fixtures.grid_forecaster
    Fixtures.pipeline 4 2 "A"%string Fixtures.epsilon Fixtures.deviates =
    Raise ValueError.
Proof.
split; first by split; [exact: fit_residuals_grid_example| | |].
exact: (@simulate_num_data_covariate rat Fixtures.identity
          (Forecaster.init rat) Fixtures.grid_forecaster Fixtures.grid_table
          "residual_mean"%string "residual_std"%string
          [:: "far_out"%string; "num_data"%string] Fixtures.pipeline 4 2
          "A"%string Fixtures.epsilon Fixtures.deviates
          fit_residuals_grid_example isT isT isT).
Defined.

Lemma predict_before_fit_witness :
  (LinearResidualModel.coef
     (LinearResidualModel.init Fixtures.grid_table "residual_mean"%string
        [:: "far_out"%string; "num_data"%string]) = None /\
   DataFrame.nrows Fixtures.one_row != 0%N) /\
  (LinearResidualModel.predict
     (LinearResidualModel.init Fixtures.grid_table "residual_mean"%string
        [:: "far_out"%string; "num_data"%string]) Fixtures.one_row).1 =
    DataFrame.setitem_scalar Fixtures.one_row LinearResidualModel.intercept
      (Num 1) /\
  (LinearResidualModel.predict
     (LinearResidualModel.init Fixtures.grid_table "residual_mean"%string
        [:: "far_out"%string; "num_data"%string]) Fixtures.one_row).2 =
    Raise TypeError.
Proof.
split; first by [].
exact: (@predict_before_fit rat
          (LinearResidualModel.init Fixtures.grid_table "residual_mean"%string
             [:: "far_out"%string; "num_data"%string])
          Fixtures.one_row (erefl _) isT).
Defined.

Lemma get_covariates_by_group_sound_witness :
  (Covariates.wf Fixtures.population /\
   Covariates.get_covariates_by_group [:: "beds"; "pop"; "beds"]%string
     Fixtures.population = Covariates.Returns Fixtures.population_dict) /\
  forall cov, cov \in [:: "beds"; "pop"; "beds"]%string ->
  exists col inner,
    [/\ DataFrame.getitem (Covariates.frame Fixtures.population) cov = Ok col,
        Dict.get Fixtures.population_dict cov = Some inner &
        forall (i : nat) k,
          nth None (Covariates.group Fixtures.population) i = Some k ->
          Dict.get inner k = Some (nth None col i)].
Proof.
split; first by [].
exact: (@get_covariates_by_group_sound rat [:: "beds"; "pop"; "beds"]%string
          Fixtures.population Fixtures.population_dict isT population_example).
Defined.

Lemma get_covariates_by_group_outcome_witness :
  Covariates.wf Fixtures.mixed_population /\
  exists cov col,
    [/\ cov \in [:: "pop"%string],
        DataFrame.getitem (Covariates.frame Fixtures.mixed_population) cov = Ok col,
        "A"%string \in Covariates.group_keys Fixtures.mixed_population &
        ~~ all (pred1 (head None
                         (Covariates.cells_of Fixtures.mixed_population col
                            "A"%string)))
             (Covariates.cells_of Fixtures.mixed_population col "A"%string)].
Proof.
split; first by [].
exact: (@get_covariates_by_group_outcome rat [:: "pop"%string]
          Fixtures.mixed_population isT).
Defined.
